(** * Financial data-point extraction: model and properties

    A shallow embedding of the two implementations of
    [extract_financial_data_points]:

    - [AnalysisRepository] in [backend/app/repositories/analysis_repository.py]
      (module [Repo] below), with its helper [_extract_insights_fallback] and the
      output record built by [create_analysis_result];
    - [UserService] in [backend/app/services/user.py] (module [User] below),
      with its helper [_advanced_financial_extraction];

    and of [create_analysis_result] and the readers of [AnalysisRepository]
    over the stored analyses (module [Store] below).

    Python [str] values are sequences of Unicode code points; they are modelled
    as lists of code points ([N]).  The parts of the Python runtime that are
    tables of the Unicode database ([str.lower], [str.isdigit], the regex
    classes) are parameters of the model, gathered in the record [pyenv]. *)

From Stdlib Require Import String Ascii List NArith Arith Bool Lia Floats.
From Stdlib Require Import ZArith.
Import ListNotations.

Set Implicit Arguments.

(** ** Python strings *)

Definition char := N.
Definition str := list char.

(** An ASCII literal of the source, as a Python string. *)
Definition lit (s : string) : str := map N_of_ascii (list_ascii_of_string s).

(** The bullet character U+2022 of the repository source. *)
Definition bullet : str := [8226%N].

(** The three characters U+00E2 U+20AC U+00A2 that the user-service source
    holds in place of the bullet. *)
Definition bullet_mojibake : str := [226%N; 8364%N; 162%N].

Definition char_in (c : char) (cs : list char) : bool := existsb (N.eqb c) cs.

Definition between (lo hi c : char) : bool := (N.leb lo c && N.leb c hi)%bool.

(** [str.isspace] on one code point (also the regex class [\s] of [str]
    patterns): the 29 code points of Python's whitespace table. *)
Definition isspace (c : char) : bool :=
  (between 9%N 13%N c || between 28%N 32%N c || char_in c [133; 160; 5760]%N
   || between 8192%N 8202%N c
   || char_in c [8232; 8233; 8239; 8287; 12288]%N)%bool.

Fixpoint str_eqb (a b : str) : bool :=
  match a, b with
  | [], [] => true
  | x :: a', y :: b' => (N.eqb x y && str_eqb a' b')%bool
  | _, _ => false
  end.

(** [s.startswith(p)] *)
Fixpoint startswith (p s : str) : bool :=
  match p, s with
  | [], _ => true
  | x :: p', y :: s' => (N.eqb x y && startswith p' s')%bool
  | _ :: _, [] => false
  end.

(** [sub in s] *)
Fixpoint contains (sub s : str) : bool :=
  (startswith sub s ||
   match s with
   | [] => false
   | _ :: s' => contains sub s'
   end)%bool.

(** [s.find(sub)]; [None] stands for Python's [-1]. *)
Fixpoint find (sub s : str) : option nat :=
  if startswith sub s then Some 0
  else match s with
       | [] => None
       | _ :: s' => option_map S (find sub s')
       end.

(** [s.lstrip()], [s.rstrip()] and [s.strip()] with no argument. *)
Fixpoint lstrip (s : str) : str :=
  match s with
  | c :: s' => if isspace c then lstrip s' else s
  | [] => []
  end.

Definition rstrip (s : str) : str := rev (lstrip (rev s)).

Definition strip (s : str) : str := rstrip (lstrip s).

(** [s.split(sep)] for a one-character separator: always at least one piece. *)
Fixpoint split_on (sep : char) (s : str) : list str :=
  match s with
  | [] => [[]]
  | c :: s' =>
      if N.eqb c sep then [] :: split_on sep s'
      else match split_on sep s' with
           | w :: ws => (c :: w) :: ws
           | [] => [[c]]
           end
  end.

(** [s.split()] with no argument: the maximal runs of non-whitespace. *)
Fixpoint split_ws_aux (cur : str) (s : str) : list str :=
  match s with
  | [] => match cur with [] => [] | _ => [rev cur] end
  | c :: s' =>
      if isspace c
      then match cur with
           | [] => split_ws_aux [] s'
           | _ => rev cur :: split_ws_aux [] s'
           end
      else split_ws_aux (c :: cur) s'
  end.

Definition split_ws (s : str) : list str := split_ws_aux [] s.

(** [sep.join(parts)] *)
Fixpoint join (sep : str) (parts : list str) : str :=
  match parts with
  | [] => []
  | [p] => p
  | p :: ps => p ++ sep ++ join sep ps
  end.

(** [s.split(':', 1)[1]] when [':' in s]: what follows the first colon. *)
Fixpoint after_first (sep : char) (s : str) : str :=
  match s with
  | [] => []
  | c :: s' => if N.eqb c sep then s' else after_first sep s'
  end.

(** [v] occurs in [t] as a contiguous run of characters. *)
Definition substring (v t : str) : Prop := exists pre post, t = pre ++ v ++ post.

Definition is_suffix (s' s : str) : Prop := exists pre, s = pre ++ s'.

(** ** The runtime tables the code relies on *)

Record pyenv := {
  (** [str.lower] *)
  lower : str -> str;
  (** lowering maps one code point to at most three *)
  lower_length : forall s, length (lower s) <= 3 * length s;
  (** [str.isdigit] on one character *)
  isdigit : char -> bool;
  (** the regex class [\d] of [str] patterns (decimal digits) *)
  isdecimal : char -> bool;
  (** the simple lower-case mapping the regex engine folds case with *)
  tolower : char -> char;
  (** [list(set(l))]: the entries of [l], once each, in hash order *)
  list_of_set : list str -> list str;
  list_of_set_NoDup : forall l, NoDup (list_of_set l);
  list_of_set_In : forall l x, In x (list_of_set l) <-> In x l
}.

(** ** Regular expressions as [re] runs them

    The patterns of the source use literals, the classes [.], [\d], [\s],
    bracket sets, alternation, greedy and lazy repetition and at most one
    capturing group.  [re] matches by backtracking: alternatives left to right,
    a greedy repetition longest first, a lazy one shortest first, and the first
    success is the match. *)

Inductive cclass :=
| CLit (c : char)          (* a character with no case, compared as it is *)
| CLetter (lo : char)      (* a letter under IGNORECASE, given in lower case *)
| CAny                     (* [.]: anything but a newline *)
| CDigit                   (* [\d] *)
| CSpace                   (* [\s] *)
| CUnion (a b : cclass).   (* a bracket set *)

Inductive regex :=
| Eps
| Chr (c : cclass)
| Seq (a b : regex)
| Alt (a b : regex)
| Rep (a : regex) (lo : nat) (hi : option nat) (greedy : bool)
| Group (a : regex).

(** The extra case equivalences of the regex compiler for the letters of the
    patterns: dotless i for [i], long s for [s]. *)
Definition case_fixes (lo : char) : list char :=
  if N.eqb lo 105%N then [305%N]
  else if N.eqb lo 115%N then [383%N]
  else [].

(** One match found by [re]: where it starts, the text matched and the text of
    group 1 when the group took part. *)
Record rmatch := {
  m_start : nat;
  m_whole : str;
  m_group : option str
}.

Definition m_end (m : rmatch) : nat := m_start m + length (m_whole m).

Section Regex.
Variable E : pyenv.

Fixpoint cmatch (c : cclass) (x : char) : bool :=
  match c with
  | CLit l => N.eqb x l
  | CLetter lo =>
      let x' := tolower E x in
      (N.eqb x' lo || char_in x' (case_fixes lo))%bool
  | CAny => negb (N.eqb x 10)
  | CDigit => isdecimal E x
  | CSpace => isspace x
  | CUnion a b => (cmatch a x || cmatch b x)%bool
  end.

Section Matcher.
Variable A : Type.

(** A continuation receives the text of group 1 so far and the input that
    is left. *)
Definition cont := option str -> str -> option A.
Definition matcher := option str -> str -> cont -> option A.

Definition orelse (x y : option A) : option A :=
  match x with
  | Some a => Some a
  | None => y
  end.

(** [n] compulsory iterations. *)
Fixpoint iter_min (f : matcher) (n : nat) : matcher :=
  fun cap s k =>
    match n with
    | 0 => k cap s
    | S n' => f cap s (fun cap' s' => iter_min f n' cap' s' k)
    end.

(** Up to [fuel] further iterations, each of which consumes input (the
    bodies repeated in the patterns of the source never match the empty
    string). *)
Fixpoint iter_opt (f : matcher) (greedy : bool) (fuel : nat) : matcher :=
  fun cap s k =>
    match fuel with
    | 0 => k cap s
    | S fuel' =>
        let again :=
          f cap s (fun cap' s' =>
                     if length s' <? length s
                     then iter_opt f greedy fuel' cap' s' k
                     else None) in
        if greedy then orelse again (k cap s) else orelse (k cap s) again
    end.

Fixpoint rmatch_at (r : regex) : matcher :=
  fun cap s k =>
    match r with
    | Eps => k cap s
    | Chr c =>
        match s with
        | x :: s' => if cmatch c x then k cap s' else None
        | [] => None
        end
    | Seq a b => rmatch_at a cap s (fun cap' s' => rmatch_at b cap' s' k)
    | Alt a b => orelse (rmatch_at a cap s k) (rmatch_at b cap s k)
    | Rep a lo hi greedy =>
        iter_min (rmatch_at a) lo cap s
          (fun cap' s' =>
             let fuel := match hi with
                         | Some h => h - lo
                         | None => length s'
                         end in
             iter_opt (rmatch_at a) greedy fuel cap' s' k)
    | Group a =>
        rmatch_at a cap s
          (fun _ s' => k (Some (firstn (length s - length s') s)) s')
    end.
End Matcher.

(** The match of [r] that starts at the head of [s]: group 1 and what is left
    of [s] after the match. *)
Definition match_here (r : regex) (s : str) : option (option str * str) :=
  rmatch_at r None s (fun cap rest => Some (cap, rest)).

(** [re.search]: the leftmost match, [skipped] characters into the text. *)
Fixpoint search (r : regex) (skipped : nat) (s : str) : option rmatch :=
  match match_here r s with
  | Some (cap, rest) =>
      Some {| m_start := skipped;
              m_whole := firstn (length s - length rest) s;
              m_group := cap |}
  | None =>
      match s with
      | [] => None
      | _ :: s' => search r (S skipped) s'
      end
  end.

(** [re.finditer]: the matches from left to right, none overlapping; after an
    empty match the scan moves on by one character. *)
Fixpoint finditer_from (fuel : nat) (r : regex) (offset : nat) (s : str)
  : list rmatch :=
  match fuel with
  | 0 => []
  | S fuel' =>
      match search r offset s with
      | None => []
      | Some m =>
          let rest := skipn (m_end m - offset) s in
          m :: match m_whole m with
               | [] => match rest with
                       | [] => []
                       | _ :: rest' => finditer_from fuel' r (S (m_end m)) rest'
                       end
               | _ => finditer_from fuel' r (m_end m) rest
               end
      end
  end.

Definition finditer (r : regex) (s : str) : list rmatch :=
  finditer_from (S (length s)) r 0 s.

Fixpoint has_group (r : regex) : bool :=
  match r with
  | Eps | Chr _ => false
  | Seq a b | Alt a b => (has_group a || has_group b)%bool
  | Rep a _ _ _ => has_group a
  | Group _ => true
  end.

(** What [re.findall] lists for a match: group 1 when the pattern has a
    group (the empty string if it took no part), the whole match otherwise. *)
Definition findall_item (r : regex) (m : rmatch) : str :=
  if has_group r
  then match m_group m with Some g => g | None => [] end
  else m_whole m.

Definition findall (r : regex) (s : str) : list str :=
  map (findall_item r) (finditer r s).
End Regex.

(** *** Writing the patterns *)

Definition is_upper (c : char) : bool := between 65%N 90%N c.
Definition is_lower (c : char) : bool := between 97%N 122%N c.

(** A literal character of a pattern compiled with [re.IGNORECASE]. *)
Definition ichar (c : char) : regex :=
  if is_upper c then Chr (CLetter (c + 32)%N)
  else if is_lower c then Chr (CLetter c)
  else Chr (CLit c).

Fixpoint seq_of (rs : list regex) : regex :=
  match rs with
  | [] => Eps
  | [r] => r
  | r :: rs' => Seq r (seq_of rs')
  end.

Fixpoint alt_of (rs : list regex) : regex :=
  match rs with
  | [] => Eps
  | [r] => r
  | r :: rs' => Alt r (alt_of rs')
  end.

(** A literal run of a pattern compiled with [re.IGNORECASE]. *)
Definition word (s : string) : regex := seq_of (map ichar (lit s)).

(** [(?:w1|w2|...)] *)
Definition words (ws : list string) : regex := alt_of (map word ws).

Definition star (r : regex) : regex := Rep r 0 None true.
Definition plus (r : regex) : regex := Rep r 1 None true.
Definition opt (r : regex) : regex := Rep r 0 (Some 1) true.
Definition times (n : nat) (r : regex) : regex := Rep r n (Some n) true.
(** [.*?] *)
Definition lazy_any : regex := Rep (Chr CAny) 0 None false.

Definition digit : regex := Chr CDigit.
Definition chr (s : string) : regex := word s.

(** ** The extracted structure *)

(** The dictionary [data_points["metrics"]]: metric names with the captured
    text, in insertion order. *)
Definition dict := list (string * str).

Fixpoint dict_get (k : string) (d : dict) : option str :=
  match d with
  | [] => None
  | (k', v) :: d' => if String.eqb k k' then Some v else dict_get k d'
  end.

(** [d[k] = v] *)
Fixpoint dict_set (k : string) (v : str) (d : dict) : dict :=
  match d with
  | [] => [(k, v)]
  | (k', v') :: d' =>
      if String.eqb k k' then (k, v) :: d' else (k', v') :: dict_set k v d'
  end.

(** [k in d] *)
Definition dict_mem (k : string) (d : dict) : bool :=
  match dict_get k d with
  | Some _ => true
  | None => false
  end.

(** The five categories, the keys of the list fields of [data_points]. *)
Inductive section :=
| Insights
| KeyFindings
| FinancialHighlights
| Risks
| Opportunities.

Definition all_sections : list section :=
  [Insights; KeyFindings; FinancialHighlights; Risks; Opportunities].

Definition section_eqb (a b : section) : bool :=
  match a, b with
  | Insights, Insights
  | KeyFindings, KeyFindings
  | FinancialHighlights, FinancialHighlights
  | Risks, Risks
  | Opportunities, Opportunities => true
  | _, _ => false
  end.

Record data_points := {
  metrics : dict;
  insights : list str;
  key_findings : list str;
  financial_highlights : list str;
  risks : list str;
  opportunities : list str
}.

Definition empty_points : data_points :=
  {| metrics := []; insights := []; key_findings := [];
     financial_highlights := []; risks := []; opportunities := [] |}.

(** [data_points[key]] for a category key. *)
Definition entries (k : section) (d : data_points) : list str :=
  match k with
  | Insights => insights d
  | KeyFindings => key_findings d
  | FinancialHighlights => financial_highlights d
  | Risks => risks d
  | Opportunities => opportunities d
  end.

(** [data_points[key] = l] *)
Definition set_entries (k : section) (l : list str) (d : data_points)
  : data_points :=
  match k with
  | Insights =>
      {| metrics := metrics d; insights := l; key_findings := key_findings d;
         financial_highlights := financial_highlights d; risks := risks d;
         opportunities := opportunities d |}
  | KeyFindings =>
      {| metrics := metrics d; insights := insights d; key_findings := l;
         financial_highlights := financial_highlights d; risks := risks d;
         opportunities := opportunities d |}
  | FinancialHighlights =>
      {| metrics := metrics d; insights := insights d;
         key_findings := key_findings d; financial_highlights := l;
         risks := risks d; opportunities := opportunities d |}
  | Risks =>
      {| metrics := metrics d; insights := insights d;
         key_findings := key_findings d;
         financial_highlights := financial_highlights d; risks := l;
         opportunities := opportunities d |}
  | Opportunities =>
      {| metrics := metrics d; insights := insights d;
         key_findings := key_findings d;
         financial_highlights := financial_highlights d; risks := risks d;
         opportunities := l |}
  end.

(** [data_points[key].append(x)] *)
Definition append (k : section) (x : str) (d : data_points) : data_points :=
  set_entries k (entries k d ++ [x]) d.

Definition set_metrics (m : dict) (d : data_points) : data_points :=
  {| metrics := m; insights := insights d; key_findings := key_findings d;
     financial_highlights := financial_highlights d; risks := risks d;
     opportunities := opportunities d |}.

(** Truth value of a list or dictionary: it is not empty. *)
Definition truthy {A : Type} (l : list A) : bool :=
  match l with
  | [] => false
  | _ :: _ => true
  end.

(** The dictionary the function returns: the data points and the score. *)
Record extraction := {
  points : data_points;
  extraction_quality_score : float
}.

(** The dictionary of the [except] branch. *)
Definition empty_extraction : extraction :=
  {| points := empty_points; extraction_quality_score := 0%float |}.

(** [min(q, 1.0)] *)
Definition min_one (q : float) : float :=
  if (1 <? q)%float then 1%float else q.

(** What the function may be called with: the annotation [str] is not
    enforced, and [None] has no [split]. *)
Inductive pyobj :=
| PyStr (s : str)
| PyNone.

Inductive exn :=
| AttributeError.

(** The outcome of a block that may raise. *)
Inductive outcome (A : Type) :=
| Returns (a : A)
| Raises (e : exn).
Arguments Returns {A} a.
Arguments Raises {A} e.

(** *** Shapes shared by the patterns of both implementations *)

(** [[\d,]] *)
Definition digit_or_comma : cclass := CUnion CDigit (CLit 44%N).
(** [[BMK]] under IGNORECASE *)
Definition bmk : cclass :=
  CUnion (CLetter 98%N) (CUnion (CLetter 109%N) (CLetter 107%N)).

(** [\$[\d,]+\.?\d*[BMK]?] *)
Definition money : regex :=
  seq_of [chr "$"; plus (Chr digit_or_comma); opt (chr "."); star digit;
          opt (Chr bmk)].

(** [\d+(?:,\d{3})*(?:\.\d{2})?] *)
Definition grouped_number : regex :=
  seq_of [plus digit; star (Seq (chr ",") (times 3 digit));
          opt (Seq (chr ".") (times 2 digit))].

(** [(?:million|billion|thousand|M|B|K)] *)
Definition scale : regex :=
  words ["million"; "billion"; "thousand"; "M"; "B"; "K"]%string.

(** [(?:labels).*?(\$[\d,]+\.?\d*[BMK]?)] *)
Definition labelled_money (labels : list string) : regex :=
  seq_of [words labels; lazy_any; Group money].

(** [(?:labels).*?(\d+(?:,\d{3})*(?:\.\d{2})?)\s*(?:million|...|K)] *)
Definition labelled_amount (labels : list string) : regex :=
  seq_of [words labels; lazy_any; Group grouped_number; star (Chr CSpace);
          scale].

Definition space : str := lit " ".
Definition newline : char := 10%N.
Definition truncation_marker : str := lit "... [truncated to 200 words]".

(** The first lines of both implementations: the text is cut to 200 words. *)
Definition enforce_word_limit (summary_text : str) : str :=
  let words := split_ws summary_text in
  if 200 <? length words
  then join space (firstn 200 words) ++ truncation_marker
  else summary_text.

(** The loop over the patterns of one metric: the first pattern with a match
    gives the value, its first match. *)
Fixpoint first_match (E : pyenv) (patterns : list regex) (text : str)
  : option str :=
  match patterns with
  | [] => None
  | pattern :: rest =>
      match findall E pattern text with
      | m :: _ => Some m
      | [] => first_match E rest text
      end
  end.

(** The loop over a table of patterns, metric by metric. *)
Definition extract_metrics (E : pyenv) (table : list (string * list regex))
  (text : str) (m : dict) : dict :=
  fold_left
    (fun m entry =>
       match first_match E (snd entry) text with
       | Some v => dict_set (fst entry) v m
       | None => m
       end)
    table m.

(** [line.startswith('-') or line.startswith(b)] *)
Definition is_bullet_line (b : str) (line : str) : bool :=
  (startswith (lit "-") line || startswith b line)%bool.

Set Warnings "-inexact-float".

(** ** [AnalysisRepository] *)

Module Repo.
Section WithEnv.
Variable E : pyenv.

(** [financial_patterns] *)
Definition financial_patterns : list (string * list regex) :=
  [ ("revenue",
      [labelled_money ["revenue"; "sales"; "total revenue"];
       labelled_amount ["revenue"; "sales"]]);
    ("operating_income",
      [labelled_money ["operating income"; "operating profit"; "ebit"];
       labelled_amount ["operating income"; "operating profit"]]);
    ("net_income",
      [labelled_money ["net income"; "net profit"; "net earnings"];
       labelled_amount ["net income"; "net profit"]]);
    ("cash",
      [labelled_money ["cash"; "cash equivalents"];
       labelled_amount ["cash"; "cash equivalents"]]) ]%string.

(** The branch of the line loop that stores a bullet of the current
    section. *)
Definition store_bullet (current_section : option section) (content : str)
  (d : data_points) : data_points :=
  let here k :=
    match current_section with
    | Some k' => section_eqb k' k
    | None => false
    end in
  if (here Insights && (length (insights d) <? 5))%bool
  then append Insights (firstn 150 content) d
  else if (here KeyFindings && (length (key_findings d) <? 5))%bool
  then append KeyFindings (firstn 150 content) d
  else if (here FinancialHighlights
           && (length (financial_highlights d) <? 5))%bool
  then append FinancialHighlights (firstn 150 content) d
  else if (here Risks && (length (risks d) <? 5))%bool
  then append Risks (firstn 150 content) d
  else if (here Opportunities && (length (opportunities d) <? 5))%bool
  then append Opportunities (firstn 150 content) d
  else d.

(** The second bullet branch of the line loop ([elif ... len(line) > 20]). *)
Definition store_any_bullet (content : str) (d : data_points) : data_points :=
  if (existsb (isdigit E) content && (length (insights d) <? 3))%bool
  then append Insights (firstn 100 content) d
  else d.

(** Which arm of the line loop a line takes. *)
Inductive arm :=
| Skipped                          (* empty or shorter than 5 *)
| Header (k : section)             (* a section header: [continue] *)
| Leaves                           (* INVESTMENT RECOMMENDATION, ... *)
| SectionBullet (content : str)    (* bullet, [len(line) > 15] *)
| AnyBullet (content : str)        (* the [elif], [len(line) > 20] *)
| Ignored.                         (* no branch taken *)

Definition classify (raw : str) : arm :=
  let line := strip raw in
  if (negb (truthy line) || (length line <? 5))%bool then Skipped
  else
    let line_lower := lower E line in
    if contains (lit "total insights:") line_lower then Header Insights
    else if contains (lit "key findings:") line_lower then Header KeyFindings
    else if contains (lit "financial highlights:") line_lower
    then Header FinancialHighlights
    else if contains (lit "risk factors:") line_lower then Header Risks
    else if contains (lit "opportunities:") line_lower
    then Header Opportunities
    else if (startswith (lit "INVESTMENT RECOMMENDATION") line
             || startswith (lit "KEY FINANCIAL METRICS") line
             || startswith (lit "GROWTH & CHANGES") line)%bool
    then Leaves
    else if (is_bullet_line bullet line && (15 <? length line))%bool
    then SectionBullet (strip (skipn 1 line))
    else if (is_bullet_line bullet line && (20 <? length line))%bool
    then AnyBullet (strip (skipn 1 line))
    else Ignored.

(** One turn of [for line in lines], on the pair of [current_section] and
    [data_points]. *)
Definition line_step (st : option section * data_points) (raw : str)
  : option section * data_points :=
  let (current_section, d) := st in
  match classify raw with
  | Skipped => st
  | Header k => (Some k, d)
  | Leaves => (None, d)
  | SectionBullet content =>
      if 10 <? length content
      then (current_section, store_bullet current_section content d)
      else st
  | AnyBullet content => (current_section, store_any_bullet content d)
  | Ignored => st
  end.

(** The section-aware pass: the loop over [summary_text.split('\n')]. *)
Definition section_pass (text : str) (d : data_points) : data_points :=
  snd (fold_left line_step (split_on newline text) (None, d)).

(** [sections] of [_extract_insights_fallback] *)
Definition fallback_sections : list (section * list string) :=
  [ (Insights, ["Total Insights:"; "Insights:"]);
    (KeyFindings, ["Key Findings:"; "Findings:"]);
    (FinancialHighlights, ["Financial Highlights:"; "Highlights:"]);
    (Risks, ["Risk Factors:"; "Risks:"]);
    (Opportunities, ["Opportunities:"]) ]%string.

Definition other_headers : list string :=
  ["Total Insights:"; "Key Findings:"; "Financial Highlights:";
   "Risk Factors:"; "Opportunities:"; "Investment Recommendation:"]%string.

(** The search for the next header in [section_content]. *)
Definition next_section_idx (section_content : str) : nat :=
  fold_left
    (fun idx other_header =>
       match find (lower E (lit other_header)) (lower E section_content) with
       | Some other_idx => if other_idx <? idx then other_idx else idx
       | None => idx
       end)
    other_headers (length section_content).

(** One line of a slice of the fallback pass. *)
Definition fallback_line (k : section) (d : data_points) (raw : str)
  : data_points :=
  let line := strip raw in
  if (is_bullet_line bullet line && (15 <? length line))%bool
  then
    let content := strip (skipn 1 line) in
    if ((10 <? length content) && (length (entries k d) <? 5))%bool
    then append k (firstn 150 content) d
    else d
  else if ((startswith (lit "Risk ") line
            || startswith (lit "Opportunity ") line)
           && contains (lit ":") line)%bool
  then
    let content := strip (after_first 58%N line) in
    if ((10 <? length content) && (length (entries k d) <? 5))%bool
    then append k (firstn 150 content) d
    else d
  else d.

(** The body of [for header in section_headers]. *)
Definition fallback_header (summary_text : str) (k : section)
  (d : data_points) (header : string) : data_points :=
  if contains (lower E (lit header)) (lower E summary_text)
  then
    match find (lower E (lit header)) (lower E summary_text) with
    | Some start_idx =>
        let section_content :=
          skipn (start_idx + length (lit header)) summary_text in
        let section_content :=
          firstn (next_section_idx section_content) section_content in
        fold_left (fallback_line k) (split_on newline section_content) d
    | None => d
    end
  else d.

(** [_extract_insights_fallback] *)
Definition _extract_insights_fallback (summary_text : str) (d : data_points)
  : data_points :=
  fold_left
    (fun d entry =>
       fold_left (fallback_header summary_text (fst entry)) (snd entry) d)
    fallback_sections d.

(** [any(data_points[key] for key in [...])] *)
Definition any_findings (d : data_points) : bool :=
  existsb (fun k => truthy (entries k d)) all_sections.

(** The two finding passes: the fallback runs when the first found nothing. *)
Definition findings (text : str) (d : data_points) : data_points :=
  let d := section_pass text d in
  if negb (any_findings d) then _extract_insights_fallback text d else d.

(** The completeness score, before [min]. *)
Definition extraction_quality (d : data_points) : float :=
  let q := 0%float in
  let q := if truthy (metrics d) then (q + 0.2)%float else q in
  let q := if truthy (insights d) then (q + 0.15)%float else q in
  let q := if truthy (key_findings d) then (q + 0.15)%float else q in
  let q := if truthy (financial_highlights d) then (q + 0.15)%float else q in
  let q := if truthy (risks d) then (q + 0.15)%float else q in
  let q := if truthy (opportunities d) then (q + 0.15)%float else q in
  if (truthy (insights d) && truthy (key_findings d)
      && truthy (financial_highlights d) && truthy (risks d)
      && truthy (opportunities d))%bool
  then (q + 0.05)%float
  else q.

(** The text the passes scan. *)
Definition scanned_text (summary_text : str) : str :=
  enforce_word_limit summary_text.

(** The data points of a string: metrics, then findings. *)
Definition extract_points (summary_text : str) : data_points :=
  let text := scanned_text summary_text in
  let d := empty_points in
  let d := set_metrics (extract_metrics E financial_patterns text (metrics d)) d in
  findings text d.

(** The [try] block of [extract_financial_data_points]. *)
Definition extract_try (summary_text : pyobj) : outcome extraction :=
  match summary_text with
  | PyNone => Raises AttributeError
  | PyStr s =>
      let d := extract_points s in
      Returns {| points := d;
                 extraction_quality_score := min_one (extraction_quality d) |}
  end.

(** [extract_financial_data_points]: the [try] block under its
    [except Exception]. *)
Definition extract_financial_data_points (summary_text : pyobj)
  : extraction :=
  match extract_try summary_text with
  | Returns r => r
  | Raises _ => empty_extraction
  end.

(** [AnalysisOutput] as [create_analysis_result] builds it when no analysis
    is stored yet. *)
Record analysis_output := {
  summary : str;
  extracted_data : extraction
}.

Definition enhanced_output (summary_text : str) : analysis_output :=
  let extracted_data := extract_financial_data_points (PyStr summary_text) in
  {| summary := summary_text; extracted_data := extracted_data |}.
End WithEnv.
End Repo.

(** ** [UserService] *)

(** [any(word in s for word in words)] *)
Definition any_in (words : list string) (s : str) : bool :=
  existsb (fun w => contains (lit w) s) words.

(** [\d+(?:\.\d+)?] *)
Definition decimal_number : regex :=
  seq_of [plus digit; opt (Seq (chr ".") (plus digit))].

(** [\d+(?:\.\d+)?%] *)
Definition percentage : regex := Seq decimal_number (chr "%").

Module User.
Section WithEnv.
Variable E : pyenv.

(** [(?:label).*?(\d+(?:\.\d+)?%)] and [(?:label).*?(\d+(?:\.\d{2})?)\s*%] *)
Definition margin_patterns (label : string) : list regex :=
  [seq_of [words [label]; lazy_any; Group percentage];
   seq_of [words [label]; lazy_any;
           Group (seq_of [plus digit; opt (Seq (chr ".") (times 2 digit))]);
           star (Chr CSpace); chr "%"]].

(** [financial_patterns] *)
Definition financial_patterns : list (string * list regex) :=
  [ ("revenue",
      [labelled_money ["revenue"; "sales"; "total revenue"];
       labelled_amount ["revenue"; "sales"]]);
    ("operating_income",
      [labelled_money ["operating income"; "operating profit"; "ebit"];
       labelled_amount ["operating income"; "operating profit"]]);
    ("net_income",
      [labelled_money ["net income"; "net profit"; "net earnings"];
       labelled_amount ["net income"; "net profit"]]);
    ("cash",
      [labelled_money ["cash"; "cash equivalents"];
       labelled_amount ["cash"; "cash equivalents"]]);
    ("free_cash_flow",
      [labelled_money ["free cash flow"; "fcf"];
       labelled_amount ["free cash flow"; "fcf"]]);
    ("operating_margin", margin_patterns "operating margin");
    ("net_margin", margin_patterns "net margin") ]%string.

(** [(?:growth|increase|decrease|decline)] *)
Definition change_word : regex :=
  words ["growth"; "increase"; "decrease"; "decline"]%string.

(** The two patterns of a change metric. *)
Definition change_patterns (labels : list string) : list regex :=
  [seq_of [words labels; lazy_any; change_word; lazy_any; Group percentage];
   seq_of [words labels; lazy_any; Group percentage; star (Chr CSpace);
           change_word]].

(** [percentage_patterns] of [extract_financial_data_points] *)
Definition percentage_patterns : list (string * list regex) :=
  [ ("revenue_change", change_patterns ["revenue"; "sales"]);
    ("income_change",
      change_patterns ["operating income"; "net income"; "profit"]);
    ("growth_rate",
      [seq_of [words ["growth"; "yoy"; "year-over-year"]; lazy_any;
               Group percentage];
       seq_of [Group percentage; star (Chr CSpace);
               words ["growth"; "yoy"]]]) ]%string.

Definition max_insights := 5.
Definition max_findings := 3.
Definition max_highlights := 3.
Definition max_risks := 3.
Definition max_opportunities := 3.

Definition financial_keywords : list string :=
  ["revenue"; "profit"; "income"; "cash"; "debt"; "growth"; "decline";
   "increase"; "decrease"; "margin"]%string.
Definition risk_keywords : list string :=
  ["risk"; "uncertainty"; "challenge"; "concern"; "volatility"; "decline";
   "decrease"; "down"; "fell"; "dropped"]%string.
Definition opportunity_keywords : list string :=
  ["opportunity"; "growth"; "expansion"; "increase"; "up"; "positive";
   "strong"; "robust"; "rose"; "gained"]%string.

(** The first loop over the lines: insights and key findings. *)
Definition insight_step (d : data_points) (raw : str) : data_points :=
  let line := strip raw in
  if (negb (truthy line) || (length line <? 20))%bool then d
  else
    let d :=
      if (is_bullet_line bullet_mojibake line && (30 <? length line)
          && (length (insights d) <? max_insights))%bool
      then
        let insight := strip (skipn 1 line) in
        if (existsb (isdigit E) insight
            || any_in ["revenue"; "profit"; "growth"; "margin"; "cash";
                       "debt"]%string (lower E insight))%bool
        then append Insights (firstn 100 insight) d
        else d
      else d in
    if (any_in ["key finding"; "highlight"; "important"; "critical"]%string
          (lower E line)
        && (length (key_findings d) <? max_findings))%bool
    then
      if ((20 <? length line) && (length line <? 200)
          && (contains (lit "$") line || contains (lit "%") line
              || any_in ["growth"; "decline"; "increase"; "decrease"]%string
                   (lower E line)))%bool
      then append KeyFindings (firstn 120 line) d
      else d
    else d.

(** The second loop: financial highlights. *)
Definition highlight_step (d : data_points) (raw : str) : data_points :=
  let line := strip raw in
  if ((length (financial_highlights d) <? max_highlights)
      && any_in financial_keywords (lower E line)
      && (20 <? length line) && (length line <? 200)
      && (contains (lit "$") line || contains (lit "%") line)
      && existsb (isdigit E) line)%bool
  then append FinancialHighlights (firstn 120 line) d
  else d.

(** The third loop: risks and opportunities. *)
Definition risk_step (d : data_points) (raw : str) : data_points :=
  let line := strip raw in
  if ((20 <? length line) && (length line <? 200))%bool
  then
    if ((length (risks d) <? max_risks)
        && any_in risk_keywords (lower E line))%bool
    then append Risks (firstn 120 line) d
    else if ((length (opportunities d) <? max_opportunities)
             && any_in opportunity_keywords (lower E line))%bool
    then append Opportunities (firstn 120 line) d
    else d
  else d.

(** [monetary_patterns] of [_advanced_financial_extraction] *)
Definition monetary_patterns : list regex :=
  [ money;
    seq_of [chr "$"; plus (Chr digit_or_comma); opt (chr "."); star digit];
    seq_of [plus (Chr digit_or_comma); opt (chr "."); star digit;
            star (Chr CSpace); scale] ].

(** [percentage_patterns] of [_advanced_financial_extraction] *)
Definition advanced_percentage_patterns : list regex :=
  [ percentage;
    seq_of [decimal_number; star (Chr CSpace); word "percent"] ].

(** [text[max(0, start - 50):min(len(text), end + 50)].lower()] *)
Definition context_of (text : str) (m : rmatch) : str :=
  let start := Nat.max 0 (m_start m - 50) in
  let stop := Nat.min (length text) (m_end m + 50) in
  lower E (firstn (stop - start) (skipn start text)).

(** [if key not in metrics: metrics[key] = value] *)
Definition set_if_absent (key : string) (value : str) (m : dict) : dict :=
  if negb (dict_mem key m) then dict_set key value m else m.

(** What one monetary match does to the metrics. *)
Definition monetary_step (text : str) (m : dict) (found : rmatch) : dict :=
  let value := m_whole found in
  let context := context_of text found in
  if any_in ["revenue"; "sales"; "income"]%string context
  then set_if_absent "revenue" value m
  else if any_in ["profit"; "earnings"; "net income"]%string context
  then set_if_absent "net_income" value m
  else if any_in ["cash"; "liquidity"]%string context
  then set_if_absent "cash" value m
  else if any_in ["debt"; "liability"; "borrowing"]%string context
  then set_if_absent "debt" value m
  else m.

(** What one percentage match does to the metrics. *)
Definition percentage_step (text : str) (m : dict) (found : rmatch) : dict :=
  let value := m_whole found in
  let context := context_of text found in
  if any_in ["margin"; "profitability"]%string context
  then set_if_absent "gross_margin" value m
  else if any_in ["growth"; "increase"; "decrease"]%string context
  then set_if_absent "growth_rate" value m
  else m.

(** [for pattern in patterns: for match in re.finditer(pattern, text)] *)
Definition scan (step : str -> dict -> rmatch -> dict) (patterns : list regex)
  (text : str) (m : dict) : dict :=
  fold_left
    (fun m pattern => fold_left (step text) (finditer E pattern text) m)
    patterns m.

(** The loop of the advanced extraction that adds financial highlights. *)
Definition advanced_highlight_step (d : data_points) (raw : str)
  : data_points :=
  let line := strip raw in
  if ((10 <? length line) && (length line <? 200))%bool
  then
    if (existsb (isdigit E) line
        && any_in ["revenue"; "sales"; "profit"; "income"; "cash"; "debt";
                   "margin"; "growth"; "earnings"]%string (lower E line))%bool
    then
      let numbers := findall E grouped_number line in
      if truthy numbers
      then
        if (contains (lit "$") line || contains (lit "%") line
            || any_in ["million"; "billion"; "thousand"; "M"; "B"; "K"]%string
                 (lower E line))%bool
        then append FinancialHighlights (firstn 150 line) d
        else d
      else d
    else d
  else d.

(** The loop of the advanced extraction that adds insights. *)
Definition advanced_insight_step (d : data_points) (raw : str)
  : data_points :=
  let line := strip raw in
  if ((30 <? length line) && (length line <? 200))%bool
  then
    let numbers := findall E grouped_number line in
    if 2 <=? length numbers
    then
      if any_in ["revenue"; "profit"; "growth"; "margin"; "cash"; "debt";
                 "earnings"; "income"]%string (lower E line)
      then append Insights (firstn 150 line) d
      else d
    else d
  else d.

(** [_advanced_financial_extraction] *)
Definition _advanced_financial_extraction (text : str)
  (existing_data : data_points) : data_points :=
  let m := metrics existing_data in
  let m := scan monetary_step monetary_patterns text m in
  let m := scan percentage_step advanced_percentage_patterns text m in
  let d := set_metrics m existing_data in
  let lines := split_on newline text in
  let d := fold_left advanced_highlight_step lines d in
  fold_left advanced_insight_step lines d.

(** [data_points[key] = list(set(data_points[key]))[:5]] for the five keys *)
Definition deduplicate (d : data_points) : data_points :=
  fold_left
    (fun d key => set_entries key (firstn 5 (list_of_set E (entries key d))) d)
    all_sections d.

(** The score, before [min]. *)
Definition extraction_quality (d : data_points) : float :=
  let q := 0%float in
  let q := if truthy (metrics d) then (q + 0.5)%float else q in
  let q := if truthy (insights d) then (q + 0.2)%float else q in
  let q := if truthy (financial_highlights d) then (q + 0.2)%float else q in
  if (truthy (risks d) || truthy (opportunities d))%bool
  then (q + 0.1)%float
  else q.

(** The text the passes scan. *)
Definition scanned_text (summary_text : str) : str :=
  enforce_word_limit summary_text.

(** The data points before the clean-up. *)
Definition collect (summary_text : str) : data_points :=
  let text := scanned_text summary_text in
  let d := empty_points in
  let m := extract_metrics E financial_patterns text (metrics d) in
  let m := extract_metrics E percentage_patterns text m in
  let d := set_metrics m d in
  let lines := split_on newline text in
  let d := fold_left insight_step lines d in
  let d := fold_left highlight_step lines d in
  let d := fold_left risk_step lines d in
  if length (metrics d) <? 5
  then _advanced_financial_extraction text d
  else d.

Definition extract_points (summary_text : str) : data_points :=
  deduplicate (collect summary_text).

(** The [try] block of [extract_financial_data_points]. *)
Definition extract_try (summary_text : pyobj) : outcome extraction :=
  match summary_text with
  | PyNone => Raises AttributeError
  | PyStr s =>
      let d := extract_points s in
      Returns {| points := d;
                 extraction_quality_score := min_one (extraction_quality d) |}
  end.

(** [extract_financial_data_points]: the [try] block under its
    [except Exception]. *)
Definition extract_financial_data_points (summary_text : pyobj)
  : extraction :=
  match extract_try summary_text with
  | Returns r => r
  | Raises _ => empty_extraction
  end.
End WithEnv.
End User.

(** ** An instance of the runtime tables

    On text made of ASCII characters and bullets the tables of Python are these:
    only the letters [A]-[Z] change under [lower], the digits are [0]-[9].  The
    order of [list(set(l))] is taken to be the order of first occurrence. *)

Definition ascii_tolower (c : char) : char :=
  if is_upper c then (c + 32)%N else c.

Definition str_eq_dec : forall a b : str, {a = b} + {a <> b} :=
  list_eq_dec N.eq_dec.

Lemma ascii_lower_length (s : str) :
  length (map ascii_tolower s) <= 3 * length s.
Proof. rewrite length_map. lia. Qed.

Lemma nodup_str_In (l : list str) (x : str) :
  In x (nodup str_eq_dec l) <-> In x l.
Proof. apply nodup_In. Qed.

Definition ascii_env : pyenv :=
  {| lower := map ascii_tolower;
     lower_length := ascii_lower_length;
     isdigit := between 48%N 57%N;
     isdecimal := between 48%N 57%N;
     tolower := ascii_tolower;
     list_of_set := nodup str_eq_dec;
     list_of_set_NoDup := NoDup_nodup str_eq_dec;
     list_of_set_In := nodup_str_In |}.

Unset Implicit Arguments.

(** ** The stored analyses

    [create_analysis_result] and the readers of [AnalysisRepository], over the
    two MongoDB collections they use.  A collection is the list of its
    documents in insertion order; a document is the record of the fields that
    these functions read or write, as the collection holds them.  What a
    document loses on its way into the collection is modelled: a [datetime]
    keeps its milliseconds only, an [int] must fit 64 bits, a [str] must
    encode as UTF-8.  The server is taken to answer every request, and the
    documents to be within its size limit: the failures are those of the
    code, of the BSON encoder and of the pydantic models. *)

Module Store.

(** A [bson.ObjectId]. *)
Definition oid := N.
(** A [datetime]: microseconds since the epoch. *)
Definition time := N.

(** A document of [analysis_results]. *)
Record analysis_doc := {
  a_id : oid;
  a_document_id : oid;
  a_user_id : oid;
  a_analysis_type : str;
  a_query : str;
  a_output : Repo.analysis_output;
  a_confidence_score : float;
  a_data_quality_score : float;
  a_validation_status : str;
  a_error_logs : list str;
  a_processing_time_sec : Z;
  a_created_at : time
}.

(** A document of [documents]. *)
Record document_doc := {
  d_id : oid;
  d_user_id : oid;
  d_file_name : str;
  d_status : str;
  d_analysis_ids : list oid;
  d_updated_at : time
}.

Record db := {
  analysis_results : list analysis_doc;
  documents : list document_doc
}.

(** What a call may raise. *)
Inductive failure :=
| InvalidId          (* [ObjectId(s)] on a malformed [s] *)
| ValueError         (* a [str] with a lone surrogate: [UnicodeEncodeError]
                        of the BSON encoder, [ValidationError] of pydantic *)
| OverflowError      (* the BSON encoder on an [int] of more than 8 bytes *)
| HTTPException (status_code : nat).

Inductive attempt (A : Type) :=
| Done (a : A)
| Failed (f : failure).
Arguments Done {A} a.
Arguments Failed {A} f.

(** [current_user] *)
Record user := {
  id : str;
  role : str
}.

(** A code point that UTF-8 has no encoding for. *)
Definition is_surrogate (c : char) : bool := between 55296%N 57343%N c.

(** The BSON encoder and the [str] fields of pydantic take the string. *)
Definition utf8_encodable (s : str) : bool :=
  forallb (fun c => negb (is_surrogate c)) s.

(** The BSON encoder takes the [int]: it fits a signed 64-bit integer. *)
Definition fits_int64 (n : Z) : bool :=
  ((- 9223372036854775808 <=? n) && (n <=? 9223372036854775807))%Z.

(** A [datetime] as the collection holds it: BSON keeps milliseconds. *)
Definition bson_datetime (t : time) : time := (t / 1000 * 1000)%N.

(** The document as [find_one] gives it back after [insert_one]. *)
Definition as_stored (a : analysis_doc) : analysis_doc :=
  {| a_id := a_id a;
     a_document_id := a_document_id a;
     a_user_id := a_user_id a;
     a_analysis_type := a_analysis_type a;
     a_query := a_query a;
     a_output := a_output a;
     a_confidence_score := a_confidence_score a;
     a_data_quality_score := a_data_quality_score a;
     a_validation_status := a_validation_status a;
     a_error_logs := a_error_logs a;
     a_processing_time_sec := a_processing_time_sec a;
     a_created_at := bson_datetime (a_created_at a) |}.

(** [min(confidence_score + (extracted_data["extraction_quality_score"] * 0.1),
    1.0)] *)
Definition adjusted_confidence (confidence_score : float)
  (extracted_data : extraction) : float :=
  min_one (confidence_score + extraction_quality_score extracted_data * 0.1).

(** [confidence_score=0.85], as [AnalysisService.analyze_document] and the
    Celery tasks call [create_analysis_result]. *)
Definition caller_confidence : float := 0.85%float.

(** The filter of [create_analysis_result]: document, user and query. *)
Definition same_request (document_id user_id : oid) (query : str)
  (a : analysis_doc) : bool :=
  (N.eqb (a_document_id a) document_id && N.eqb (a_user_id a) user_id
   && str_eqb (a_query a) query)%bool.

(** [update_one({"_id": document_id}, {"$push": {"analysis_ids": new},
    "$set": {"updated_at": now}})]: the first document with that id. *)
Fixpoint push_analysis_id (document_id new : oid) (now : time)
  (docs : list document_doc) : list document_doc :=
  match docs with
  | [] => []
  | d :: docs' =>
      if N.eqb (d_id d) document_id
      then {| d_id := d_id d; d_user_id := d_user_id d;
              d_file_name := d_file_name d; d_status := d_status d;
              d_analysis_ids := d_analysis_ids d ++ [new];
              d_updated_at := now |} :: docs'
      else d :: push_analysis_id document_id new now docs'
  end.

Section WithRuntime.
Variable E : pyenv.
(** [ObjectId(s)]: [None] when [s] is not a valid id. *)
Variable ObjectId : str -> option oid.
(** [str(oid)] *)
Variable oid_str : oid -> str.
(** The id that [insert_one] gives to a new document. *)
Variable inserted_id : db -> oid.
(** The two readings of [datetime.utcnow()] in [create_analysis_result]. *)
Variable created_now updated_now : time.

(** [AnalysisRepository.create_analysis_result]: the database after the call
    and what the call returns or raises.  The call returns the response made
    of [existing_analysis], a stored document, or of [analysis_data], the
    dictionary that it has just built and inserted: the collection holds
    [as_stored analysis_data]. *)
Definition create_analysis_result (st : db)
  (document_id user_id analysis_type query summary_text : str)
  (confidence_score data_quality_score : float) (processing_time_sec : Z)
  : db * attempt analysis_doc :=
  match ObjectId document_id, ObjectId user_id with
  | Some doc, Some usr =>
      (* [find_one] encodes its filter *)
      if negb (utf8_encodable query) then (st, Failed ValueError)
      else
      match List.find (same_request doc usr query) (analysis_results st) with
      | Some existing_analysis => (st, Done existing_analysis)
      | None =>
          let extracted_data :=
            Repo.extract_financial_data_points E (PyStr summary_text) in
          (* [AnalysisOutput(summary=summary_text, ...)] validates *)
          if negb (utf8_encodable summary_text) then (st, Failed ValueError)
          else
          let enhanced_output :=
            {| Repo.summary := summary_text;
               Repo.extracted_data := extracted_data |} in
          let analysis_data :=
            {| a_id := inserted_id st;
               a_document_id := doc;
               a_user_id := usr;
               a_analysis_type := analysis_type;
               a_query := query;
               a_output := enhanced_output;
               a_confidence_score :=
                 adjusted_confidence confidence_score extracted_data;
               a_data_quality_score := data_quality_score;
               a_validation_status := lit "passed";
               a_error_logs := [];
               a_processing_time_sec := processing_time_sec;
               a_created_at := created_now |} in
          (* [insert_one] encodes the document, field by field *)
          if negb (utf8_encodable analysis_type) then (st, Failed ValueError)
          else if negb (fits_int64 processing_time_sec)
          then (st, Failed OverflowError)
          else
          ({| analysis_results :=
                analysis_results st ++ [as_stored analysis_data];
              documents :=
                push_analysis_id doc (inserted_id st)
                  (bson_datetime updated_now) (documents st) |},
           Done analysis_data)
      end
  | _, _ => (st, Failed InvalidId)
  end.

(** [AnalysisRepository.get_user_analysis_count] *)
Definition get_user_analysis_count (st : db) (user_id : str) : nat :=
  match ObjectId user_id with
  | Some usr =>
      length (filter (fun a => N.eqb (a_user_id a) usr) (analysis_results st))
  | None => 0
  end.

(** [AnalysisRepository.get_user_completed_analysis_count] *)
Definition get_user_completed_analysis_count (st : db) (user_id : str) : nat :=
  match ObjectId user_id with
  | Some usr =>
      let completed_docs :=
        filter (fun d => (N.eqb (d_user_id d) usr
                          && str_eqb (d_status d) (lit "completed"))%bool)
          (documents st) in
      fold_left (fun total_analyses doc =>
                   total_analyses + length (d_analysis_ids doc))
        completed_docs 0
  | None => 0
  end.

(** [AnalysisRepository.get_structured_analysis]: the stored analysis that the
    response is made of. *)
Definition get_structured_analysis (st : db) (analysis_id : str)
  (current_user : user) : attempt analysis_doc :=
  match ObjectId analysis_id with
  | None => Failed (HTTPException 500)
  | Some aid =>
      match List.find (fun a => N.eqb (a_id a) aid) (analysis_results st) with
      | None => Failed (HTTPException 404)
      | Some analysis_doc =>
          if (negb (str_eqb (oid_str (a_user_id analysis_doc))
                      (id current_user))
              && negb (str_eqb (role current_user) (lit "Admin")))%bool
          then Failed (HTTPException 403)
          else Done analysis_doc
      end
  end.
End WithRuntime.
End Store.

(** ** Properties *)

(** *** Strings *)

Lemma startswith_length (p s : str) :
  startswith p s = true -> length p <= length s.
Proof.
  revert s; induction p as [|x p IH]; intros [|y s]; simpl; try lia; try discriminate.
  intros H. apply andb_true_iff in H as [_ H]. apply IH in H. lia.
Qed.

Lemma contains_length (sub s : str) :
  contains sub s = true -> length sub <= length s.
Proof.
  induction s as [|c s IH]; simpl.
  - rewrite orb_false_r. apply startswith_length.
  - intros H. apply orb_true_iff in H as [H|H].
    + apply startswith_length in H. exact H.
    + apply IH in H. lia.
Qed.

Lemma lower_nil (E : pyenv) : lower E [] = [].
Proof.
  pose proof (lower_length E []) as H. simpl in H.
  destruct (lower E []); [reflexivity | simpl in H; lia].
Qed.

Lemma list_of_set_nil (E : pyenv) : list_of_set E [] = [].
Proof.
  destruct (list_of_set E []) as [|x l] eqn:H; [reflexivity|].
  exfalso. apply (proj1 (list_of_set_In E [] x)). rewrite H. left. reflexivity.
Qed.

(** *** The score *)

Definition unit_interval (q : float) : Prop :=
  (0 <=? q)%float = true /\ (q <=? 1)%float = true.

Lemma repo_score_bounds (d : data_points) :
  unit_interval (min_one (Repo.extraction_quality d)).
Proof.
  unfold Repo.extraction_quality.
  destruct (truthy (metrics d)), (truthy (insights d)), (truthy (key_findings d)),
    (truthy (financial_highlights d)), (truthy (risks d)),
    (truthy (opportunities d)); split; vm_compute; reflexivity.
Qed.

Lemma user_score_bounds (d : data_points) :
  unit_interval (min_one (User.extraction_quality d)).
Proof.
  unfold User.extraction_quality.
  destruct (truthy (metrics d)), (truthy (insights d)),
    (truthy (financial_highlights d)), (truthy (risks d)),
    (truthy (opportunities d)); split; vm_compute; reflexivity.
Qed.

Lemma empty_score_bounds : unit_interval (extraction_quality_score empty_extraction).
Proof. split; vm_compute; reflexivity. Qed.

(** *** The empty string *)

Section EmptyText.
Variable E : pyenv.

Lemma repo_metrics_nil : extract_metrics E Repo.financial_patterns [] [] = [].
Proof. vm_compute. reflexivity. Qed.

Lemma repo_fallback_line_nil (k : section) (d : data_points) :
  Repo.fallback_line k d [] = d.
Proof. reflexivity. Qed.

Lemma repo_fallback_header_nil (k : section) (d : data_points) (h : string) :
  Repo.fallback_header E [] k d h = d.
Proof.
  unfold Repo.fallback_header.
  destruct (contains _ _); [|reflexivity].
  destruct (find _ _); [|reflexivity].
  rewrite skipn_nil, firstn_nil. reflexivity.
Qed.

Lemma repo_fallback_nil (d : data_points) :
  Repo._extract_insights_fallback E [] d = d.
Proof.
  unfold Repo._extract_insights_fallback, Repo.fallback_sections. simpl.
  rewrite !repo_fallback_header_nil. reflexivity.
Qed.

Lemma repo_points_nil : Repo.extract_points E [] = empty_points.
Proof.
  unfold Repo.extract_points, Repo.scanned_text.
  change (enforce_word_limit []) with (@nil char).
  cbv zeta. change (metrics empty_points) with (@nil (string * str)).
  rewrite repo_metrics_nil. unfold Repo.findings.
  change (Repo.section_pass E [] (set_metrics [] empty_points))
    with empty_points.
  simpl. apply repo_fallback_nil.
Qed.

Lemma user_metrics_nil :
  extract_metrics E User.percentage_patterns []
    (extract_metrics E User.financial_patterns [] []) = [].
Proof. vm_compute. reflexivity. Qed.

Lemma user_highlight_step_nil (d : data_points) : User.highlight_step E d [] = d.
Proof.
  unfold User.highlight_step. change (strip []) with (@nil char).
  rewrite lower_nil. simpl. rewrite !andb_false_r. reflexivity.
Qed.

Lemma user_risk_step_nil (d : data_points) : User.risk_step E d [] = d.
Proof. reflexivity. Qed.

Lemma user_advanced_nil :
  User._advanced_financial_extraction E [] empty_points = empty_points.
Proof. vm_compute. reflexivity. Qed.

Lemma user_collect_nil : User.collect E [] = empty_points.
Proof.
  unfold User.collect, User.scanned_text.
  change (enforce_word_limit []) with (@nil char).
  cbv zeta. change (metrics empty_points) with (@nil (string * str)).
  rewrite user_metrics_nil.
  change (split_on newline []) with [@nil char].
  cbn [fold_left].
  change (User.insight_step E (set_metrics [] empty_points) [])
    with empty_points.
  rewrite user_highlight_step_nil, user_risk_step_nil.
  cbn [metrics empty_points length Nat.ltb Nat.leb].
  apply user_advanced_nil.
Qed.

Lemma user_points_nil : User.extract_points E [] = empty_points.
Proof.
  unfold User.extract_points. rewrite user_collect_nil.
  unfold User.deduplicate. simpl. rewrite !list_of_set_nil. reflexivity.
Qed.
End EmptyText.

(** *** The line loop of the repository *)

Definition nl : string := String (ascii_of_N 10) EmptyString.

(** The header that opens a section in the line loop, in lower case. *)
Definition header_text (k : section) : str :=
  match k with
  | Insights => lit "total insights:"
  | KeyFindings => lit "key findings:"
  | FinancialHighlights => lit "financial highlights:"
  | Risks => lit "risk factors:"
  | Opportunities => lit "opportunities:"
  end.

(** [line] starts with one of the three titles that close a section. *)
Definition closes_section (line : str) : bool :=
  (startswith (lit "INVESTMENT RECOMMENDATION") line
   || startswith (lit "KEY FINANCIAL METRICS") line
   || startswith (lit "GROWTH & CHANGES") line)%bool.

Lemma twenty_is_over_fifteen (n : nat) : (20 <? n) = true -> (15 <? n) = true.
Proof. rewrite !Nat.ltb_lt. lia. Qed.

Lemma bullet_guard_implies (line : str) :
  (is_bullet_line bullet line && (20 <? length line))%bool = true ->
  (is_bullet_line bullet line && (15 <? length line))%bool = true.
Proof.
  rewrite !andb_true_iff. intros [Hb Hl]. split; [exact Hb|].
  apply twenty_is_over_fifteen, Hl.
Qed.

Lemma classify_not_any_bullet (E : pyenv) (raw content : str) :
  Repo.classify E raw <> Repo.AnyBullet content.
Proof.
  unfold Repo.classify.
  repeat match goal with
         | |- context [if ?c then _ else _] =>
             let H := fresh "H" in destruct c eqn:H; try discriminate
         end.
  apply bullet_guard_implies in H7. congruence.
Qed.

Lemma store_bullet_outside (content : str) (d : data_points) :
  Repo.store_bullet None content d = d.
Proof. reflexivity. Qed.

Lemma line_step_outside (E : pyenv) (d : data_points) (raw : str) :
  snd (Repo.line_step E (None, d) raw) = d.
Proof.
  unfold Repo.line_step.
  destruct (Repo.classify E raw) eqn:H; try reflexivity.
  - destruct (10 <? length content); reflexivity.
  - exfalso. exact (classify_not_any_bullet E raw _ H).
Qed.

Lemma bullet_line_keeps_section (line : str) :
  is_bullet_line bullet line = true -> closes_section line = false.
Proof.
  unfold is_bullet_line, closes_section.
  destruct line as [|c line]; [discriminate|].
  change (startswith (lit "-") (c :: line)) with ((45 =? c)%N && true)%bool.
  change (startswith bullet (c :: line)) with ((8226 =? c)%N && true)%bool.
  rewrite !andb_true_r, orb_true_iff, !N.eqb_eq.
  intros [<-|<-]; reflexivity.
Qed.

Lemma header_needs_five (E : pyenv) (k : section) (line : str) :
  contains (header_text k) (lower E line) = true -> 5 <= length line.
Proof.
  intros H. apply contains_length in H.
  pose proof (lower_length E line) as L.
  assert (13 <= length (header_text k)) by (destruct k; vm_compute; lia).
  lia.
Qed.

Lemma closing_needs_five (line : str) :
  closes_section line = true -> 5 <= length line.
Proof.
  unfold closes_section. rewrite !orb_true_iff.
  intros [[H|H]|H]; apply startswith_length in H;
    match type of H with
    | length ?l <= _ => assert (16 <= length l) by (vm_compute; lia)
    end; lia.
Qed.

Lemma long_line_not_skipped (line : str) :
  5 <= length line ->
  (negb (truthy line) || (length line <? 5))%bool = false.
Proof.
  intros H. destruct line; [simpl in H; lia|].
  simpl negb. rewrite orb_false_l. apply Nat.ltb_ge. exact H.
Qed.

Section LineLoop.
Variable E : pyenv.

Lemma header_sets_section (cs : option section) (d : data_points)
  (raw : str) (k0 : section) :
  contains (header_text k0) (lower E (strip raw)) = true ->
  exists k, contains (header_text k) (lower E (strip raw)) = true /\
            Repo.line_step E (cs, d) raw = (Some k, d).
Proof.
  intros H0. pose proof (header_needs_five E k0 _ H0) as L.
  unfold Repo.line_step, Repo.classify.
  rewrite (long_line_not_skipped _ L).
  destruct (contains (lit "total insights:") _) eqn:H1;
    [exists Insights; auto|].
  destruct (contains (lit "key findings:") _) eqn:H2;
    [exists KeyFindings; auto|].
  destruct (contains (lit "financial highlights:") _) eqn:H3;
    [exists FinancialHighlights; auto|].
  destruct (contains (lit "risk factors:") _) eqn:H4; [exists Risks; auto|].
  destruct (contains (lit "opportunities:") _) eqn:H5;
    [exists Opportunities; auto|].
  destruct k0; simpl in H0; congruence.
Qed.

Lemma classify_plain (raw : str) :
  (forall k, contains (header_text k) (lower E (strip raw)) = false) ->
  5 <= length (strip raw) ->
  Repo.classify E raw =
    if closes_section (strip raw) then Repo.Leaves
    else if (is_bullet_line bullet (strip raw)
             && (15 <? length (strip raw)))%bool
         then Repo.SectionBullet (strip (skipn 1 (strip raw)))
         else if (is_bullet_line bullet (strip raw)
                  && (20 <? length (strip raw)))%bool
              then Repo.AnyBullet (strip (skipn 1 (strip raw)))
              else Repo.Ignored.
Proof.
  intros H L. unfold Repo.classify.
  rewrite (long_line_not_skipped _ L).
  pose proof (H Insights) as H1. pose proof (H KeyFindings) as H2.
  pose proof (H FinancialHighlights) as H3. pose proof (H Risks) as H4.
  pose proof (H Opportunities) as H5. simpl in H1, H2, H3, H4, H5.
  rewrite H1, H2, H3, H4, H5. reflexivity.
Qed.

Lemma closing_line_leaves (cs : option section) (d : data_points) (raw : str) :
  (forall k, contains (header_text k) (lower E (strip raw)) = false) ->
  closes_section (strip raw) = true ->
  Repo.line_step E (cs, d) raw = (None, d).
Proof.
  intros H C. unfold Repo.line_step.
  rewrite (classify_plain _ H (closing_needs_five _ C)), C. reflexivity.
Qed.

Lemma store_bullet_in (k : section) (content : str) (d : data_points) :
  Repo.store_bullet (Some k) content d =
    if length (entries k d) <? 5 then append k (firstn 150 content) d else d.
Proof.
  unfold Repo.store_bullet.
  destruct k; simpl;
    repeat match goal with
           | |- context [if ?c then _ else _] => destruct c
           end; reflexivity.
Qed.

Lemma bullet_line_stored (k : section) (d : data_points) (raw : str) :
  (forall k', contains (header_text k') (lower E (strip raw)) = false) ->
  is_bullet_line bullet (strip raw) = true ->
  15 < length (strip raw) ->
  Repo.line_step E (Some k, d) raw =
    (Some k,
     let content := strip (skipn 1 (strip raw)) in
     if ((10 <? length content) && (length (entries k d) <? 5))%bool
     then append k (firstn 150 content) d
     else d).
Proof.
  intros H B L. unfold Repo.line_step.
  rewrite (classify_plain _ H) by lia.
  rewrite (bullet_line_keeps_section _ B), B.
  apply Nat.ltb_lt in L. rewrite L. cbn [andb]. cbv zeta.
  destruct (10 <? length _); [|reflexivity].
  rewrite store_bullet_in. reflexivity.
Qed.
End LineLoop.

(** *** Matches are pieces of the text *)

Lemma substring_refl (s : str) : substring s s.
Proof. exists [], []. rewrite app_nil_r. reflexivity. Qed.

Lemma substring_nil (s : str) : substring [] s.
Proof. exists [], s. reflexivity. Qed.

Lemma substring_trans (a b c : str) :
  substring a b -> substring b c -> substring a c.
Proof.
  intros (p1 & q1 & ->) (p2 & q2 & ->).
  exists (p2 ++ p1), (q1 ++ q2). rewrite <- !app_assoc. reflexivity.
Qed.

Lemma is_suffix_refl (s : str) : is_suffix s s.
Proof. exists []. reflexivity. Qed.

Lemma is_suffix_trans (a b c : str) :
  is_suffix a b -> is_suffix b c -> is_suffix a c.
Proof.
  intros (p1 & ->) (p2 & ->). exists (p2 ++ p1). rewrite app_assoc. reflexivity.
Qed.

Lemma is_suffix_cons (c : char) (s : str) : is_suffix s (c :: s).
Proof. exists [c]. reflexivity. Qed.

Lemma is_suffix_substring (a b : str) : is_suffix a b -> substring a b.
Proof. intros (p & ->). exists p, []. rewrite app_nil_r. reflexivity. Qed.

Lemma is_suffix_skipn (n : nat) (s : str) : is_suffix (skipn n s) s.
Proof. exists (firstn n s). symmetry. apply firstn_skipn. Qed.

Lemma firstn_substring (n : nat) (s : str) : substring (firstn n s) s.
Proof. exists [], (skipn n s). simpl. symmetry. apply firstn_skipn. Qed.

Lemma substring_firstn (n : nat) (v s : str) :
  substring v s -> substring (firstn n v) s.
Proof. intros H. exact (substring_trans _ _ _ (firstn_substring n v) H). Qed.

(** Group 1 after a step of the matcher: left as it was, or a piece of the
    input of the step. *)
Definition group_from (s : str) (before after : option str) : Prop :=
  after = before \/ exists g, after = Some g /\ substring g s.

Lemma group_from_suffix {s' s : str} {a b c : option str} :
  is_suffix s' s -> group_from s a b -> group_from s' b c -> group_from s a c.
Proof.
  intros Hs [->|(g & -> & Hg)] [->|(g' & -> & Hg')].
  - left. reflexivity.
  - right. exists g'. split; [reflexivity|].
    exact (substring_trans _ _ _ Hg' (is_suffix_substring _ _ Hs)).
  - right. exists g. auto.
  - right. exists g'. split; [reflexivity|].
    exact (substring_trans _ _ _ Hg' (is_suffix_substring _ _ Hs)).
Qed.

Section MatcherSound.
Variable E : pyenv.
Variable A : Type.

(** A matcher that succeeds has called its continuation on a suffix of its
    input, with group 1 as [group_from] says. *)
Definition sound (f : matcher A) : Prop :=
  forall cap s k res,
    f cap s k = Some res ->
    exists cap' s',
      k cap' s' = Some res /\ is_suffix s' s /\ group_from s cap cap'.

Lemma orelse_some (x y : option A) (res : A) :
  orelse x y = Some res -> x = Some res \/ y = Some res.
Proof. destruct x; simpl; auto. Qed.

Lemma iter_min_sound (f : matcher A) (n : nat) :
  sound f -> sound (iter_min f n).
Proof.
  intros Hf. induction n as [|n IH]; intros cap s k res H; simpl in H.
  - exists cap, s. split; [exact H|]. split; [apply is_suffix_refl|].
    left. reflexivity.
  - apply Hf in H as (cap1 & s1 & H & S1 & G1).
    apply IH in H as (cap2 & s2 & H & S2 & G2).
    exists cap2, s2. split; [exact H|].
    split; [exact (is_suffix_trans _ _ _ S2 S1)|].
    exact (group_from_suffix S1 G1 G2).
Qed.

Lemma iter_opt_sound (f : matcher A) (greedy : bool) (fuel : nat) :
  sound f -> sound (iter_opt f greedy fuel).
Proof.
  intros Hf. induction fuel as [|fuel IH]; intros cap s k res H; simpl in H.
  - exists cap, s. split; [exact H|]. split; [apply is_suffix_refl|].
    left. reflexivity.
  - assert (Hagain :
      f cap s (fun cap' s' =>
                 if length s' <? length s
                 then iter_opt f greedy fuel cap' s' k
                 else None) = Some res ->
      exists cap' s',
        k cap' s' = Some res /\ is_suffix s' s /\ group_from s cap cap').
    { intros H1. apply Hf in H1 as (cap1 & s1 & H1 & S1 & G1).
      destruct (length s1 <? length s); [|discriminate].
      apply IH in H1 as (cap2 & s2 & H1 & S2 & G2).
      exists cap2, s2. split; [exact H1|].
      split; [exact (is_suffix_trans _ _ _ S2 S1)|].
      exact (group_from_suffix S1 G1 G2). }
    assert (Hstop :
      k cap s = Some res ->
      exists cap' s',
        k cap' s' = Some res /\ is_suffix s' s /\ group_from s cap cap').
    { intros H1. exists cap, s. split; [exact H1|].
      split; [apply is_suffix_refl|]. left. reflexivity. }
    destruct greedy; apply orelse_some in H as [H|H]; auto.
Qed.

Lemma rmatch_at_sound (r : regex) : sound (rmatch_at E (A:=A) r).
Proof.
  induction r as [|c|a IHa b IHb|a IHa b IHb|a IHa lo hi greedy|a IHa];
    intros cap s k res H; simpl in H.
  - exists cap, s. split; [exact H|]. split; [apply is_suffix_refl|].
    left. reflexivity.
  - destruct s as [|x s]; [discriminate|].
    destruct (cmatch E c x); [|discriminate].
    exists cap, s. split; [exact H|]. split; [apply is_suffix_cons|].
    left. reflexivity.
  - apply IHa in H as (cap1 & s1 & H & S1 & G1).
    apply IHb in H as (cap2 & s2 & H & S2 & G2).
    exists cap2, s2. split; [exact H|].
    split; [exact (is_suffix_trans _ _ _ S2 S1)|].
    exact (group_from_suffix S1 G1 G2).
  - apply orelse_some in H as [H|H]; [apply IHa in H|apply IHb in H]; exact H.
  - apply (iter_min_sound _ lo IHa) in H as (cap1 & s1 & H & S1 & G1).
    apply (iter_opt_sound _ greedy _ IHa) in H as (cap2 & s2 & H & S2 & G2).
    exists cap2, s2. split; [exact H|].
    split; [exact (is_suffix_trans _ _ _ S2 S1)|].
    exact (group_from_suffix S1 G1 G2).
  - apply IHa in H as (cap1 & s1 & H & S1 & G1).
    exists (Some (firstn (length s - length s1) s)), s1.
    split; [exact H|]. split; [exact S1|].
    right. eexists. split; [reflexivity|]. apply firstn_substring.
Qed.
End MatcherSound.

Section MatchesSound.
Variable E : pyenv.

(** Both texts of a match are pieces of [t]. *)
Definition within (t : str) (m : rmatch) : Prop :=
  substring (m_whole m) t /\
  forall g, m_group m = Some g -> substring g t.

Lemma within_suffix {s t : str} {m : rmatch} :
  is_suffix s t -> within s m -> within t m.
Proof.
  intros S [W G]. pose proof (is_suffix_substring _ _ S) as S'. split.
  - exact (substring_trans _ _ _ W S').
  - intros g Hg. exact (substring_trans _ _ _ (G g Hg) S').
Qed.

Lemma match_here_sound {r : regex} {s : str} {cap : option str} {rest : str} :
  match_here E r s = Some (cap, rest) ->
  forall g, cap = Some g -> substring g s.
Proof.
  unfold match_here. intros H g ->.
  apply rmatch_at_sound in H as (cap' & s' & H & _ & [G|(g' & G & Hg)]).
  - inversion H; subst. discriminate.
  - inversion H; subst. inversion H1; subst. exact Hg.
Qed.

Lemma search_sound (r : regex) (s : str) :
  forall skipped m, search E r skipped s = Some m -> within s m.
Proof.
  induction s as [|c s IH]; intros skipped m H; cbn [search] in H;
    destruct (match_here E r _) as [[cap rest]|] eqn:M;
    try discriminate.
  - injection H as <-. split; cbn [m_whole m_group].
    + apply substring_nil.
    + intros g Hg. exact (match_here_sound M g Hg).
  - injection H as <-. split; cbn [m_whole m_group].
    + apply firstn_substring.
    + intros g Hg. exact (match_here_sound M g Hg).
  - apply IH in H. exact (within_suffix (is_suffix_cons c s) H).
Qed.

Lemma finditer_from_sound (r : regex) (fuel : nat) :
  forall offset s m, In m (finditer_from E fuel r offset s) -> within s m.
Proof.
  induction fuel as [|fuel IH]; intros offset s m H; simpl in H; [contradiction|].
  destruct (search E r offset s) as [m0|] eqn:S0; [|contradiction].
  destruct H as [<-|H]; [exact (search_sound _ _ _ _ S0)|].
  pose proof (is_suffix_skipn (m_end m0 - offset) s) as Hrest.
  destruct (m_whole m0).
  - destruct (skipn (m_end m0 - offset) s) as [|c rest] eqn:R; [contradiction|].
    apply IH in H.
    exact (within_suffix (is_suffix_trans _ _ _ (is_suffix_cons c rest) Hrest) H).
  - apply IH in H. exact (within_suffix Hrest H).
Qed.

Lemma finditer_sound (r : regex) (s : str) (m : rmatch) :
  In m (finditer E r s) -> within s m.
Proof. apply finditer_from_sound. Qed.

Lemma findall_sound (r : regex) (s v : str) :
  In v (findall E r s) -> substring v s.
Proof.
  unfold findall. rewrite in_map_iff. intros (m & <- & H).
  apply finditer_sound in H as [W G].
  unfold findall_item. destruct (has_group r); [|exact W].
  destruct (m_group m) as [g|] eqn:Hg; [exact (G g eq_refl)|].
  apply substring_nil.
Qed.

Lemma first_match_sound (patterns : list regex) (text v : str) :
  first_match E patterns text = Some v -> substring v text.
Proof.
  induction patterns as [|p ps IH]; simpl; [discriminate|].
  destruct (findall E p text) as [|m l] eqn:F; [exact IH|].
  intros H. inversion H; subst. apply (findall_sound p). rewrite F. left.
  reflexivity.
Qed.
End MatchesSound.

(** *** The metrics dictionary *)

Lemma dict_get_set_same (k : string) (v : str) (d : dict) :
  dict_get k (dict_set k v d) = Some v.
Proof.
  induction d as [|[k' v'] d IH]; simpl.
  - rewrite String.eqb_refl. reflexivity.
  - destruct (String.eqb k k') eqn:K; simpl.
    + rewrite String.eqb_refl. reflexivity.
    + rewrite K. exact IH.
Qed.

Lemma dict_get_set_other (k k' : string) (v : str) (d : dict) :
  k <> k' -> dict_get k' (dict_set k v d) = dict_get k' d.
Proof.
  intros N. induction d as [|[k0 v0] d IH]; simpl.
  - destruct (String.eqb_spec k' k); [congruence|reflexivity].
  - destruct (String.eqb_spec k k0) as [->|]; simpl.
    + destruct (String.eqb_spec k' k0); [congruence|reflexivity].
    + destruct (String.eqb_spec k' k0); [reflexivity|exact IH].
Qed.

Lemma dict_set_In (k k' : string) (v v' : str) (d : dict) :
  In (k', v') (dict_set k v d) -> v' = v \/ In (k', v') d.
Proof.
  induction d as [|[k0 v0] d IH]; simpl.
  - intros [H|[]]. inversion H. left. reflexivity.
  - destruct (String.eqb k k0); simpl.
    + intros [H|H]; [inversion H; left; reflexivity|right; right; exact H].
    + intros [H|H]; [right; left; exact H|].
      apply IH in H as [H|H]; [left; exact H|right; right; exact H].
Qed.

(** Every value of the dictionary satisfies [P]. *)
Definition values (P : str -> Prop) (d : dict) : Prop :=
  forall k v, In (k, v) d -> P v.

Lemma values_nil (P : str -> Prop) : values P [].
Proof. intros k v []. Qed.

Lemma values_set (P : str -> Prop) (k : string) (v : str) (d : dict) :
  P v -> values P d -> values P (dict_set k v d).
Proof.
  intros Hv Hd k' v' H. apply dict_set_In in H as [->|H]; [exact Hv|].
  exact (Hd _ _ H).
Qed.

Lemma fold_left_invariant {A B : Type} (P : A -> Prop) (f : A -> B -> A)
  (l : list B) :
  (forall a b, P a -> P (f a b)) -> forall a, P a -> P (fold_left f l a).
Proof.
  intros H. induction l as [|b l IH]; simpl; intros a Ha; [exact Ha|].
  apply IH, H, Ha.
Qed.

Lemma fold_left_invariant_In {A B : Type} (P : A -> Prop) (f : A -> B -> A)
  (l : list B) :
  (forall a b, In b l -> P a -> P (f a b)) ->
  forall a, P a -> P (fold_left f l a).
Proof.
  induction l as [|b l IH]; simpl; intros H a Ha; [exact Ha|].
  apply IH; [intros a' b' Hb; apply H; right; exact Hb|].
  apply H; [left; reflexivity|exact Ha].
Qed.

Section Metrics.
Variable E : pyenv.

Lemma extract_metrics_values (table : list (string * list regex))
  (text : str) (m : dict) :
  values (fun v => substring v text) m ->
  values (fun v => substring v text) (extract_metrics E table text m).
Proof.
  unfold extract_metrics. apply fold_left_invariant.
  intros a [name ps] Ha. simpl.
  destruct (first_match E ps text) as [v|] eqn:F; [|exact Ha].
  apply values_set; [|exact Ha]. exact (first_match_sound E _ _ _ F).
Qed.

Lemma extract_metrics_other (table : list (string * list regex))
  (text : str) (name : string) :
  ~ In name (map fst table) ->
  forall m, dict_get name (extract_metrics E table text m) = dict_get name m.
Proof.
  unfold extract_metrics.
  induction table as [|[k ps] table IH]; simpl; intros N m; [reflexivity|].
  rewrite IH by tauto.
  destruct (first_match E ps text); [|reflexivity].
  apply dict_get_set_other. tauto.
Qed.

Lemma extract_metrics_entry (table : list (string * list regex))
  (text : str) (name : string) (ps : list regex) (v : str) :
  NoDup (map fst table) ->
  In (name, ps) table ->
  first_match E ps text = Some v ->
  forall m, dict_get name (extract_metrics E table text m) = Some v.
Proof.
  induction table as [|[k qs] table IH]; simpl; intros ND HIn F m;
    [contradiction|].
  inversion ND as [|? ? Hk ND']; subst.
  destruct HIn as [H|H].
  - inversion H; subst. unfold extract_metrics. simpl. rewrite F.
    fold (extract_metrics E table text (dict_set name v m)).
    rewrite (extract_metrics_other _ _ _ Hk). apply dict_get_set_same.
  - unfold extract_metrics. simpl.
    exact (IH ND' H F _).
Qed.

(** The first pattern with a match, and its first match, give the value. *)
Lemma first_match_priority (before : list regex) (p : regex)
  (after : list regex) (text v : str) (more : list str) :
  Forall (fun q => findall E q text = []) before ->
  findall E p text = v :: more ->
  first_match E (before ++ p :: after) text = Some v.
Proof.
  intros HB HP. induction HB as [|q before Hq HB IH]; simpl.
  - rewrite HP. reflexivity.
  - rewrite Hq. exact IH.
Qed.
End Metrics.

(** *** The list fields leave the metrics alone *)

Lemma metrics_set_entries (k : section) (l : list str) (d : data_points) :
  metrics (set_entries k l d) = metrics d.
Proof. destruct k; reflexivity. Qed.

Lemma metrics_append (k : section) (x : str) (d : data_points) :
  metrics (append k x d) = metrics d.
Proof. apply metrics_set_entries. Qed.

Lemma entries_set_entries (k k' : section) (l : list str) (d : data_points) :
  entries k' (set_entries k l d) = if section_eqb k k' then l else entries k' d.
Proof. destruct k, k'; reflexivity. Qed.

Lemma entries_set_metrics (k : section) (m : dict) (d : data_points) :
  entries k (set_metrics m d) = entries k d.
Proof. destruct k; reflexivity. Qed.

Ltac split_ifs :=
  repeat match goal with
         | |- context [if ?c then _ else _] => destruct c
         | |- context [match ?c with Some _ => _ | None => _ end] => destruct c
         end.

Section MetricsKept.
Variable E : pyenv.

Lemma repo_store_bullet_metrics cs content d :
  metrics (Repo.store_bullet cs content d) = metrics d.
Proof.
  unfold Repo.store_bullet. split_ifs; rewrite ?metrics_append; reflexivity.
Qed.

Lemma repo_line_step_metrics st raw :
  metrics (snd (Repo.line_step E st raw)) = metrics (snd st).
Proof.
  destruct st as [cs d]. unfold Repo.line_step.
  destruct (Repo.classify E raw); simpl; try reflexivity.
  - destruct (10 <? length content); simpl; [|reflexivity].
    apply repo_store_bullet_metrics.
  - unfold Repo.store_any_bullet. split_ifs; rewrite ?metrics_append;
      reflexivity.
Qed.

Lemma repo_section_pass_metrics text d :
  metrics (Repo.section_pass E text d) = metrics d.
Proof.
  unfold Repo.section_pass.
  apply (fold_left_invariant
           (fun st => metrics (snd st) = metrics d) (Repo.line_step E)).
  - intros st raw H. rewrite repo_line_step_metrics. exact H.
  - reflexivity.
Qed.

Lemma repo_fallback_line_metrics k d raw :
  metrics (Repo.fallback_line k d raw) = metrics d.
Proof.
  unfold Repo.fallback_line. cbv zeta.
  split_ifs; rewrite ?metrics_append; reflexivity.
Qed.

Lemma repo_fallback_header_metrics text k d h :
  metrics (Repo.fallback_header E text k d h) = metrics d.
Proof.
  unfold Repo.fallback_header.
  destruct (contains _ _); [|reflexivity].
  destruct (find _ _); [|reflexivity].
  apply (fold_left_invariant (fun d' => metrics d' = metrics d)).
  - intros a b H. rewrite repo_fallback_line_metrics. exact H.
  - reflexivity.
Qed.

Lemma repo_fallback_metrics text d :
  metrics (Repo._extract_insights_fallback E text d) = metrics d.
Proof.
  unfold Repo._extract_insights_fallback.
  apply (fold_left_invariant (fun d' => metrics d' = metrics d)).
  - intros a [k hs] H. simpl.
    apply (fold_left_invariant (fun d' => metrics d' = metrics d)).
    + intros a' h H'. rewrite repo_fallback_header_metrics. exact H'.
    + exact H.
  - reflexivity.
Qed.

Lemma repo_findings_metrics text d :
  metrics (Repo.findings E text d) = metrics d.
Proof.
  unfold Repo.findings. cbv zeta.
  destruct (negb _).
  - rewrite repo_fallback_metrics. apply repo_section_pass_metrics.
  - apply repo_section_pass_metrics.
Qed.

Lemma repo_metrics (s : str) :
  metrics (Repo.extract_points E s) =
    extract_metrics E Repo.financial_patterns (enforce_word_limit s) [].
Proof.
  unfold Repo.extract_points. cbv zeta. rewrite repo_findings_metrics.
  reflexivity.
Qed.
End MetricsKept.

Section UserMetrics.
Variable E : pyenv.

Lemma user_insight_step_metrics d raw :
  metrics (User.insight_step E d raw) = metrics d.
Proof.
  unfold User.insight_step. cbv zeta.
  split_ifs; rewrite ?metrics_append; reflexivity.
Qed.

Lemma user_highlight_step_metrics d raw :
  metrics (User.highlight_step E d raw) = metrics d.
Proof.
  unfold User.highlight_step. cbv zeta.
  split_ifs; rewrite ?metrics_append; reflexivity.
Qed.

Lemma user_risk_step_metrics d raw :
  metrics (User.risk_step E d raw) = metrics d.
Proof.
  unfold User.risk_step. cbv zeta.
  split_ifs; rewrite ?metrics_append; reflexivity.
Qed.

Lemma user_advanced_highlight_step_metrics d raw :
  metrics (User.advanced_highlight_step E d raw) = metrics d.
Proof.
  unfold User.advanced_highlight_step. cbv zeta.
  split_ifs; rewrite ?metrics_append; reflexivity.
Qed.

Lemma user_advanced_insight_step_metrics d raw :
  metrics (User.advanced_insight_step E d raw) = metrics d.
Proof.
  unfold User.advanced_insight_step. cbv zeta.
  split_ifs; rewrite ?metrics_append; reflexivity.
Qed.

Lemma fold_keeps_metrics (step : data_points -> str -> data_points)
  (lines : list str) (d : data_points) :
  (forall d raw, metrics (step d raw) = metrics d) ->
  metrics (fold_left step lines d) = metrics d.
Proof.
  intros H.
  apply (fold_left_invariant (fun d' => metrics d' = metrics d)).
  - intros a b Ha. rewrite H. exact Ha.
  - reflexivity.
Qed.

Lemma user_deduplicate_metrics d :
  metrics (User.deduplicate E d) = metrics d.
Proof.
  unfold User.deduplicate.
  apply (fold_left_invariant (fun d' => metrics d' = metrics d)).
  - intros a k Ha. rewrite metrics_set_entries. exact Ha.
  - reflexivity.
Qed.

(** The metrics after the two pattern tables. *)
Definition pattern_metrics (text : str) : dict :=
  extract_metrics E User.percentage_patterns text
    (extract_metrics E User.financial_patterns text []).

(** The metrics the advanced extraction leaves. *)
Definition advanced_metrics (text : str) (m : dict) : dict :=
  User.scan E (User.percentage_step E) User.advanced_percentage_patterns text
    (User.scan E (User.monetary_step E) User.monetary_patterns text m).

Lemma user_metrics (s : str) :
  metrics (User.extract_points E s) =
    let text := enforce_word_limit s in
    let m := pattern_metrics text in
    if length m <? 5 then advanced_metrics text m else m.
Proof.
  unfold User.extract_points, User.collect, User.scanned_text. cbv zeta.
  rewrite user_deduplicate_metrics.
  set (text := enforce_word_limit s).
  set (D := fold_left (User.risk_step E) _ _).
  assert (HD : metrics D = pattern_metrics text).
  { subst D.
    rewrite !fold_keeps_metrics
      by auto using user_insight_step_metrics, user_highlight_step_metrics,
           user_risk_step_metrics.
    reflexivity. }
  rewrite HD. destruct (length _ <? 5); [|exact HD].
  unfold User._advanced_financial_extraction. cbv zeta.
  rewrite !fold_keeps_metrics
    by auto using user_advanced_highlight_step_metrics,
         user_advanced_insight_step_metrics.
  rewrite HD. reflexivity.
Qed.

(** What [set_if_absent] does to the values and to the keys present. *)
Lemma set_if_absent_values (P : str -> Prop) key value m :
  P value -> values P m -> values P (User.set_if_absent key value m).
Proof.
  intros Hv Hm. unfold User.set_if_absent.
  destruct (negb _); [apply values_set; assumption|exact Hm].
Qed.

Lemma set_if_absent_keeps key value m k v :
  dict_get k m = Some v ->
  dict_get k (User.set_if_absent key value m) = Some v.
Proof.
  intros H. unfold User.set_if_absent, dict_mem.
  destruct (String.eqb_spec key k) as [->|N].
  - rewrite H. exact H.
  - destruct (negb _); [|exact H].
    rewrite dict_get_set_other by exact N. exact H.
Qed.

Lemma monetary_step_values text m found :
  within text found ->
  values (fun v => substring v text) m ->
  values (fun v => substring v text) (User.monetary_step E text m found).
Proof.
  intros [W _] Hm. unfold User.monetary_step. cbv zeta.
  split_ifs; try exact Hm; apply set_if_absent_values; assumption.
Qed.

Lemma percentage_step_values text m found :
  within text found ->
  values (fun v => substring v text) m ->
  values (fun v => substring v text) (User.percentage_step E text m found).
Proof.
  intros [W _] Hm. unfold User.percentage_step. cbv zeta.
  split_ifs; try exact Hm; apply set_if_absent_values; assumption.
Qed.

Lemma monetary_step_keeps text m found k v :
  dict_get k m = Some v ->
  dict_get k (User.monetary_step E text m found) = Some v.
Proof.
  intros H. unfold User.monetary_step. cbv zeta.
  split_ifs; try exact H; apply set_if_absent_keeps; exact H.
Qed.

Lemma percentage_step_keeps text m found k v :
  dict_get k m = Some v ->
  dict_get k (User.percentage_step E text m found) = Some v.
Proof.
  intros H. unfold User.percentage_step. cbv zeta.
  split_ifs; try exact H; apply set_if_absent_keeps; exact H.
Qed.

Lemma scan_values (step : str -> dict -> rmatch -> dict) patterns text m :
  (forall m found,
      within text found ->
      values (fun v => substring v text) m ->
      values (fun v => substring v text) (step text m found)) ->
  values (fun v => substring v text) m ->
  values (fun v => substring v text) (User.scan E step patterns text m).
Proof.
  intros Hstep. unfold User.scan. revert m.
  apply fold_left_invariant. intros a p Ha.
  revert a Ha. apply fold_left_invariant_In.
  intros a found Hin Ha. apply Hstep; [|exact Ha].
  exact (finditer_sound E _ _ _ Hin).
Qed.

Lemma scan_keeps (step : str -> dict -> rmatch -> dict) patterns text m k v :
  (forall m found,
      dict_get k m = Some v -> dict_get k (step text m found) = Some v) ->
  dict_get k m = Some v ->
  dict_get k (User.scan E step patterns text m) = Some v.
Proof.
  intros Hstep. unfold User.scan. revert m.
  apply (fold_left_invariant (fun m => dict_get k m = Some v)).
  intros a p. revert a.
  apply (fold_left_invariant (fun m => dict_get k m = Some v)).
  intros a found Ha. apply Hstep, Ha.
Qed.

Lemma user_metrics_values (s : str) :
  values (fun v => substring v (enforce_word_limit s))
    (metrics (User.extract_points E s)).
Proof.
  rewrite user_metrics. cbv zeta.
  assert (H : values (fun v => substring v (enforce_word_limit s))
                (pattern_metrics (enforce_word_limit s))).
  { unfold pattern_metrics. apply extract_metrics_values.
    apply extract_metrics_values. apply values_nil. }
  destruct (length _ <? 5); [|exact H].
  unfold advanced_metrics.
  apply scan_values; [apply percentage_step_values|].
  apply scan_values; [apply monetary_step_values|exact H].
Qed.

Lemma user_metrics_keep (s : str) (k : string) (v : str) :
  dict_get k (pattern_metrics (enforce_word_limit s)) = Some v ->
  dict_get k (metrics (User.extract_points E s)) = Some v.
Proof.
  intros H. rewrite user_metrics. cbv zeta.
  destruct (length _ <? 5); [|exact H].
  unfold advanced_metrics.
  apply scan_keeps; [intros; apply percentage_step_keeps; assumption|].
  apply scan_keeps; [intros; apply monetary_step_keeps; assumption|exact H].
Qed.

Lemma repo_metrics_values (s : str) :
  values (fun v => substring v (enforce_word_limit s))
    (metrics (Repo.extract_points E s)).
Proof.
  rewrite repo_metrics. apply extract_metrics_values, values_nil.
Qed.
End UserMetrics.

(** *** Sizes of the lists and of their entries *)

(** Every entry of category [k] has at most [cap k] characters. *)
Definition entry_caps (cap : section -> nat) (d : data_points) : Prop :=
  forall k x, In x (entries k d) -> length x <= cap k.

(** Every list has at most [n] entries. *)
Definition list_caps (n : nat) (d : data_points) : Prop :=
  forall k, length (entries k d) <= n.

Lemma entries_append (k k' : section) (x : str) (d : data_points) :
  entries k' (append k x d) =
    if section_eqb k k' then entries k d ++ [x] else entries k' d.
Proof. unfold append. apply entries_set_entries. Qed.

Lemma section_eqb_eq (k k' : section) : section_eqb k k' = true -> k = k'.
Proof. destruct k, k'; simpl; congruence. Qed.

Lemma entry_caps_append (cap : section -> nat) (k : section) (x : str)
  (d : data_points) :
  length x <= cap k -> entry_caps cap d -> entry_caps cap (append k x d).
Proof.
  intros Hx Hd k' y. rewrite entries_append.
  destruct (section_eqb k k') eqn:K; [|apply Hd].
  apply section_eqb_eq in K as <-. rewrite in_app_iff.
  intros [H|[<-|[]]]; [exact (Hd _ _ H)|exact Hx].
Qed.

Lemma list_caps_append (n : nat) (k : section) (x : str) (d : data_points) :
  length (entries k d) < n -> list_caps n d -> list_caps n (append k x d).
Proof.
  intros Hk Hd k'. rewrite entries_append.
  destruct (section_eqb k k') eqn:K; [|apply Hd].
  rewrite length_app. simpl. lia.
Qed.

Lemma firstn_length_le {A : Type} (n : nat) (l : list A) :
  length (firstn n l) <= n.
Proof. rewrite length_firstn. lia. Qed.

Lemma entry_caps_empty (cap : section -> nat) : entry_caps cap empty_points.
Proof. intros [] x []. Qed.

Lemma list_caps_empty (n : nat) : list_caps n empty_points.
Proof. intros []; simpl; lia. Qed.

Lemma entry_caps_set_metrics cap m d :
  entry_caps cap d -> entry_caps cap (set_metrics m d).
Proof. intros H k x. rewrite entries_set_metrics. apply H. Qed.

Lemma list_caps_set_metrics n m d :
  list_caps n d -> list_caps n (set_metrics m d).
Proof. intros H k. rewrite entries_set_metrics. apply H. Qed.

(** The caps of the repository: 5 entries of at most 150 characters. *)
Definition repo_cap (k : section) : nat := 150.

Definition repo_sized (d : data_points) : Prop :=
  entry_caps repo_cap d /\ list_caps 5 d.

Lemma repo_sized_append (k : section) (n : nat) (content : str)
  (d : data_points) :
  n <= 150 -> (length (entries k d) <? 5) = true ->
  repo_sized d -> repo_sized (append k (firstn n content) d).
Proof.
  intros Hn Hk [H1 H2]. apply Nat.ltb_lt in Hk. split.
  - apply entry_caps_append; [|exact H1].
    pose proof (firstn_length_le n content). unfold repo_cap. lia.
  - apply list_caps_append; assumption.
Qed.

Section RepoSizes.
Variable E : pyenv.

Lemma repo_store_bullet_sized cs content d :
  repo_sized d -> repo_sized (Repo.store_bullet cs content d).
Proof.
  intros H. unfold Repo.store_bullet.
  repeat match goal with
         | |- context [if ?c then _ else _] =>
             let C := fresh "C" in
             destruct c eqn:C;
             [apply andb_true_iff in C as [_ C];
              apply (repo_sized_append _ 150); [lia|exact C|exact H]|]
         end.
  exact H.
Qed.

Lemma repo_store_any_bullet_sized content d :
  repo_sized d -> repo_sized (Repo.store_any_bullet E content d).
Proof.
  intros H. unfold Repo.store_any_bullet.
  destruct (_ && _)%bool eqn:C; [|exact H].
  apply andb_true_iff in C as [_ C].
  apply (repo_sized_append Insights 100); [lia| |exact H].
  apply Nat.ltb_lt in C. apply Nat.ltb_lt. simpl. lia.
Qed.

Lemma repo_line_step_sized st raw :
  repo_sized (snd st) -> repo_sized (snd (Repo.line_step E st raw)).
Proof.
  destruct st as [cs d]. simpl. intros H. unfold Repo.line_step.
  destruct (Repo.classify E raw); simpl; try exact H.
  - destruct (10 <? length content); simpl; [|exact H].
    apply repo_store_bullet_sized, H.
  - apply repo_store_any_bullet_sized, H.
Qed.

Lemma repo_section_pass_sized text d :
  repo_sized d -> repo_sized (Repo.section_pass E text d).
Proof.
  intros H. unfold Repo.section_pass.
  apply (fold_left_invariant (fun st => repo_sized (snd st))).
  - intros st raw. apply repo_line_step_sized.
  - exact H.
Qed.

Lemma repo_fallback_line_sized k d raw :
  repo_sized d -> repo_sized (Repo.fallback_line k d raw).
Proof.
  intros H. unfold Repo.fallback_line. cbv zeta.
  repeat match goal with
         | |- context [if ?c then _ else _] =>
             let C := fresh "C" in destruct c eqn:C
         end; try exact H;
    match goal with
    | C : (_ && (length (entries k d) <? 5))%bool = true |- _ =>
        apply andb_true_iff in C as [_ C];
        apply (repo_sized_append _ 150); [lia|exact C|exact H]
    end.
Qed.

Lemma repo_fallback_sized text d :
  repo_sized d -> repo_sized (Repo._extract_insights_fallback E text d).
Proof.
  unfold Repo._extract_insights_fallback. revert d.
  apply fold_left_invariant. intros d [k hs]. simpl. revert d.
  apply fold_left_invariant. intros d h H.
  unfold Repo.fallback_header.
  destruct (contains _ _); [|exact H].
  destruct (find _ _); [|exact H].
  revert d H. apply fold_left_invariant. intros d raw.
  apply repo_fallback_line_sized.
Qed.

Lemma repo_points_sized (s : str) : repo_sized (Repo.extract_points E s).
Proof.
  unfold Repo.extract_points, Repo.findings. cbv zeta.
  assert (H : repo_sized
                (set_metrics
                   (extract_metrics E Repo.financial_patterns
                      (Repo.scanned_text s) (metrics empty_points))
                   empty_points)).
  { split; [apply entry_caps_set_metrics, entry_caps_empty
           |apply list_caps_set_metrics, list_caps_empty]. }
  apply (repo_section_pass_sized (Repo.scanned_text s)) in H.
  destruct (negb _); [apply repo_fallback_sized|]; exact H.
Qed.
End RepoSizes.

(** The character caps of the user service, category by category. *)
Definition user_cap (k : section) : nat :=
  match k with
  | Insights | FinancialHighlights => 150
  | KeyFindings | Risks | Opportunities => 120
  end.

Lemma user_cap_append (k : section) (n : nat) (line : str) (d : data_points) :
  n <= user_cap k -> entry_caps user_cap d ->
  entry_caps user_cap (append k (firstn n line) d).
Proof.
  intros Hn H. apply entry_caps_append; [|exact H].
  pose proof (firstn_length_le n line). lia.
Qed.

Section UserSizes.
Variable E : pyenv.

Ltac step_caps H :=
  cbv zeta; split_ifs; try exact H;
  repeat (apply user_cap_append; [simpl; lia|]); exact H.

Lemma user_insight_step_caps d raw :
  entry_caps user_cap d -> entry_caps user_cap (User.insight_step E d raw).
Proof. intros H. unfold User.insight_step. step_caps H. Qed.

Lemma user_highlight_step_caps d raw :
  entry_caps user_cap d -> entry_caps user_cap (User.highlight_step E d raw).
Proof. intros H. unfold User.highlight_step. step_caps H. Qed.

Lemma user_risk_step_caps d raw :
  entry_caps user_cap d -> entry_caps user_cap (User.risk_step E d raw).
Proof. intros H. unfold User.risk_step. step_caps H. Qed.

Lemma user_advanced_highlight_step_caps d raw :
  entry_caps user_cap d ->
  entry_caps user_cap (User.advanced_highlight_step E d raw).
Proof. intros H. unfold User.advanced_highlight_step. step_caps H. Qed.

Lemma user_advanced_insight_step_caps d raw :
  entry_caps user_cap d ->
  entry_caps user_cap (User.advanced_insight_step E d raw).
Proof. intros H. unfold User.advanced_insight_step. step_caps H. Qed.

Lemma user_collect_caps (s : str) : entry_caps user_cap (User.collect E s).
Proof.
  unfold User.collect. cbv zeta.
  set (D := fold_left (User.risk_step E) _ _).
  assert (H : entry_caps user_cap D).
  { subst D.
    apply fold_left_invariant; [intros; apply user_risk_step_caps; assumption|].
    apply fold_left_invariant;
      [intros; apply user_highlight_step_caps; assumption|].
    apply fold_left_invariant;
      [intros; apply user_insight_step_caps; assumption|].
    apply entry_caps_set_metrics, entry_caps_empty. }
  destruct (length _ <? 5); [|exact H].
  unfold User._advanced_financial_extraction. cbv zeta.
  apply fold_left_invariant;
    [intros; apply user_advanced_insight_step_caps; assumption|].
  apply fold_left_invariant;
    [intros; apply user_advanced_highlight_step_caps; assumption|].
  apply entry_caps_set_metrics, H.
Qed.

Lemma entries_deduplicate (k : section) (d : data_points) :
  entries k (User.deduplicate E d) =
    firstn 5 (list_of_set E (entries k d)).
Proof. destruct k; reflexivity. Qed.

Lemma In_firstn {A : Type} (n : nat) (l : list A) (x : A) :
  In x (firstn n l) -> In x l.
Proof.
  intros H. rewrite <- (firstn_skipn n l). apply in_or_app. left. exact H.
Qed.

Lemma NoDup_firstn {A : Type} (n : nat) (l : list A) :
  NoDup l -> NoDup (firstn n l).
Proof.
  intros H. rewrite <- (firstn_skipn n l) in H.
  exact (NoDup_app_remove_r _ _ H).
Qed.

Lemma user_points_caps (s : str) :
  entry_caps user_cap (User.extract_points E s).
Proof.
  intros k x. unfold User.extract_points. rewrite entries_deduplicate.
  intros H. apply In_firstn in H. apply list_of_set_In in H.
  exact (user_collect_caps s k x H).
Qed.

Lemma user_points_list_caps (s : str) :
  list_caps 5 (User.extract_points E s).
Proof.
  intros k. unfold User.extract_points. rewrite entries_deduplicate.
  apply firstn_length_le.
Qed.

Lemma user_points_NoDup (s : str) (k : section) :
  NoDup (entries k (User.extract_points E s)).
Proof.
  unfold User.extract_points. rewrite entries_deduplicate.
  apply NoDup_firstn, list_of_set_NoDup.
Qed.
End UserSizes.



Lemma repo_keys_NoDup : NoDup (map fst Repo.financial_patterns).
Proof.
  vm_compute. repeat constructor; simpl; intuition discriminate.
Qed.

Lemma user_keys_NoDup :
  NoDup (map fst (User.financial_patterns ++ User.percentage_patterns)).
Proof.
  vm_compute. repeat constructor; simpl; intuition discriminate.
Qed.

Lemma extract_metrics_app (E : pyenv) (t1 t2 : list (string * list regex))
  (text : str) (m : dict) :
  extract_metrics E t2 text (extract_metrics E t1 text m) =
    extract_metrics E (t1 ++ t2) text m.
Proof. unfold extract_metrics. rewrite fold_left_app. reflexivity. Qed.

Lemma repo_metric_of_pattern (E : pyenv) (s : str) (name : string)
  (ps : list regex) (v : str) :
  In (name, ps) Repo.financial_patterns ->
  first_match E ps (enforce_word_limit s) = Some v ->
  dict_get name (metrics (Repo.extract_points E s)) = Some v.
Proof.
  intros HIn F. rewrite repo_metrics.
  exact (extract_metrics_entry E _ _ _ _ _ repo_keys_NoDup HIn F _).
Qed.

Lemma user_metric_of_pattern (E : pyenv) (s : str) (name : string)
  (ps : list regex) (v : str) :
  In (name, ps) (User.financial_patterns ++ User.percentage_patterns) ->
  first_match E ps (enforce_word_limit s) = Some v ->
  dict_get name (metrics (User.extract_points E s)) = Some v.
Proof.
  intros HIn F. apply user_metrics_keep. unfold pattern_metrics.
  rewrite extract_metrics_app.
  exact (extract_metrics_entry E _ _ _ _ _ user_keys_NoDup HIn F _).
Qed.




(** ** Sample reports *)

(** [n] times the word [w], separated by single spaces. *)
Definition repeated (n : nat) (w : string) : list str := repeat (lit w) n.

(** 202 words: a figure for the revenue after the 200th word. *)
Definition long_report : str :=
  join space (repeated 200 "w" ++ [lit "revenue"; lit "$5"]).


Definition priority_report : str :=
  lit ("Revenue: $500M" ++ nl ++ "Sales grew to $600M").

Definition long_risk_report : str :=
  lit ("Risk Factors:" ++ nl ++ "- ") ++ repeat 120%N 130.

Definition repeated_finding_report : str :=
  lit ("Key Findings:" ++ nl ++ "- Net income rose to $300M" ++ nl
       ++ "- Net income rose to $300M").

Definition findings_report : str :=
  lit ("Key Findings:" ++ nl ++ "- Net income rose to $300M" ++ nl
       ++ "Risk 1: currency swings may hurt margins").

Definition unsectioned_report : str :=
  lit ("Insights:" ++ nl ++ "- Margins improved by 3 points").

Definition titled_header_line : str :=
  lit "KEY FINANCIAL METRICS and opportunities:".

Definition long_bullet_line : str := lit "- " ++ repeat 120%N 160.

(** *** A report that opens with its revenue *)

(** The tables agree with the ASCII ones on the ASCII characters. *)
Definition ascii_faithful (E : pyenv) : Prop :=
  (forall c, (c <? 128)%N = true -> tolower E c = ascii_tolower c)
  /\ (forall c, (c <? 128)%N = true -> isdecimal E c = between 48%N 57%N c).

(** The two patterns of the revenue, the same in both implementations. *)
Definition revenue_patterns : list regex :=
  [labelled_money ["revenue"; "sales"; "total revenue"]%string;
   labelled_amount ["revenue"; "sales"]%string].

Lemma ascii_env_faithful : ascii_faithful ascii_env.
Proof. split; intros c _; reflexivity. Qed.

Lemma ltb_succ (n : nat) : (n <? S n) = true.
Proof. apply Nat.ltb_lt. lia. Qed.

(** The first pattern matches at the head of the text and captures "$500M",
    whatever follows. *)
Lemma revenue_match_here (E : pyenv) (rest : str) :
  ascii_faithful E ->
  match_here E
    (labelled_money ["revenue"; "sales"; "total revenue"]%string)
    (lit "Revenue: $500M" ++ rest)
  = Some (Some (lit "$500M"), rest).
Proof.
  intros [Hl Hd]. unfold match_here.
  repeat (progress (cbn -[Nat.ltb firstn tolower isdecimal];
                    rewrite ?ltb_succ, ?Hl, ?Hd by reflexivity)).
  match goal with
  | |- context [firstn ?n _] =>
      replace n with 5
        by (destruct (length rest) as [|[|[|[|[|n']]]]]; cbv beta iota; lia)
  end.
  reflexivity.
Qed.

Lemma search_here (E : pyenv) (r : regex) (skipped : nat) (s : str)
  (cap : option str) (rest : str) :
  match_here E r s = Some (cap, rest) ->
  search E r skipped s =
    Some {| m_start := skipped;
            m_whole := firstn (length s - length rest) s;
            m_group := cap |}.
Proof. intros H. destruct s; cbn [search]; rewrite H; reflexivity. Qed.

Lemma finditer_head (E : pyenv) (r : regex) (s : str) (m : rmatch) :
  search E r 0 s = Some m -> exists more, finditer E r s = m :: more.
Proof.
  intros H. unfold finditer. cbn [finditer_from]. rewrite H.
  eexists. reflexivity.
Qed.

Lemma revenue_first_match (E : pyenv) (rest : str) :
  ascii_faithful E ->
  first_match E revenue_patterns (lit "Revenue: $500M" ++ rest)
  = Some (lit "$500M").
Proof.
  intros H. pose proof (revenue_match_here E rest H) as M.
  apply (search_here E _ 0) in M.
  apply finditer_head in M as [more M].
  unfold revenue_patterns, first_match, findall. rewrite M. reflexivity.
Qed.

Lemma split_ws_aux_head (s : str) :
  forall cur, cur <> [] ->
  exists w ws, split_ws_aux cur s = (rev cur ++ w) :: ws.
Proof.
  induction s as [|c s IH]; intros cur Hc; simpl.
  - destruct cur; [congruence|]. exists [], []. rewrite app_nil_r. reflexivity.
  - destruct (isspace c).
    + destruct cur; [congruence|]. exists [], (split_ws_aux [] s).
      rewrite app_nil_r. reflexivity.
    + destruct (IH (c :: cur)) as (w & ws & H); [discriminate|].
      exists (c :: w), ws. rewrite H. simpl. rewrite <- app_assoc. reflexivity.
Qed.

Lemma join_head (w : str) (ws : list str) :
  exists tail, join space (w :: ws) = w ++ tail.
Proof.
  destruct ws as [|w' ws]; simpl.
  - exists []. rewrite app_nil_r. reflexivity.
  - eexists. reflexivity.
Qed.

Lemma join_cons2 (sep a b : str) (l : list str) :
  join sep (a :: b :: l) = a ++ sep ++ join sep (b :: l).
Proof. reflexivity. Qed.

(** The cap leaves the opening "Revenue: $500M" where it is. *)
Lemma scanned_revenue_prefix (rest : str) :
  exists rest',
    enforce_word_limit (lit "Revenue: $500M" ++ rest)
    = lit "Revenue: $500M" ++ rest'.
Proof.
  unfold enforce_word_limit.
  destruct (200 <? _); [|exists rest; reflexivity].
  assert (H : exists w ws,
             split_ws (lit "Revenue: $500M" ++ rest)
             = lit "Revenue:" :: (lit "$500M" ++ w) :: ws).
  { destruct (split_ws_aux_head rest (rev (lit "$500M")))
      as (w & ws & H); [discriminate|].
    exists w, ws. unfold split_ws.
    change (split_ws_aux [] (lit "Revenue: $500M" ++ rest))
      with (lit "Revenue:" :: split_ws_aux (rev (lit "$500M")) rest).
    rewrite H. reflexivity. }
  destruct H as (w & ws & ->).
  rewrite !firstn_cons, join_cons2.
  destruct (join_head (lit "$500M" ++ w) (firstn 198 ws)) as [tail ->].
  exists (w ++ tail ++ truncation_marker).
  rewrite <- !app_assoc. reflexivity.
Qed.

Set Warnings "-register-all".

(** *** What a match is: the patterns read as a relation

    [matches E r u before after]: the pattern [r] matches the text [u], all of
    it, and group 1, which held [before], holds [after] when the match is
    over.  The relation is read off the pattern, not off the matcher: a
    character matches a class, a sequence matches two texts one after the
    other, a repetition matches some number of texts in a row, and a group
    holds the text that its body matched. *)










Section MatcherExact.
Variable E : pyenv.
Variable A : Type.




End MatcherExact.

Section MatchesExact.
Variable E : pyenv.








Lemma findall_item_start (r : regex) (m : rmatch) (n : nat) :
  findall_item r {| m_start := n; m_whole := m_whole m; m_group := m_group m |}
  = findall_item r m.
Proof. reflexivity. Qed.




End MatchesExact.

(** *** What a capture looks like *)

Section Captures.
Variable E : pyenv.




End Captures.

Section CaptureShapes.
Variable E : pyenv.







End CaptureShapes.

(** *** Where the entries of the metrics come from *)







Section MetricsCaptured.
Variable E : pyenv.










End MetricsCaptured.

(** *** The patterns that capture *)











Section ValuesShaped.
Variable E : pyenv.




End ValuesShaped.

(** ** The claims *)

(** C1.  When the [try] block of [extract_financial_data_points] raises, the
    function returns the dictionary with an empty metrics mapping, five empty
    lists and the score 0.0; it returns a dictionary in every case, so that no
    exception reaches the caller.  Both implementations. *)
Theorem extraction_failure_returns_empty (E : pyenv) (x : pyobj) :
  (forall e, Repo.extract_try E x = Raises e ->
             Repo.extract_financial_data_points E x =
               {| points := {| metrics := []; insights := [];
                               key_findings := []; financial_highlights := [];
                               risks := []; opportunities := [] |};
                  extraction_quality_score := 0%float |})
  /\ (forall e, User.extract_try E x = Raises e ->
                User.extract_financial_data_points E x =
                  {| points := {| metrics := []; insights := [];
                                  key_findings := [];
                                  financial_highlights := [];
                                  risks := []; opportunities := [] |};
                     extraction_quality_score := 0%float |}).
Proof.
  split; intros e H.
  - unfold Repo.extract_financial_data_points. rewrite H. reflexivity.
  - unfold User.extract_financial_data_points. rewrite H. reflexivity.
Qed.

Lemma extraction_failure_returns_empty_witness :
  Repo.extract_try ascii_env PyNone = Raises AttributeError
  /\ Repo.extract_financial_data_points ascii_env PyNone = empty_extraction
  /\ User.extract_try ascii_env PyNone = Raises AttributeError
  /\ User.extract_financial_data_points ascii_env PyNone = empty_extraction.
Proof.
  destruct (extraction_failure_returns_empty ascii_env PyNone) as [HR HU].
  split; [reflexivity|]. split; [exact (HR AttributeError eq_refl)|].
  split; [reflexivity|]. exact (HU AttributeError eq_refl).
Defined.

(** C2.  The score of the result lies between 0.0 and 1.0 for every argument,
    and for the empty string the [try] block returns the dictionary with no
    metric, five empty lists and the score 0.0.  Both implementations. *)
Theorem score_in_unit_interval (E : pyenv) (x : pyobj) :
  unit_interval
    (extraction_quality_score (Repo.extract_financial_data_points E x))
  /\ unit_interval
       (extraction_quality_score (User.extract_financial_data_points E x))
  /\ Repo.extract_try E (PyStr []) = Returns empty_extraction
  /\ User.extract_try E (PyStr []) = Returns empty_extraction
  /\ Repo.extract_financial_data_points E (PyStr []) = empty_extraction
  /\ User.extract_financial_data_points E (PyStr []) = empty_extraction.
Proof.
  assert (HR : Repo.extract_try E (PyStr []) = Returns empty_extraction).
  { unfold Repo.extract_try. rewrite repo_points_nil. reflexivity. }
  assert (HU : User.extract_try E (PyStr []) = Returns empty_extraction).
  { unfold User.extract_try. rewrite user_points_nil. reflexivity. }
  repeat split; try assumption.
  - destruct x; [apply repo_score_bounds|vm_compute; reflexivity].
  - destruct x; [apply repo_score_bounds|vm_compute; reflexivity].
  - destruct x; [apply user_score_bounds|vm_compute; reflexivity].
  - destruct x; [apply user_score_bounds|vm_compute; reflexivity].
  - unfold Repo.extract_financial_data_points. rewrite HR. reflexivity.
  - unfold User.extract_financial_data_points. rewrite HU. reflexivity.
Qed.




(** C4.  For a metric of the pattern tables, when the patterns before [p] find
    nothing in the scanned text and [p] finds [v] first, the metric is [v]:
    later patterns and later matches do not count.  Both implementations; and
    for every report that opens with "Revenue: $500M", whatever comes later
    (such as "Sales grew to $600M"), the revenue is "$500M". *)
Theorem first_pattern_first_occurrence_wins (E : pyenv) (s : str)
  (name : string) (before : list regex) (p : regex) (after : list regex)
  (v : str) (more : list str) :
  (Forall (fun q => findall E q (enforce_word_limit s) = []) before ->
   findall E p (enforce_word_limit s) = v :: more ->
   (In (name, before ++ p :: after) Repo.financial_patterns ->
    dict_get name
      (metrics (points (Repo.extract_financial_data_points E (PyStr s))))
    = Some v)
   /\ (In (name, before ++ p :: after)
         (User.financial_patterns ++ User.percentage_patterns) ->
       dict_get name
         (metrics (points (User.extract_financial_data_points E (PyStr s))))
       = Some v))
  /\ (ascii_faithful E ->
      forall rest,
        dict_get "revenue"
          (metrics (points (Repo.extract_financial_data_points E
                              (PyStr (lit "Revenue: $500M" ++ rest)))))
        = Some (lit "$500M")
        /\ dict_get "revenue"
             (metrics (points (User.extract_financial_data_points E
                                 (PyStr (lit "Revenue: $500M" ++ rest)))))
           = Some (lit "$500M")).
Proof.
  split.
  - intros HB HP.
    pose proof (first_match_priority E before p after _ _ _ HB HP) as F.
    split; intros HIn.
    + exact (repo_metric_of_pattern E s name _ v HIn F).
    + exact (user_metric_of_pattern E s name _ v HIn F).
  - intros HE rest.
    destruct (scanned_revenue_prefix rest) as [rest' HS].
    pose proof (revenue_first_match E rest' HE) as F. rewrite <- HS in F.
    split.
    + apply (repo_metric_of_pattern E _ "revenue" revenue_patterns _).
      * left. reflexivity.
      * exact F.
    + apply (user_metric_of_pattern E _ "revenue" revenue_patterns _).
      * left. reflexivity.
      * exact F.
Qed.

Lemma first_pattern_first_occurrence_wins_witness :
  findall ascii_env (labelled_money ["revenue"; "sales"; "total revenue"]%string)
    (enforce_word_limit priority_report) = [lit "$500M"; lit "$600M"]
  /\ dict_get "revenue"
       (metrics (points (Repo.extract_financial_data_points ascii_env
                           (PyStr priority_report))))
     = Some (lit "$500M")
  /\ dict_get "revenue"
       (metrics (points (User.extract_financial_data_points ascii_env
                           (PyStr priority_report))))
     = Some (lit "$500M")
  /\ dict_get "revenue"
       (metrics (points (Repo.extract_financial_data_points ascii_env
                           (PyStr (lit "Revenue: $500M"
                                   ++ lit (nl ++ "Sales grew to $600M"))))))
     = Some (lit "$500M").
Proof.
  assert (F : findall ascii_env
                (labelled_money ["revenue"; "sales"; "total revenue"]%string)
                (enforce_word_limit priority_report)
              = [lit "$500M"; lit "$600M"]) by (vm_compute; reflexivity).
  destruct (first_pattern_first_occurrence_wins ascii_env priority_report
              "revenue" []
              (labelled_money ["revenue"; "sales"; "total revenue"]%string)
              [labelled_amount ["revenue"; "sales"]%string]
              (lit "$500M") [lit "$600M"])
    as (Hrule & Hopen).
  destruct (Hrule (Forall_nil _) F) as (HR & HU).
  split; [exact F|].
  split; [apply HR; left; reflexivity|].
  split; [apply HU; left; reflexivity|].
  exact (proj1 (Hopen ascii_env_faithful (lit (nl ++ "Sales grew to $600M")))).
Defined.

(** C5, as the claim states it, fails: a line that starts with
    "KEY FINANCIAL METRICS" and holds the header "opportunities:" opens the
    opportunities section instead of closing the current one; and a bullet of
    more than 150 characters is stored cut to 150. *)
Lemma closing_title_with_header_opens_section :
  closes_section (strip titled_header_line) = true
  /\ Repo.line_step ascii_env (Some Risks, empty_points) titled_header_line
     = (Some Opportunities, empty_points)
  /\ length (strip (skipn 1 (strip long_bullet_line))) = 160
  /\ map (@length char)
       (risks (snd (Repo.line_step ascii_env (Some Risks, empty_points)
                      long_bullet_line)))
     = [150].
Proof. repeat split; vm_compute; reflexivity. Qed.

(** C5, amended.  In the line loop of the repository, on the stripped line:
    a line that holds one of the five headers (in any case) sets the current
    section to one whose header it holds and stores nothing; a line that
    holds none of them and starts with one of the three titles clears the
    current section; and while a section is current, a line that holds no
    header, starts with "-" or the bullet and is longer than 15 characters
    adds the first 150 characters of what follows its marker to the list of
    that section if and only if what follows is longer than 10 characters and
    the list has fewer than 5 entries. *)
Theorem section_pass_line_rules (E : pyenv) (cs : option section)
  (d : data_points) (raw : str) :
  (forall k0, contains (header_text k0) (lower E (strip raw)) = true ->
     exists k, contains (header_text k) (lower E (strip raw)) = true
               /\ Repo.line_step E (cs, d) raw = (Some k, d))
  /\ ((forall k, contains (header_text k) (lower E (strip raw)) = false) ->
      closes_section (strip raw) = true ->
      Repo.line_step E (cs, d) raw = (None, d))
  /\ ((forall k, contains (header_text k) (lower E (strip raw)) = false) ->
      is_bullet_line bullet (strip raw) = true ->
      15 < length (strip raw) ->
      forall k, cs = Some k ->
        Repo.line_step E (cs, d) raw =
          (cs,
           if ((10 <? length (strip (skipn 1 (strip raw))))
               && (length (entries k d) <? 5))%bool
           then append k (firstn 150 (strip (skipn 1 (strip raw)))) d
           else d)).
Proof.
  split; [intros k0; apply header_sets_section|].
  split; [apply closing_line_leaves|].
  intros H B L k ->. exact (bullet_line_stored E k d raw H B L).
Qed.

Lemma section_pass_line_rules_witness :
  (exists k,
      contains (header_text k)
        (lower ascii_env (strip (lit "  Key Findings:"))) = true
      /\ Repo.line_step ascii_env (Some Risks, empty_points)
           (lit "  Key Findings:") = (Some k, empty_points))
  /\ Repo.line_step ascii_env (Some Risks, empty_points)
       (lit "KEY FINANCIAL METRICS") = (None, empty_points)
  /\ Repo.line_step ascii_env (Some Risks, empty_points)
       (lit "- Net income rose to $300M")
     = (Some Risks, append Risks (lit "Net income rose to $300M") empty_points).
Proof.
  destruct (section_pass_line_rules ascii_env (Some Risks) empty_points
              (lit "  Key Findings:")) as (H1 & _).
  destruct (section_pass_line_rules ascii_env (Some Risks) empty_points
              (lit "KEY FINANCIAL METRICS")) as (_ & H2 & _).
  destruct (section_pass_line_rules ascii_env (Some Risks) empty_points
              (lit "- Net income rose to $300M")) as (_ & _ & H3).
  split; [apply (H1 KeyFindings); vm_compute; reflexivity|].
  split; [apply H2; [intros []; vm_compute; reflexivity|vm_compute; reflexivity]|].
  rewrite (H3 ltac:(intros []; vm_compute; reflexivity)
              ltac:(vm_compute; reflexivity)
              ltac:(vm_compute; lia) Risks eq_refl).
  vm_compute. reflexivity.
Defined.

(** C6, as the claim states it, fails: the repository stores a risk of 130
    characters, over the cap of 120. *)
Lemma repo_risk_entry_over_120 :
  map (@length char)
    (risks (points (Repo.extract_financial_data_points ascii_env
                      (PyStr long_risk_report))))
  = [130].
Proof. vm_compute. reflexivity. Qed.

(** C6, amended.  Each of the five lists has at most 5 entries, and every
    entry has at most 150 characters; in the user service the entries of
    key_findings, risks and opportunities have at most 120.  Both
    implementations, every argument. *)
Theorem entries_and_lists_are_capped (E : pyenv) (x : pyobj) (k : section) :
  length (entries k (points (Repo.extract_financial_data_points E x))) <= 5
  /\ length (entries k (points (User.extract_financial_data_points E x))) <= 5
  /\ (forall e,
        In e (entries k (points (Repo.extract_financial_data_points E x))) ->
        length e <= 150)
  /\ (forall e,
        In e (entries k (points (User.extract_financial_data_points E x))) ->
        length e <= user_cap k /\ user_cap k <= 150).
Proof.
  destruct x as [s|].
  - split; [apply (repo_points_sized E s)|].
    split; [apply (user_points_list_caps E s)|].
    split; intros e H.
    + exact (proj1 (repo_points_sized E s) k e H).
    + split; [exact (user_points_caps E s k e H)|destruct k; simpl; lia].
  - split; [destruct k; simpl; lia|].
    split; [destruct k; simpl; lia|].
    split; intros e H; destruct k; destruct H.
Qed.

Lemma entries_and_lists_are_capped_witness :
  length (repeat 120%N 130) <= 150
  /\ length (lit "- Net income rose to $300M") <= 120.
Proof.
  destruct (entries_and_lists_are_capped ascii_env (PyStr long_risk_report)
              Risks) as (_ & _ & HR & _).
  destruct (entries_and_lists_are_capped ascii_env
              (PyStr repeated_finding_report) Opportunities)
    as (_ & _ & _ & HU).
  split.
  - apply HR. vm_compute. left. reflexivity.
  - apply (HU (lit "- Net income rose to $300M")). vm_compute. left.
    reflexivity.
Defined.

(** C7.  The fallback pass runs exactly when the section-aware pass left all
    five lists empty: if some list has an entry the findings are those of the
    section-aware pass alone, and if none has, they are what the fallback pass
    makes of them. *)
Theorem fallback_only_without_findings (E : pyenv) (text : str)
  (d : data_points) :
  ((exists k, entries k (Repo.section_pass E text d) <> []) ->
   Repo.findings E text d = Repo.section_pass E text d)
  /\ ((forall k, entries k (Repo.section_pass E text d) = []) ->
      Repo.findings E text d =
        Repo._extract_insights_fallback E text (Repo.section_pass E text d))
  /\ (forall s,
        points (Repo.extract_financial_data_points E (PyStr s)) =
          Repo.findings E (Repo.scanned_text s)
            (set_metrics
               (extract_metrics E Repo.financial_patterns
                  (Repo.scanned_text s) [])
               empty_points)).
Proof.
  unfold Repo.findings, Repo.any_findings. cbv zeta.
  split; [|split; [|reflexivity]].
  - intros [k H].
    assert (T : truthy (entries k (Repo.section_pass E text d)) = true)
      by (destruct (entries k _); [congruence|reflexivity]).
    destruct k; simpl; simpl in T; rewrite T; rewrite ?orb_true_r;
      reflexivity.
  - intros H. simpl.
    rewrite (H Insights : insights _ = []),
      (H KeyFindings : key_findings _ = []),
      (H FinancialHighlights : financial_highlights _ = []),
      (H Risks : risks _ = []), (H Opportunities : opportunities _ = []).
    reflexivity.
Qed.

Lemma fallback_only_without_findings_witness :
  key_findings (Repo.findings ascii_env findings_report empty_points)
  = [lit "Net income rose to $300M"]
  /\ insights (Repo.findings ascii_env unsectioned_report empty_points)
     = [lit "Margins improved by 3 points"].
Proof.
  destruct (fallback_only_without_findings ascii_env findings_report
              empty_points) as (H1 & _).
  destruct (fallback_only_without_findings ascii_env unsectioned_report
              empty_points) as (_ & H2 & _).
  split.
  - rewrite H1; [vm_compute; reflexivity|].
    exists KeyFindings. vm_compute. discriminate.
  - rewrite H2; [vm_compute; reflexivity|].
    intros []; vm_compute; reflexivity.
Defined.

(** C8, as the claim states it, fails: the repository keeps a finding that
    the report gives twice. *)
Lemma repo_list_keeps_duplicates :
  key_findings (points (Repo.extract_financial_data_points ascii_env
                          (PyStr repeated_finding_report)))
  = [lit "Net income rose to $300M"; lit "Net income rose to $300M"]
  /\ ~ NoDup (key_findings
                (points (Repo.extract_financial_data_points ascii_env
                           (PyStr repeated_finding_report)))).
Proof.
  assert (H : key_findings
                (points (Repo.extract_financial_data_points ascii_env
                           (PyStr repeated_finding_report)))
              = [lit "Net income rose to $300M";
                 lit "Net income rose to $300M"])
    by (vm_compute; reflexivity).
  split; [exact H|]. rewrite H. intros N. inversion N as [|? ? HN _].
  apply HN. left. reflexivity.
Qed.

(** C8, amended.  The five lists that the user service returns hold no entry
    twice, for every argument. *)
Theorem user_lists_have_no_duplicates (E : pyenv) (x : pyobj) (k : section) :
  NoDup (entries k (points (User.extract_financial_data_points E x))).
Proof.
  destruct x as [s|].
  - apply (user_points_NoDup E s k).
  - destruct k; constructor.
Qed.




(** C10.  In the line loop of the repository the second bullet branch is
    never taken: its guard implies the guard of the branch before it, no line
    takes it, and with no current section no line adds an entry to any
    list. *)
Theorem second_bullet_branch_is_dead (E : pyenv) (raw : str) :
  ((is_bullet_line bullet (strip raw) && (20 <? length (strip raw)))%bool
   = true ->
   (is_bullet_line bullet (strip raw) && (15 <? length (strip raw)))%bool
   = true)
  /\ (forall content, Repo.classify E raw <> Repo.AnyBullet content)
  /\ (forall d, snd (Repo.line_step E (None, d) raw) = d).
Proof.
  split; [apply bullet_guard_implies|].
  split; [intros content; apply classify_not_any_bullet|].
  intros d. apply line_step_outside.
Qed.

Lemma second_bullet_branch_is_dead_witness :
  (is_bullet_line bullet (strip (lit "- Revenue grew 15% this year"))
   && (15 <? length (strip (lit "- Revenue grew 15% this year"))))%bool = true
  /\ snd (Repo.line_step ascii_env (None, empty_points)
            (lit "- Revenue grew 15% this year")) = empty_points.
Proof.
  destruct (second_bullet_branch_is_dead ascii_env
              (lit "- Revenue grew 15% this year")) as (H1 & _ & H3).
  split; [apply H1; vm_compute; reflexivity|apply H3].
Defined.

(** ** Further properties *)

(** *** The words of a text *)

(** A word: not empty, no whitespace in it. *)
Definition is_word (w : str) : Prop :=
  w <> [] /\ Forall (fun c => isspace c = false) w.

Lemma split_ws_aux_words (s : str) :
  forall cur,
    Forall (fun c => isspace c = false) cur ->
    Forall is_word (split_ws_aux cur s).
Proof.
  assert (R : forall cur : str,
             cur <> [] -> Forall (fun c => isspace c = false) cur ->
             is_word (rev cur)).
  { intros cur N F. split.
    - intros H. apply N. rewrite <- (rev_involutive cur), H. reflexivity.
    - apply Forall_rev, F. }
  induction s as [|c s IH]; intros cur F; simpl.
  - destruct cur as [|x cur]; constructor; [|constructor].
    apply R; [discriminate|exact F].
  - destruct (isspace c) eqn:C.
    + destruct cur as [|x cur]; [apply IH; constructor|].
      constructor; [apply R; [discriminate|exact F]|apply IH; constructor].
    + apply IH. constructor; assumption.
Qed.

Lemma split_ws_words (s : str) : Forall is_word (split_ws s).
Proof. apply split_ws_aux_words. constructor. Qed.

Lemma join_space_no_newline (ws : list str) :
  Forall is_word ws -> ~ In newline (join space ws).
Proof.
  induction 1 as [|w ws [_ Hw] Hws IH]; simpl; [tauto|].
  assert (Nw : ~ In newline w).
  { intros H. rewrite Forall_forall in Hw. apply Hw in H. discriminate. }
  destruct ws as [|w' ws]; [exact Nw|].
  rewrite in_app_iff. intros [H|H]; [exact (Nw H)|].
  change (space ++ join space (w' :: ws))
    with (32%N :: join space (w' :: ws)) in H.
  destruct H as [H|H]; [discriminate|exact (IH H)].
Qed.

Lemma split_on_absent (sep : char) (s : str) :
  ~ In sep s -> split_on sep s = [s].
Proof.
  induction s as [|c s IH]; simpl; [reflexivity|].
  intros H. destruct (N.eqb_spec c sep) as [->|N]; [tauto|].
  rewrite IH by tauto. reflexivity.
Qed.

Lemma Forall_firstn_keep {A : Type} (P : A -> Prop) (n : nat) (l : list A) :
  Forall P l -> Forall P (firstn n l).
Proof.
  rewrite !Forall_forall. intros H x Hx. apply H.
  rewrite <- (firstn_skipn n l). apply in_or_app. left. exact Hx.
Qed.

Lemma capped_text_no_newline (s : str) :
  200 < length (split_ws s) -> ~ In newline (enforce_word_limit s).
Proof.
  intros L. unfold enforce_word_limit. apply Nat.ltb_lt in L. rewrite L.
  rewrite in_app_iff. intros [H|H].
  - revert H. apply join_space_no_newline.
    apply Forall_firstn_keep, split_ws_words.
  - vm_compute in H. intuition discriminate.
Qed.

Lemma capped_text_one_line (s : str) :
  200 < length (split_ws s) ->
  split_on newline (enforce_word_limit s) = [enforce_word_limit s].
Proof. intros L. apply split_on_absent, capped_text_no_newline, L. Qed.

(** *** Lists only grow *)

(** [d'] has the entries of [d], in the same order, then at most [bound k]
    more in category [k]. *)
Definition grows (bound : section -> nat) (d d' : data_points) : Prop :=
  forall k, exists more,
    entries k d' = entries k d ++ more /\ length more <= bound k.

Definition none_more (k : section) : nat := 0.

(** Room for [n] entries in category [k0], for none elsewhere. *)
Definition only (k0 : section) (n : nat) (k : section) : nat :=
  if section_eqb k0 k then n else 0.

Definition sum_bounds (f g : section -> nat) (k : section) : nat := f k + g k.

Lemma grows_refl (d : data_points) : grows none_more d d.
Proof. intros k. exists []. rewrite app_nil_r. split; [reflexivity|simpl; lia]. Qed.

Lemma grows_weaken (f g : section -> nat) (d d' : data_points) :
  (forall k, f k <= g k) -> grows f d d' -> grows g d d'.
Proof.
  intros H G k. destruct (G k) as (more & E1 & L). exists more.
  split; [exact E1|]. specialize (H k). lia.
Qed.

Lemma grows_trans (f g : section -> nat) (d1 d2 d3 : data_points) :
  grows f d1 d2 -> grows g d2 d3 -> grows (sum_bounds f g) d1 d3.
Proof.
  intros G1 G2 k. destruct (G1 k) as (m1 & E1 & L1).
  destruct (G2 k) as (m2 & E2 & L2). exists (m1 ++ m2).
  rewrite E2, E1, app_assoc, length_app. unfold sum_bounds.
  split; [reflexivity|lia].
Qed.

Lemma grows_append (k : section) (x : str) (d : data_points) :
  grows (only k 1) d (append k x d).
Proof.
  intros k'. rewrite entries_append. unfold only.
  destruct (section_eqb k k') eqn:K.
  - apply section_eqb_eq in K as <-. exists [x]. split; [reflexivity|simpl; lia].
  - exists []. rewrite app_nil_r. split; [reflexivity|simpl; lia].
Qed.

Lemma grows_same (k : section) (d : data_points) : grows (only k 1) d d.
Proof. apply (grows_weaken none_more); [intros; unfold none_more; lia|]. apply grows_refl. Qed.

(** Entries are kept, whatever the number of new ones. *)
Definition extends (d d' : data_points) : Prop :=
  forall k, exists more, entries k d' = entries k d ++ more.

Lemma grows_extends (f : section -> nat) (d d' : data_points) :
  grows f d d' -> extends d d'.
Proof. intros G k. destruct (G k) as (more & E1 & _). exists more. exact E1. Qed.

Lemma extends_refl (d : data_points) : extends d d.
Proof. exact (grows_extends _ _ _ (grows_refl d)). Qed.

Lemma extends_trans (d1 d2 d3 : data_points) :
  extends d1 d2 -> extends d2 d3 -> extends d1 d3.
Proof.
  intros G1 G2 k. destruct (G1 k) as (m1 & E1). destruct (G2 k) as (m2 & E2).
  exists (m1 ++ m2). rewrite E2, E1, app_assoc. reflexivity.
Qed.

Lemma extends_append (k : section) (x : str) (d : data_points) :
  extends d (append k x d).
Proof. exact (grows_extends _ _ _ (grows_append k x d)). Qed.

Lemma extends_set_metrics (m : dict) (d : data_points) :
  extends d (set_metrics m d).
Proof. intros k. exists []. rewrite entries_set_metrics, app_nil_r. reflexivity. Qed.

Lemma fold_left_extends {B : Type} (f : data_points -> B -> data_points)
  (l : list B) :
  (forall d b, extends d (f d b)) -> forall d, extends d (fold_left f l d).
Proof.
  intros H. induction l as [|b l IH]; simpl; intros d; [apply extends_refl|].
  exact (extends_trans _ _ _ (H d b) (IH _)).
Qed.

Section RepoGrowth.
Variable E : pyenv.

Lemma repo_store_bullet_grows cs content d :
  forall k, cs = Some k -> grows (only k 1) d (Repo.store_bullet cs content d).
Proof.
  intros k ->. rewrite store_bullet_in.
  destruct (_ <? 5); [apply grows_append|apply grows_same].
Qed.

Lemma repo_line_step_extends st raw :
  extends (snd st) (snd (Repo.line_step E st raw)).
Proof.
  destruct st as [cs d]. unfold Repo.line_step.
  destruct (Repo.classify E raw) eqn:C; simpl; try apply extends_refl.
  - destruct (10 <? length content); simpl; [|apply extends_refl].
    destruct cs as [k|]; [|apply extends_refl].
    exact (grows_extends _ _ _ (repo_store_bullet_grows _ content d k eq_refl)).
  - exfalso. exact (classify_not_any_bullet E raw _ C).
Qed.

Lemma repo_section_pass_extends text d :
  extends d (Repo.section_pass E text d).
Proof.
  unfold Repo.section_pass.
  assert (H : forall lines st,
             extends (snd st) (snd (fold_left (Repo.line_step E) lines st))).
  { induction lines as [|l lines IH]; simpl; intros st; [apply extends_refl|].
    exact (extends_trans _ _ _ (repo_line_step_extends st l) (IH _)). }
  exact (H _ (None, d)).
Qed.

Lemma repo_fallback_line_grows k d raw :
  grows (only k 1) d (Repo.fallback_line k d raw).
Proof.
  unfold Repo.fallback_line. cbv zeta.
  split_ifs; first [apply grows_append|apply grows_same].
Qed.

Lemma repo_fallback_header_extends text k d h :
  extends d (Repo.fallback_header E text k d h).
Proof.
  unfold Repo.fallback_header.
  destruct (contains _ _); [|apply extends_refl].
  destruct (find _ _); [|apply extends_refl].
  apply fold_left_extends. intros d' raw.
  exact (grows_extends _ _ _ (repo_fallback_line_grows k d' raw)).
Qed.

Lemma repo_fallback_extends text d :
  extends d (Repo._extract_insights_fallback E text d).
Proof.
  unfold Repo._extract_insights_fallback. revert d.
  apply fold_left_extends. intros d [k hs]. simpl. revert d.
  apply fold_left_extends. intros d h. apply repo_fallback_header_extends.
Qed.

Lemma repo_findings_extends text d : extends d (Repo.findings E text d).
Proof.
  unfold Repo.findings. cbv zeta. destruct (negb _).
  - exact (extends_trans _ _ _ (repo_section_pass_extends text d)
             (repo_fallback_extends text _)).
  - apply repo_section_pass_extends.
Qed.
End RepoGrowth.

(** *** Reports of more than 200 words *)

Lemma In_skipn_keep {A : Type} (n : nat) (l : list A) (x : A) :
  In x (skipn n l) -> In x l.
Proof.
  intros H. rewrite <- (firstn_skipn n l). apply in_or_app. right. exact H.
Qed.

(** The entries that the fallback pass can add to a text of one line: one for
    each header of the category. *)
Definition fallback_room (k : section) : nat :=
  match k with
  | Opportunities => 1
  | _ => 2
  end.

Section RepoLongReports.
Variable E : pyenv.

Lemma repo_section_pass_one_line (text : str) (d : data_points) :
  ~ In newline text -> Repo.section_pass E text d = d.
Proof.
  intros H. unfold Repo.section_pass. rewrite (split_on_absent _ _ H).
  simpl. apply line_step_outside.
Qed.

Lemma repo_fallback_header_one_line text k d h :
  ~ In newline text ->
  grows (only k 1) d (Repo.fallback_header E text k d h).
Proof.
  intros H. unfold Repo.fallback_header.
  destruct (contains _ _); [|apply grows_same].
  destruct (find _ _); [|apply grows_same].
  rewrite split_on_absent.
  - simpl. apply repo_fallback_line_grows.
  - intros H'. apply In_firstn, In_skipn_keep in H'. exact (H H').
Qed.

Lemma repo_fallback_one_line text d :
  ~ In newline text ->
  grows fallback_room d (Repo._extract_insights_fallback E text d).
Proof.
  intros H. unfold Repo._extract_insights_fallback, Repo.fallback_sections.
  cbn [fold_left fst snd].
  pose proof (fun k d h => repo_fallback_header_one_line text k d h H) as G.
  eapply grows_weaken;
    [|repeat (eapply grows_trans; [|apply G]); apply grows_refl].
  intros []; vm_compute; lia.
Qed.

Lemma repo_long_report (s : str) :
  200 < length (split_ws s) ->
  Repo.extract_points E s =
    Repo._extract_insights_fallback E (Repo.scanned_text s)
      (set_metrics
         (extract_metrics E Repo.financial_patterns (Repo.scanned_text s) [])
         empty_points).
Proof.
  intros L. unfold Repo.extract_points, Repo.findings. cbv zeta.
  rewrite repo_section_pass_one_line
    by exact (capped_text_no_newline s L).
  reflexivity.
Qed.
End RepoLongReports.

Lemma join_space_length (ws : list str) :
  Forall is_word ws -> length ws <= length (join space ws).
Proof.
  induction 1 as [|w ws [Hw _] Hws IH]; simpl; [lia|].
  assert (1 <= length w) by (destruct w; [congruence|simpl; lia]).
  destruct ws as [|w' ws]; [simpl; lia|].
  rewrite !length_app. simpl length in *. lia.
Qed.

Lemma join_space_head (ws : list str) :
  Forall is_word ws -> ws <> [] ->
  exists c rest, join space ws = c :: rest /\ isspace c = false.
Proof.
  intros H N. destruct H as [|w ws [Hw Fw] Hws]; [congruence|].
  destruct w as [|c w]; [congruence|]. inversion Fw; subst.
  destruct ws as [|w' ws]; simpl; eauto.
Qed.

Lemma lstrip_word_start (c : char) (s : str) :
  isspace c = false -> lstrip (c :: s) = c :: s.
Proof. intros H. simpl. rewrite H. reflexivity. Qed.

(** The capped text of a long report: no blank at either end, at least 200
    characters. *)
Lemma capped_text_shape (s : str) :
  200 < length (split_ws s) ->
  strip (enforce_word_limit s) = enforce_word_limit s
  /\ 200 <= length (enforce_word_limit s).
Proof.
  intros L. pose proof (split_ws_words s) as W.
  unfold enforce_word_limit.
  pose proof L as L'. apply Nat.ltb_lt in L'. rewrite L'.
  set (ws := firstn 200 (split_ws s)).
  assert (Fw : Forall is_word ws) by (apply Forall_firstn_keep, W).
  assert (Lw : length ws = 200) by (subst ws; rewrite length_firstn; lia).
  split.
  - destruct (join_space_head ws Fw) as (c & rest & J & C).
    { intros H. rewrite H in Lw. discriminate. }
    unfold strip. rewrite J. simpl app. rewrite (lstrip_word_start _ _ C).
    unfold rstrip.
    change (c :: rest ++ truncation_marker)
      with ((c :: rest) ++ truncation_marker).
    rewrite rev_app_distr.
    change (rev truncation_marker)
      with (93%N :: tl (rev truncation_marker)).
    rewrite <- app_comm_cons, lstrip_word_start by reflexivity.
    rewrite app_comm_cons.
    change (93%N :: tl (rev truncation_marker)) with (rev truncation_marker).
    rewrite <- rev_app_distr. apply rev_involutive.
  - rewrite length_app. pose proof (join_space_length ws Fw). lia.
Qed.

Lemma list_of_set_length (E : pyenv) (l : list str) :
  length (list_of_set E l) <= length l.
Proof.
  apply NoDup_incl_length; [apply list_of_set_NoDup|].
  intros x. apply list_of_set_In.
Qed.

Section UserLongReports.
Variable E : pyenv.

Lemma user_insight_step_long d line :
  strip line = line -> 200 <= length line ->
  grows (only Insights 1) d (User.insight_step E d line).
Proof.
  intros S L. unfold User.insight_step. rewrite S. cbv zeta.
  assert (H200 : (length line <? 200) = false) by (apply Nat.ltb_ge; lia).
  rewrite H200, andb_false_r, andb_false_l.
  split_ifs; first [apply grows_append|apply grows_same].
Qed.

Lemma user_highlight_step_long d line :
  strip line = line -> 200 <= length line ->
  User.highlight_step E d line = d.
Proof.
  intros S L. unfold User.highlight_step. rewrite S. cbv zeta.
  assert (H200 : (length line <? 200) = false) by (apply Nat.ltb_ge; lia).
  rewrite H200, andb_false_r, !andb_false_l. reflexivity.
Qed.

Lemma user_risk_step_long d line :
  strip line = line -> 200 <= length line -> User.risk_step E d line = d.
Proof.
  intros S L. unfold User.risk_step. rewrite S. cbv zeta.
  assert (H200 : (length line <? 200) = false) by (apply Nat.ltb_ge; lia).
  rewrite H200, andb_false_r. reflexivity.
Qed.

Lemma user_advanced_highlight_step_long d line :
  strip line = line -> 200 <= length line ->
  User.advanced_highlight_step E d line = d.
Proof.
  intros S L. unfold User.advanced_highlight_step. rewrite S. cbv zeta.
  assert (H200 : (length line <? 200) = false) by (apply Nat.ltb_ge; lia).
  rewrite H200, andb_false_r. reflexivity.
Qed.

Lemma user_advanced_insight_step_long d line :
  strip line = line -> 200 <= length line ->
  User.advanced_insight_step E d line = d.
Proof.
  intros S L. unfold User.advanced_insight_step. rewrite S. cbv zeta.
  assert (H200 : (length line <? 200) = false) by (apply Nat.ltb_ge; lia).
  rewrite H200, andb_false_r. reflexivity.
Qed.

Lemma grows_set_metrics (f : section -> nat) m d d' :
  grows f d d' -> grows f d (set_metrics m d').
Proof. intros G k. rewrite entries_set_metrics. apply G. Qed.

Lemma user_collect_long (s : str) :
  200 < length (split_ws s) ->
  grows (only Insights 1) empty_points (User.collect E s).
Proof.
  intros L. destruct (capped_text_shape s L) as [S L200].
  unfold User.collect, User.scanned_text. cbv zeta.
  rewrite (capped_text_one_line s L). cbn [fold_left].
  rewrite user_highlight_step_long, user_risk_step_long by assumption.
  set (d0 := set_metrics _ empty_points).
  assert (G : grows (only Insights 1) empty_points
                (User.insight_step E d0 (enforce_word_limit s))).
  { intros k. destruct (user_insight_step_long d0 _ S L200 k) as (m & Em & Lm).
    exists m. split; [|exact Lm]. rewrite Em. subst d0.
    rewrite entries_set_metrics. reflexivity. }
  destruct (length _ <? 5); [|exact G].
  unfold User._advanced_financial_extraction. cbv zeta.
  rewrite (capped_text_one_line s L). cbn [fold_left].
  rewrite user_advanced_highlight_step_long,
    user_advanced_insight_step_long by assumption.
  apply grows_set_metrics, G.
Qed.

Lemma user_long_report (s : str) (k : section) :
  200 < length (split_ws s) ->
  length (entries k (User.extract_points E s)) <= only Insights 1 k.
Proof.
  intros L. unfold User.extract_points. rewrite entries_deduplicate.
  destruct (user_collect_long s L k) as (more & Em & Lm).
  destruct k; cbn [entries empty_points insights key_findings
                     financial_highlights risks opportunities app] in Em |- *;
    rewrite Em; unfold only in *; cbn [section_eqb] in *.
  all: pose proof (firstn_length_le 5 (list_of_set E more)).
  all: pose proof (list_of_set_length E more).
  all: rewrite length_firstn; lia.
Qed.
End UserLongReports.

(** *** Bullets of a section, in order *)

(** What the line loop stores for a bullet line. *)
Definition bullet_content (line : str) : str :=
  firstn 150 (strip (skipn 1 (strip line))).

(** A line that the line loop stores while a section is current. *)
Definition storable (E : pyenv) (line : str) : Prop :=
  (forall k, contains (header_text k) (lower E (strip line)) = false)
  /\ is_bullet_line bullet (strip line) = true
  /\ 15 < length (strip line)
  /\ 10 < length (strip (skipn 1 (strip line))).

Lemma firstn_full {A : Type} (n : nat) (l r : list A) :
  length l = n -> firstn n (l ++ r) = l.
Proof.
  intros <-. rewrite firstn_app, Nat.sub_diag, firstn_all. simpl.
  apply app_nil_r.
Qed.

Lemma bullets_stored_in_order (E : pyenv) (k : section) (lines : list str) :
  Forall (storable E) lines ->
  forall d, length (entries k d) <= 5 ->
    fst (fold_left (Repo.line_step E) lines (Some k, d)) = Some k
    /\ entries k (snd (fold_left (Repo.line_step E) lines (Some k, d)))
       = firstn 5 (entries k d ++ map bullet_content lines)
    /\ (forall k', k' <> k ->
          entries k' (snd (fold_left (Repo.line_step E) lines (Some k, d)))
          = entries k' d).
Proof.
  induction 1 as [|line lines (H & B & L15 & L10) _ IH]; intros d L.
  - cbn [fold_left map fst snd]. rewrite app_nil_r, firstn_all2 by exact L. auto.
  - cbn [fold_left map].
    rewrite (bullet_line_stored E k d line H B L15). cbv zeta.
    apply Nat.ltb_lt in L10. rewrite L10. cbn [andb].
    destruct (length (entries k d) <? 5) eqn:C.
    + apply Nat.ltb_lt in C.
      assert (L' : length (entries k (append k (bullet_content line) d)) <= 5).
      { rewrite entries_append.
        replace (section_eqb k k) with true by (destruct k; reflexivity).
        rewrite length_app. simpl. lia. }
      destruct (IH _ L') as (F & Ek & Eo). split; [exact F|]. split.
      * unfold bullet_content in *. rewrite Ek, entries_append.
        replace (section_eqb k k) with true by (destruct k; reflexivity).
        rewrite <- app_assoc. reflexivity.
      * intros k' N. unfold bullet_content in *. rewrite (Eo k' N), entries_append.
        destruct (section_eqb k k') eqn:K; [|reflexivity].
        apply section_eqb_eq in K. congruence.
    + apply Nat.ltb_ge in C. assert (L5 : length (entries k d) = 5) by lia.
      destruct (IH _ L) as (F & Ek & Eo). split; [exact F|]. split.
      * rewrite Ek, !firstn_full by exact L5. reflexivity.
      * exact Eo.
Qed.

(** *** The names of the metrics *)

Definition keys (d : dict) : list string := map fst d.

Lemma dict_set_keys (k : string) (v : str) (d : dict) :
  incl (keys (dict_set k v d)) (k :: keys d).
Proof.
  induction d as [|[k0 v0] d IH]; simpl; intros x Hx.
  - exact Hx.
  - destruct (String.eqb_spec k k0) as [->|N]; simpl in Hx.
    + destruct Hx as [<-|Hx]; [left; reflexivity|right; right; exact Hx].
    + destruct Hx as [<-|Hx]; [right; left; reflexivity|].
      apply IH in Hx as [<-|Hx]; [left; reflexivity|right; right; exact Hx].
Qed.

Lemma dict_set_keys_NoDup (k : string) (v : str) (d : dict) :
  NoDup (keys d) -> NoDup (keys (dict_set k v d)).
Proof.
  induction d as [|[k0 v0] d IH]; simpl; intros H.
  - constructor; [intros []|constructor].
  - inversion H as [|? ? N ND]; subst.
    destruct (String.eqb_spec k k0) as [->|Nk]; simpl.
    + constructor; assumption.
    + constructor; [|apply IH, ND].
      intros Hin. apply dict_set_keys in Hin as [->|Hin]; [congruence|].
      exact (N Hin).
Qed.

(** The names are among [names], each at most once. *)
Definition named (names : list string) (d : dict) : Prop :=
  incl (keys d) names /\ NoDup (keys d).

Lemma named_nil (names : list string) : named names [].
Proof. split; [intros x []|constructor]. Qed.

Lemma named_set (names : list string) (k : string) (v : str) (d : dict) :
  In k names -> named names d -> named names (dict_set k v d).
Proof.
  intros Hk [I N]. split; [|apply dict_set_keys_NoDup, N].
  intros x Hx. apply dict_set_keys in Hx as [<-|Hx]; [exact Hk|exact (I x Hx)].
Qed.

Lemma named_extract_metrics (E : pyenv) (names : list string)
  (table : list (string * list regex)) (text : str) (m : dict) :
  incl (map fst table) names -> named names m ->
  named names (extract_metrics E table text m).
Proof.
  intros I. unfold extract_metrics. revert m.
  apply fold_left_invariant_In. intros m [k ps] Hin Hm. simpl.
  destruct (first_match E ps text); [|exact Hm].
  apply named_set; [|exact Hm]. apply I.
  change k with (fst (k, ps)). apply in_map, Hin.
Qed.

Definition repo_metric_names : list string :=
  ["revenue"; "operating_income"; "net_income"; "cash"]%string.

Definition user_metric_names : list string :=
  ["revenue"; "operating_income"; "net_income"; "cash"; "free_cash_flow";
   "operating_margin"; "net_margin"; "revenue_change"; "income_change";
   "growth_rate"; "debt"; "gross_margin"]%string.

Ltac in_names := vm_compute; tauto.

Section MetricNames.
Variable E : pyenv.

Lemma repo_metrics_named (s : str) :
  named repo_metric_names (metrics (Repo.extract_points E s)).
Proof.
  rewrite repo_metrics. apply named_extract_metrics; [|apply named_nil].
  intros x Hx. exact Hx.
Qed.

Lemma named_set_if_absent names key value m :
  In key names -> named names m ->
  named names (User.set_if_absent key value m).
Proof.
  intros Hk Hm. unfold User.set_if_absent.
  destruct (negb _); [apply named_set; assumption|exact Hm].
Qed.

Lemma named_monetary_step text m found :
  named user_metric_names m ->
  named user_metric_names (User.monetary_step E text m found).
Proof.
  intros Hm. unfold User.monetary_step. cbv zeta.
  split_ifs; try exact Hm; apply named_set_if_absent; try exact Hm; in_names.
Qed.

Lemma named_percentage_step text m found :
  named user_metric_names m ->
  named user_metric_names (User.percentage_step E text m found).
Proof.
  intros Hm. unfold User.percentage_step. cbv zeta.
  split_ifs; try exact Hm; apply named_set_if_absent; try exact Hm; in_names.
Qed.

Lemma named_scan (step : str -> dict -> rmatch -> dict) patterns text m :
  (forall m found,
      named user_metric_names m -> named user_metric_names (step text m found)) ->
  named user_metric_names m ->
  named user_metric_names (User.scan E step patterns text m).
Proof.
  intros Hstep. unfold User.scan. revert m.
  apply fold_left_invariant. intros a p. revert a.
  apply fold_left_invariant. intros a found. apply Hstep.
Qed.

Lemma user_metrics_named (s : str) :
  named user_metric_names (metrics (User.extract_points E s)).
Proof.
  rewrite user_metrics. cbv zeta.
  assert (H : named user_metric_names
                (pattern_metrics E (enforce_word_limit s))).
  { unfold pattern_metrics.
    apply named_extract_metrics; [intros x Hx; revert Hx; in_names|].
    apply named_extract_metrics; [intros x Hx; revert Hx; in_names|].
    apply named_nil. }
  destruct (length _ <? 5); [|exact H].
  unfold advanced_metrics.
  apply named_scan; [apply named_percentage_step|].
  apply named_scan; [apply named_monetary_step|exact H].
Qed.
End MetricNames.

(** *** The advanced extraction of the user service *)

(** [d'] keeps key findings, risks and opportunities as they are and the
    entries of the other two lists in front. *)
Definition advanced_keeps (d d' : data_points) : Prop :=
  key_findings d' = key_findings d
  /\ risks d' = risks d
  /\ opportunities d' = opportunities d
  /\ (exists more, insights d' = insights d ++ more)
  /\ (exists more, financial_highlights d' = financial_highlights d ++ more).

Lemma advanced_keeps_refl d : advanced_keeps d d.
Proof.
  repeat split; try reflexivity; exists []; rewrite app_nil_r; reflexivity.
Qed.

Lemma advanced_keeps_trans d1 d2 d3 :
  advanced_keeps d1 d2 -> advanced_keeps d2 d3 -> advanced_keeps d1 d3.
Proof.
  intros (K1 & R1 & O1 & (i1 & I1) & (h1 & H1))
         (K2 & R2 & O2 & (i2 & I2) & (h2 & H2)).
  repeat split; try congruence.
  - exists (i1 ++ i2). rewrite I2, I1, app_assoc. reflexivity.
  - exists (h1 ++ h2). rewrite H2, H1, app_assoc. reflexivity.
Qed.

Lemma advanced_keeps_insight x d : advanced_keeps d (append Insights x d).
Proof.
  repeat split; try reflexivity; [exists [x]|exists []; rewrite app_nil_r];
    reflexivity.
Qed.

Lemma advanced_keeps_highlight x d :
  advanced_keeps d (append FinancialHighlights x d).
Proof.
  repeat split; try reflexivity; [exists []; rewrite app_nil_r|exists [x]];
    reflexivity.
Qed.

Lemma advanced_keeps_set_metrics m d : advanced_keeps d (set_metrics m d).
Proof.
  repeat split; try reflexivity; exists []; rewrite app_nil_r; reflexivity.
Qed.

Lemma fold_left_advanced_keeps (f : data_points -> str -> data_points)
  (l : list str) :
  (forall d b, advanced_keeps d (f d b)) ->
  forall d, advanced_keeps d (fold_left f l d).
Proof.
  intros H. induction l as [|b l IH]; simpl; intros d;
    [apply advanced_keeps_refl|].
  exact (advanced_keeps_trans _ _ _ (H d b) (IH _)).
Qed.

Section Advanced.
Variable E : pyenv.

Lemma advanced_extraction_keeps (text : str) (d : data_points) :
  advanced_keeps d (User._advanced_financial_extraction E text d)
  /\ (forall k v, dict_get k (metrics d) = Some v ->
        dict_get k (metrics (User._advanced_financial_extraction E text d))
        = Some v).
Proof.
  unfold User._advanced_financial_extraction. cbv zeta. split.
  - eapply advanced_keeps_trans; [apply advanced_keeps_set_metrics|].
    eapply advanced_keeps_trans; apply fold_left_advanced_keeps; intros d' raw.
    + unfold User.advanced_highlight_step. cbv zeta.
      split_ifs; first [apply advanced_keeps_highlight|apply advanced_keeps_refl].
    + unfold User.advanced_insight_step. cbv zeta.
      split_ifs; first [apply advanced_keeps_insight|apply advanced_keeps_refl].
  - intros k v H.
    rewrite !fold_keeps_metrics
      by auto using user_advanced_highlight_step_metrics,
           user_advanced_insight_step_metrics.
    change (metrics (set_metrics ?m _)) with m.
    apply scan_keeps; [intros; apply percentage_step_keeps; assumption|].
    apply scan_keeps; [intros; apply monetary_step_keeps; assumption|exact H].
Qed.
End Advanced.

(** *** The three short lists of the user service *)

(** At most three key findings, risks and opportunities. *)
Definition short_lists (d : data_points) : Prop :=
  length (key_findings d) <= 3 /\ length (risks d) <= 3
  /\ length (opportunities d) <= 3.

Lemma short_lists_append (k : section) (x : str) (d : data_points) :
  match k with
  | Insights | FinancialHighlights => True
  | _ => length (entries k d) < 3
  end ->
  short_lists d -> short_lists (append k x d).
Proof.
  intros G (K & R & O). destruct k; unfold short_lists; simpl in *;
    rewrite ?length_app; simpl; repeat split; lia.
Qed.

Section ShortLists.
Variable E : pyenv.

Ltac short_step H :=
  cbv zeta;
  repeat match goal with
         | |- context [if ?c then _ else _] =>
             let C := fresh "C" in destruct c eqn:C
         end;
  try exact H;
  repeat (apply short_lists_append;
          [first [exact I
                 |repeat match goal with
                         | C : (_ && _)%bool = true |- _ =>
                             apply andb_true_iff in C; destruct C
                         end;
                  repeat match goal with
                         | C : (_ <? _) = true |- _ => apply Nat.ltb_lt in C
                         end;
                  simpl in *; unfold User.max_findings, User.max_risks,
                    User.max_opportunities in *; lia]|]);
  exact H.

Lemma user_insight_step_short d raw :
  short_lists d -> short_lists (User.insight_step E d raw).
Proof. intros H. unfold User.insight_step. short_step H. Qed.

Lemma user_highlight_step_short d raw :
  short_lists d -> short_lists (User.highlight_step E d raw).
Proof. intros H. unfold User.highlight_step. short_step H. Qed.

Lemma user_risk_step_short d raw :
  short_lists d -> short_lists (User.risk_step E d raw).
Proof. intros H. unfold User.risk_step. short_step H. Qed.

Lemma user_collect_short (s : str) : short_lists (User.collect E s).
Proof.
  unfold User.collect. cbv zeta.
  set (D := fold_left (User.risk_step E) _ _).
  assert (H : short_lists D).
  { subst D.
    apply fold_left_invariant; [intros; apply user_risk_step_short; assumption|].
    apply fold_left_invariant;
      [intros; apply user_highlight_step_short; assumption|].
    apply fold_left_invariant;
      [intros; apply user_insight_step_short; assumption|].
    unfold short_lists. simpl. lia. }
  destruct (length _ <? 5); [|exact H].
  destruct (advanced_extraction_keeps E (User.scanned_text s) D)
    as ((K & R & O & _) & _).
  unfold short_lists. rewrite K, R, O. exact H.
Qed.

Lemma user_points_short (s : str) : short_lists (User.extract_points E s).
Proof.
  destruct (user_collect_short s) as (K & R & O).
  unfold User.extract_points, short_lists.
  change (key_findings (User.deduplicate E (User.collect E s)))
    with (entries KeyFindings (User.deduplicate E (User.collect E s))).
  change (risks (User.deduplicate E (User.collect E s)))
    with (entries Risks (User.deduplicate E (User.collect E s))).
  change (opportunities (User.deduplicate E (User.collect E s)))
    with (entries Opportunities (User.deduplicate E (User.collect E s))).
  rewrite !entries_deduplicate, !length_firstn. cbn [entries].
  pose proof (list_of_set_length E (key_findings (User.collect E s))).
  pose proof (list_of_set_length E (risks (User.collect E s))).
  pose proof (list_of_set_length E (opportunities (User.collect E s))).
  lia.
Qed.
End ShortLists.

(** *** Stored analyses *)

Lemma str_eqb_eq (a b : str) : str_eqb a b = true <-> a = b.
Proof.
  revert b. induction a as [|x a IH]; intros [|y b]; simpl;
    try (split; [discriminate|discriminate]); [tauto|].
  rewrite andb_true_iff, N.eqb_eq, IH. split.
  - intros [-> ->]. reflexivity.
  - intros H. inversion H. auto.
Qed.

Lemma str_eqb_refl (a : str) : str_eqb a a = true.
Proof. apply str_eqb_eq. reflexivity. Qed.

Lemma find_app {A : Type} (f : A -> bool) (l m : list A) :
  List.find f (l ++ m)
  = match List.find f l with
    | Some x => Some x
    | None => List.find f m
    end.
Proof.
  induction l as [|y l IH]; simpl; [reflexivity|].
  destruct (f y); [reflexivity|exact IH].
Qed.

(** The sum that [get_user_completed_analysis_count] makes. *)
Definition total_ids (docs : list Store.document_doc) : nat :=
  fold_left (fun total doc => total + length (Store.d_analysis_ids doc)) docs 0.

Lemma fold_total_from (docs : list Store.document_doc) (n : nat) :
  fold_left (fun total doc => total + length (Store.d_analysis_ids doc)) docs n
  = n + total_ids docs.
Proof.
  unfold total_ids. revert n. induction docs as [|d docs IH]; simpl; intros n.
  - lia.
  - rewrite IH, (IH (length _)). lia.
Qed.

Lemma total_ids_cons (d : Store.document_doc) (docs : list Store.document_doc) :
  total_ids (d :: docs) = length (Store.d_analysis_ids d) + total_ids docs.
Proof. unfold total_ids at 1. simpl. apply fold_total_from. Qed.

(** Whether a document counts for the user: owned and completed. *)
Definition completed_for (usr : Store.oid) (d : Store.document_doc) : bool :=
  (N.eqb (Store.d_user_id d) usr
   && str_eqb (Store.d_status d) (lit "completed"))%bool.

Lemma push_counts (usr document_id new : Store.oid) (now : Store.time)
  (docs : list Store.document_doc) :
  total_ids (filter (completed_for usr)
               (Store.push_analysis_id document_id new now docs))
  = total_ids (filter (completed_for usr) docs)
    + match List.find (fun d => N.eqb (Store.d_id d) document_id) docs with
      | Some d => if completed_for usr d then 1 else 0
      | None => 0
      end.
Proof.
  induction docs as [|d docs IH]; [reflexivity|].
  cbn [Store.push_analysis_id List.find].
  destruct (N.eqb (Store.d_id d) document_id) eqn:I.
  - match goal with
    | |- context [filter _ (?x :: docs)] => set (d' := x)
    end.
    assert (Hc : completed_for usr d' = completed_for usr d) by reflexivity.
    cbn [filter]. rewrite Hc.
    destruct (completed_for usr d); [|lia].
    rewrite !total_ids_cons. subst d'. cbn [Store.d_analysis_ids].
    rewrite length_app. simpl. lia.
  - cbn [filter]. destruct (completed_for usr d).
    + rewrite !total_ids_cons, IH. lia.
    + exact IH.
Qed.

(** Storing keeps what the filter of [create_analysis_result] looks at. *)
Lemma same_request_as_stored doc usr query a :
  Store.same_request doc usr query (Store.as_stored a)
  = Store.same_request doc usr query a.
Proof. reflexivity. Qed.

Section StoreProperties.
Variable E : pyenv.
Variable ObjectId : str -> option Store.oid.
Variable oid_str : Store.oid -> str.

(** A call changes [analysis_results] at its end only. *)
Lemma create_appends inserted_id created_now updated_now st document_id
  user_id analysis_type query summary_text confidence_score
  data_quality_score processing_time_sec :
  exists more,
    Store.analysis_results
      (fst (Store.create_analysis_result E ObjectId inserted_id created_now
              updated_now st document_id user_id analysis_type query
              summary_text confidence_score data_quality_score
              processing_time_sec))
    = Store.analysis_results st ++ more.
Proof.
  unfold Store.create_analysis_result.
  destruct (ObjectId document_id) as [doc|];
    [|exists []; rewrite app_nil_r; reflexivity].
  destruct (ObjectId user_id) as [usr|];
    [|exists []; rewrite app_nil_r; reflexivity].
  destruct (negb (Store.utf8_encodable query));
    [exists []; rewrite app_nil_r; reflexivity|].
  destruct (List.find _ _);
    [exists []; rewrite app_nil_r; reflexivity|].
  destruct (negb (Store.utf8_encodable summary_text));
    [exists []; rewrite app_nil_r; reflexivity|].
  cbv zeta.
  destruct (negb (Store.utf8_encodable analysis_type));
    [exists []; rewrite app_nil_r; reflexivity|].
  destruct (negb (Store.fits_int64 processing_time_sec));
    [exists []; rewrite app_nil_r; reflexivity|].
  eexists. reflexivity.
Qed.

(** What a call that returns has found or stored. *)
Lemma create_returns inserted_id created_now updated_now st document_id
  user_id analysis_type query summary_text confidence_score
  data_quality_score processing_time_sec st' a doc usr :
  ObjectId document_id = Some doc -> ObjectId user_id = Some usr ->
  Store.create_analysis_result E ObjectId inserted_id created_now updated_now
    st document_id user_id analysis_type query summary_text
    confidence_score data_quality_score processing_time_sec
  = (st', Store.Done a) ->
  Store.utf8_encodable query = true
  /\ Store.same_request doc usr query a = true
  /\ match List.find (Store.same_request doc usr query)
             (Store.analysis_results st) with
     | Some existing => st' = st /\ a = existing
     | None =>
         Store.analysis_results st'
         = Store.analysis_results st ++ [Store.as_stored a]
         /\ Store.a_created_at a = created_now
     end.
Proof.
  intros D U. unfold Store.create_analysis_result. rewrite D, U.
  destruct (Store.utf8_encodable query); [|discriminate]. cbn [negb].
  destruct (List.find _ _) as [existing|] eqn:F.
  - intros H. inversion H; subst. split; [reflexivity|].
    split; [|auto]. exact (proj2 (find_some _ _ F)).
  - destruct (negb (Store.utf8_encodable summary_text)); [discriminate|].
    cbv zeta.
    destruct (negb (Store.utf8_encodable analysis_type)); [discriminate|].
    destruct (negb (Store.fits_int64 processing_time_sec)); [discriminate|].
    intros H. inversion H; subst. split; [reflexivity|].
    split; [|split; reflexivity].
    unfold Store.same_request.
    cbn [Store.a_document_id Store.a_user_id Store.a_query].
    rewrite !N.eqb_refl, str_eqb_refl. reflexivity.
Qed.

(** A later call for the same document, user and query finds what the first
    call found or stored, in every state that has kept the analyses. *)
Lemma create_again inserted_id created_now updated_now st document_id
  user_id analysis_type query summary_text confidence_score
  data_quality_score processing_time_sec st' a doc usr :
  ObjectId document_id = Some doc -> ObjectId user_id = Some usr ->
  Store.create_analysis_result E ObjectId inserted_id created_now updated_now
    st document_id user_id analysis_type query summary_text
    confidence_score data_quality_score processing_time_sec
  = (st', Store.Done a) ->
  let stored :=
    match List.find (Store.same_request doc usr query)
            (Store.analysis_results st) with
    | Some _ => a
    | None => Store.as_stored a
    end in
  In stored (Store.analysis_results st')
  /\ forall inserted_id' created_now' updated_now' st'' more analysis_type'
            summary_text' confidence_score' data_quality_score'
            processing_time_sec',
      Store.analysis_results st'' = Store.analysis_results st' ++ more ->
      Store.create_analysis_result E ObjectId inserted_id' created_now'
        updated_now' st'' document_id user_id analysis_type' query
        summary_text' confidence_score' data_quality_score'
        processing_time_sec'
      = (st'', Store.Done stored).
Proof.
  intros D U H.
  destruct (create_returns _ _ _ _ _ _ _ _ _ _ _ _ _ _ _ _ D U H)
    as (Q & R & C).
  cbv zeta.
  assert (F : List.find (Store.same_request doc usr query)
                (Store.analysis_results st')
              = Some match List.find (Store.same_request doc usr query)
                             (Store.analysis_results st) with
                     | Some _ => a
                     | None => Store.as_stored a
                     end).
  { destruct (List.find _ (Store.analysis_results st)) as [existing|] eqn:F0.
    - destruct C as [-> ->]. exact F0.
    - destruct C as [-> _]. rewrite find_app, F0. cbn [List.find].
      rewrite same_request_as_stored, R. reflexivity. }
  split; [exact (proj1 (find_some _ _ F))|].
  intros inserted_id' created_now' updated_now' st'' more analysis_type'
    summary_text' confidence_score' data_quality_score' processing_time_sec'
    Hmore.
  unfold Store.create_analysis_result. rewrite D, U, Q. cbn [negb].
  rewrite Hmore, find_app, F. reflexivity.
Qed.

Lemma create_counts inserted_id created_now updated_now st document_id
  user_id analysis_type query summary_text confidence_score
  data_quality_score processing_time_sec st' a doc usr :
  ObjectId document_id = Some doc -> ObjectId user_id = Some usr ->
  Store.create_analysis_result E ObjectId inserted_id created_now updated_now
    st document_id user_id analysis_type query summary_text
    confidence_score data_quality_score processing_time_sec
  = (st', Store.Done a) ->
  let is_new :=
    match List.find (Store.same_request doc usr query)
            (Store.analysis_results st) with
    | Some _ => 0
    | None => 1
    end in
  Store.get_user_analysis_count ObjectId st' user_id
  = Store.get_user_analysis_count ObjectId st user_id + is_new
  /\ (forall owner_id owner,
        ObjectId owner_id = Some owner ->
        Store.get_user_completed_analysis_count ObjectId st' owner_id
        = Store.get_user_completed_analysis_count ObjectId st owner_id
          + match List.find (fun d => N.eqb (Store.d_id d) doc)
                    (Store.documents st) with
            | Some d => if completed_for owner d then is_new else 0
            | None => 0
            end).
Proof.
  intros D U. unfold Store.create_analysis_result,
    Store.get_user_analysis_count, Store.get_user_completed_analysis_count.
  rewrite D, U. cbv zeta.
  destruct (negb (Store.utf8_encodable query)); [discriminate|].
  destruct (List.find _ (Store.analysis_results st)) as [existing|].
  - intros H. inversion H; subst. split; [lia|].
    intros owner_id owner O. rewrite O.
    destruct (List.find _ (Store.documents _)) as [d|]; [|lia].
    destruct (completed_for owner d); lia.
  - destruct (negb (Store.utf8_encodable summary_text)); [discriminate|].
    destruct (negb (Store.utf8_encodable analysis_type)); [discriminate|].
    destruct (negb (Store.fits_int64 processing_time_sec)); [discriminate|].
    intros H. inversion H; subst. clear H.
    cbn [Store.analysis_results Store.documents]. split.
    + rewrite filter_app, length_app.
      cbn [filter Store.a_user_id Store.as_stored].
      rewrite N.eqb_refl. simpl. lia.
    + intros owner_id owner O. rewrite O.
      fold (completed_for owner).
      match goal with
      | |- fold_left ?f (filter _ ?l1) 0 = fold_left ?f (filter _ ?l2) 0 + _ =>
          change (total_ids (filter (completed_for owner) l1)
                  = total_ids (filter (completed_for owner) l2)
                    + match List.find (fun d => N.eqb (Store.d_id d) doc) l2 with
                      | Some d => if completed_for owner d then 1 else 0
                      | None => 0
                      end)
      end.
      apply push_counts.
Qed.

Lemma structured_analysis_access st analysis_id current_user a :
  Store.get_structured_analysis ObjectId oid_str st analysis_id current_user
  = Store.Done a ->
  In a (Store.analysis_results st)
  /\ ObjectId analysis_id = Some (Store.a_id a)
  /\ (oid_str (Store.a_user_id a) = Store.id current_user
      \/ Store.role current_user = lit "Admin").
Proof.
  unfold Store.get_structured_analysis.
  destruct (ObjectId analysis_id) as [aid|]; [|discriminate].
  destruct (List.find _ _) as [found|] eqn:F; [|discriminate].
  destruct (_ && _)%bool eqn:C; [discriminate|].
  intros H. inversion H; subst. apply find_some in F as [I Eq].
  apply N.eqb_eq in Eq. subst aid.
  split; [exact I|]. split; [reflexivity|].
  apply andb_false_iff in C as [C|C]; apply negb_false_iff, str_eqb_eq in C;
    auto.
Qed.
End StoreProperties.

Lemma extract_metrics_lookup (E : pyenv) (table : list (string * list regex))
  (text : str) (name : string) (ps : list regex) :
  NoDup (map fst table) ->
  In (name, ps) table ->
  forall m,
    dict_get name (extract_metrics E table text m) =
      match first_match E ps text with
      | Some v => Some v
      | None => dict_get name m
      end.
Proof.
  induction table as [|[k qs] table IH]; simpl; intros ND HIn m;
    [contradiction|].
  inversion ND as [|? ? Hk ND']; subst.
  destruct HIn as [H|H].
  - inversion H; subst. unfold extract_metrics. simpl.
    fold (extract_metrics E table text
            match first_match E ps text with
            | Some v => dict_set name v m
            | None => m
            end).
    rewrite (extract_metrics_other E _ _ _ Hk).
    destruct (first_match E ps text); [apply dict_get_set_same|reflexivity].
  - unfold extract_metrics. simpl.
    fold (extract_metrics E table text
            match first_match E qs text with
            | Some v => dict_set k v m
            | None => m
            end).
    rewrite (IH ND' H).
    destruct (first_match E ps text); [reflexivity|].
    destruct (first_match E qs text); [|reflexivity].
    apply dict_get_set_other. intros ->. apply Hk.
    change name with (fst (name, ps)). apply in_map, H.
Qed.

(** ** Further properties of the two implementations *)

(** X1.  A report of more than 200 words reaches the line loop of the
    repository as a single line: the section-aware pass stores nothing, all
    findings come from the fallback pass, and no list gets more than one entry
    for each of its fallback headers (two, one for opportunities). *)
Theorem long_report_uses_fallback_only (E : pyenv) (s : str) :
  200 < length (split_ws s) ->
  (forall d, Repo.section_pass E (Repo.scanned_text s) d = d)
  /\ points (Repo.extract_financial_data_points E (PyStr s)) =
       Repo._extract_insights_fallback E (Repo.scanned_text s)
         (set_metrics
            (extract_metrics E Repo.financial_patterns (Repo.scanned_text s) [])
            empty_points)
  /\ (forall k,
        length (entries k (points (Repo.extract_financial_data_points E
                                     (PyStr s))))
        <= fallback_room k).
Proof.
  intros L. pose proof (capped_text_no_newline s L) as N.
  split; [intros d; apply repo_section_pass_one_line, N|].
  split; [exact (repo_long_report E s L)|].
  intros k. cbn [Repo.extract_financial_data_points Repo.extract_try points].
  rewrite (repo_long_report E s L).
  destruct (repo_fallback_one_line E (Repo.scanned_text s)
              (set_metrics
                 (extract_metrics E Repo.financial_patterns
                    (Repo.scanned_text s) [])
                 empty_points) N k) as (more & Em & Lm).
  rewrite Em, entries_set_metrics. destruct k; simpl; exact Lm.
Qed.

Lemma long_report_uses_fallback_only_witness :
  length (entries KeyFindings
            (points (Repo.extract_financial_data_points ascii_env
                       (PyStr long_report)))) <= 2.
Proof.
  apply (long_report_uses_fallback_only ascii_env long_report).
  vm_compute. lia.
Defined.

(** X2.  For a report of more than 200 words the user service returns no key
    finding, financial highlight, risk or opportunity, and at most one
    insight: the capped text is one line of 200 characters or more, which
    every loop but the bullet test of the first skips. *)
Theorem user_long_report_has_no_findings (E : pyenv) (s : str) :
  200 < length (split_ws s) ->
  key_findings (points (User.extract_financial_data_points E (PyStr s))) = []
  /\ financial_highlights
       (points (User.extract_financial_data_points E (PyStr s))) = []
  /\ risks (points (User.extract_financial_data_points E (PyStr s))) = []
  /\ opportunities
       (points (User.extract_financial_data_points E (PyStr s))) = []
  /\ length (insights (points (User.extract_financial_data_points E
                                 (PyStr s)))) <= 1.
Proof.
  intros L. cbn [User.extract_financial_data_points User.extract_try points].
  pose proof (user_long_report E s KeyFindings L) as K.
  pose proof (user_long_report E s FinancialHighlights L) as F.
  pose proof (user_long_report E s Risks L) as R.
  pose proof (user_long_report E s Opportunities L) as O.
  pose proof (user_long_report E s Insights L) as I.
  cbn [entries only section_eqb] in K, F, R, O, I.
  repeat split; try exact I;
    match goal with
    | H : length ?l <= 0 |- ?l = [] => destruct l; [reflexivity|simpl in H; lia]
    end.
Qed.

Lemma user_long_report_has_no_findings_witness :
  risks (points (User.extract_financial_data_points ascii_env
                   (PyStr long_report))) = [].
Proof.
  apply (user_long_report_has_no_findings ascii_env long_report).
  vm_compute. lia.
Defined.

(** X3.  The two finding passes of the repository only add at the end of a
    list: the entries a list had stay, in their order, in front of the new
    ones. *)
Theorem findings_keep_earlier_entries (E : pyenv) (text : str)
  (d : data_points) (k : section) :
  (exists more, entries k (Repo.section_pass E text d) = entries k d ++ more)
  /\ (exists more,
         entries k (Repo._extract_insights_fallback E text d)
         = entries k d ++ more)
  /\ (exists more, entries k (Repo.findings E text d) = entries k d ++ more).
Proof.
  split; [apply repo_section_pass_extends|].
  split; [apply repo_fallback_extends|apply repo_findings_extends].
Qed.

(** X4.  While a section is current, the line loop of the repository stores
    the bullets in the order of the lines and keeps the first five: after a
    run of bullet lines the list of the section is its first five entries
    among the old ones and the bullets, and the other lists are as before. *)
Theorem bullets_stored_first_five (E : pyenv) (k : section)
  (lines : list str) (d : data_points) :
  Forall (storable E) lines ->
  length (entries k d) <= 5 ->
  fst (fold_left (Repo.line_step E) lines (Some k, d)) = Some k
  /\ entries k (snd (fold_left (Repo.line_step E) lines (Some k, d)))
     = firstn 5 (entries k d ++ map bullet_content lines)
  /\ (forall k', k' <> k ->
        entries k' (snd (fold_left (Repo.line_step E) lines (Some k, d)))
        = entries k' d).
Proof. intros F L. exact (bullets_stored_in_order E k lines F d L). Qed.

(** Seven bullets for one section. *)
Definition seven_bullets : list str :=
  map (fun n => lit "- Opportunity in market " ++ [n])
    [49; 50; 51; 52; 53; 54; 55]%N.

Lemma bullets_stored_first_five_witness :
  entries Opportunities
    (snd (fold_left (Repo.line_step ascii_env) seven_bullets
            (Some Opportunities, empty_points)))
  = firstn 5 (map bullet_content seven_bullets).
Proof.
  apply (bullets_stored_first_five ascii_env Opportunities seven_bullets
           empty_points).
  - repeat constructor; try (intros []); vm_compute; reflexivity.
  - simpl. lia.
Defined.

(** X5.  The metrics mapping holds only names of a fixed vocabulary, each at
    most once: the four metrics of the repository; in the user service the
    ten of its pattern tables and "debt" and "gross_margin" of its advanced
    extraction. *)
Theorem metric_names_are_fixed (E : pyenv) (x : pyobj) :
  incl (keys (metrics (points (Repo.extract_financial_data_points E x))))
    ["revenue"; "operating_income"; "net_income"; "cash"]%string
  /\ NoDup (keys (metrics (points (Repo.extract_financial_data_points E x))))
  /\ incl (keys (metrics (points (User.extract_financial_data_points E x))))
       ["revenue"; "operating_income"; "net_income"; "cash"; "free_cash_flow";
        "operating_margin"; "net_margin"; "revenue_change"; "income_change";
        "growth_rate"; "debt"; "gross_margin"]%string
  /\ NoDup (keys (metrics (points (User.extract_financial_data_points E x)))).
Proof.
  destruct x as [s|].
  - destruct (repo_metrics_named E s) as [IR NR].
    destruct (user_metrics_named E s) as [IU NU]. auto.
  - repeat split; try (intros n []); constructor.
Qed.

(** X6.  In the repository a metric is present exactly when one of its
    patterns matches the scanned text, and its value is then the first match
    of the first such pattern. *)
Theorem repo_metric_is_first_match (E : pyenv) (s : str) (name : string)
  (patterns : list regex) :
  In (name, patterns) Repo.financial_patterns ->
  dict_get name
    (metrics (points (Repo.extract_financial_data_points E (PyStr s))))
  = first_match E patterns (Repo.scanned_text s).
Proof.
  intros H. cbn [Repo.extract_financial_data_points Repo.extract_try points].
  rewrite repo_metrics.
  rewrite (extract_metrics_lookup E _ _ _ _ repo_keys_NoDup H).
  destruct (first_match _ _ _); reflexivity.
Qed.

Lemma repo_metric_is_first_match_witness :
  dict_get "cash"
    (metrics (points (Repo.extract_financial_data_points ascii_env
                        (PyStr priority_report))))
  = None.
Proof.
  rewrite (repo_metric_is_first_match ascii_env priority_report "cash"
             [labelled_money ["cash"; "cash equivalents"]%string;
              labelled_amount ["cash"; "cash equivalents"]%string]).
  - vm_compute. reflexivity.
  - vm_compute. tauto.
Defined.

(** X7.  [_advanced_financial_extraction] only adds: it leaves key findings,
    risks and opportunities as they are, keeps the insights and the financial
    highlights it was given in front of the ones it adds, and keeps the value
    of every metric that was already set. *)
Theorem advanced_extraction_only_adds (E : pyenv) (text : str)
  (d : data_points) :
  key_findings (User._advanced_financial_extraction E text d) = key_findings d
  /\ risks (User._advanced_financial_extraction E text d) = risks d
  /\ opportunities (User._advanced_financial_extraction E text d)
     = opportunities d
  /\ (exists more,
         insights (User._advanced_financial_extraction E text d)
         = insights d ++ more)
  /\ (exists more,
         financial_highlights (User._advanced_financial_extraction E text d)
         = financial_highlights d ++ more)
  /\ (forall k v,
        dict_get k (metrics d) = Some v ->
        dict_get k (metrics (User._advanced_financial_extraction E text d))
        = Some v).
Proof.
  destruct (advanced_extraction_keeps E text d) as ((K & R & O & I & F) & M).
  auto 10.
Qed.

Lemma advanced_extraction_only_adds_witness :
  dict_get "revenue"
    (metrics (User._advanced_financial_extraction ascii_env
                (lit "Sales reached $7M and cash was $2M")
                (set_metrics [("revenue"%string, lit "$5")] empty_points)))
  = Some (lit "$5").
Proof.
  apply (advanced_extraction_only_adds ascii_env).
  reflexivity.
Defined.

(** X8.  The user service returns at most three key findings, three risks and
    three opportunities. *)
Theorem user_short_lists_at_most_three (E : pyenv) (x : pyobj) :
  length (key_findings (points (User.extract_financial_data_points E x))) <= 3
  /\ length (risks (points (User.extract_financial_data_points E x))) <= 3
  /\ length (opportunities (points (User.extract_financial_data_points E x)))
     <= 3.
Proof.
  destruct x as [s|].
  - exact (user_points_short E s).
  - simpl. lia.
Qed.

(** X9.  The score of the repository is 0.0 exactly when no metric and no
    finding was extracted, and 1.0 exactly when there is a metric and every
    one of the five lists has an entry. *)
Theorem repo_score_zero_and_one (E : pyenv) (x : pyobj) :
  (extraction_quality_score (Repo.extract_financial_data_points E x) =? 0)%float
  = negb (truthy (metrics (points (Repo.extract_financial_data_points E x)))
          || Repo.any_findings
               (points (Repo.extract_financial_data_points E x)))
  /\ (extraction_quality_score (Repo.extract_financial_data_points E x)
      =? 1)%float
     = (truthy (metrics (points (Repo.extract_financial_data_points E x)))
        && forallb
             (fun k =>
                truthy (entries k
                          (points (Repo.extract_financial_data_points E x))))
             all_sections)%bool.
Proof.
  destruct x as [s|]; [|split; vm_compute; reflexivity].
  cbn [Repo.extract_financial_data_points Repo.extract_try points
         extraction_quality_score].
  unfold Repo.extraction_quality, Repo.any_findings.
  cbn [existsb forallb all_sections entries].
  destruct (truthy (metrics _)), (truthy (insights _)),
    (truthy (key_findings _)), (truthy (financial_highlights _)),
    (truthy (risks _)), (truthy (opportunities _));
    split; vm_compute; reflexivity.
Qed.

(** X10.  The score of the user service is 0.0 exactly when there is no
    metric, insight, financial highlight, risk or opportunity (key findings
    do not count), and it stays below 1.0. *)
Theorem user_score_zero_and_below_one (E : pyenv) (x : pyobj) :
  (extraction_quality_score (User.extract_financial_data_points E x) =? 0)%float
  = negb (truthy (metrics (points (User.extract_financial_data_points E x)))
          || truthy (insights
                       (points (User.extract_financial_data_points E x)))
          || truthy (financial_highlights
                       (points (User.extract_financial_data_points E x)))
          || truthy (risks (points (User.extract_financial_data_points E x)))
          || truthy (opportunities
                       (points (User.extract_financial_data_points E x))))
  /\ (extraction_quality_score (User.extract_financial_data_points E x)
      <? 1)%float = true.
Proof.
  destruct x as [s|]; [|split; vm_compute; reflexivity].
  cbn [User.extract_financial_data_points User.extract_try points
         extraction_quality_score].
  unfold User.extraction_quality.
  destruct (truthy (metrics _)), (truthy (insights _)),
    (truthy (financial_highlights _)), (truthy (risks _)),
    (truthy (opportunities _));
    split; vm_compute; reflexivity.
Qed.

(** X11.  With the confidence 0.85 that the callers pass, the confidence that
    [create_analysis_result] stores lies between 0.85 and 0.95 and is never
    cut to 1.0, whatever the report; it is 0.85 exactly when the score is
    0.0.  Both implementations. *)
Theorem stored_confidence_range (E : pyenv) (x : pyobj) :
  let repo :=
    Store.adjusted_confidence Store.caller_confidence
      (Repo.extract_financial_data_points E x) in
  let user :=
    Store.adjusted_confidence Store.caller_confidence
      (User.extract_financial_data_points E x) in
  ((0.85 <=? repo) && (repo <=? 0.95) && (0.85 <=? user) && (user <=? 0.95))%float
  = true
  /\ (repo =? 0.85)%float
     = (extraction_quality_score (Repo.extract_financial_data_points E x)
        =? 0)%float
  /\ (user =? 0.85)%float
     = (extraction_quality_score (User.extract_financial_data_points E x)
        =? 0)%float.
Proof.
  destruct x as [s|]; [|repeat split; vm_compute; reflexivity].
  cbv zeta.
  cbn [Repo.extract_financial_data_points Repo.extract_try
         User.extract_financial_data_points User.extract_try].
  unfold Store.adjusted_confidence, Store.caller_confidence.
  cbn [extraction_quality_score].
  unfold Repo.extraction_quality, User.extraction_quality.
  destruct (truthy (metrics (Repo.extract_points E s))),
    (truthy (insights (Repo.extract_points E s))),
    (truthy (key_findings (Repo.extract_points E s))),
    (truthy (financial_highlights (Repo.extract_points E s))),
    (truthy (risks (Repo.extract_points E s))),
    (truthy (opportunities (Repo.extract_points E s)));
    destruct (truthy (metrics (User.extract_points E s))),
      (truthy (insights (User.extract_points E s))),
      (truthy (financial_highlights (User.extract_points E s))),
      (truthy (risks (User.extract_points E s))),
      (truthy (opportunities (User.extract_points E s)));
    repeat split; vm_compute; reflexivity.
Qed.

(** *** A small database for the examples *)

(** Ids of one character stand for the 24 hexadecimal digits. *)
Definition sample_ObjectId (s : str) : option Store.oid :=
  match s with
  | [c] => Some c
  | _ => None
  end.

Definition sample_oid_str (o : Store.oid) : str := [o].

Definition sample_inserted_id (st : Store.db) : Store.oid :=
  (1000 + N.of_nat (length (Store.analysis_results st)))%N.

(** One completed document, [d], of the user [u]; no analysis yet. *)
Definition sample_db : Store.db :=
  {| Store.analysis_results := [];
     Store.documents :=
       [{| Store.d_id := 100; Store.d_user_id := 117;
           Store.d_file_name := lit "report.pdf";
           Store.d_status := lit "completed";
           Store.d_analysis_ids := [];
           Store.d_updated_at := 0 |}] |}%N.

Definition sample_create (st : Store.db) (query summary_text : str)
  : Store.db * Store.attempt Store.analysis_doc :=
  Store.create_analysis_result ascii_env sample_ObjectId sample_inserted_id
    1%N 2%N st (lit "d") (lit "u") (lit "Financial Document Analysis") query
    summary_text Store.caller_confidence 0.9%float 3%Z.

(** X12.  [create_analysis_result] keeps one analysis for a document, a user
    and a query.  After a call has returned, the collection holds the
    analysis of the three: the one that the call found, or the one that it
    built, as stored, which is what it returned but for [created_at], cut to
    milliseconds.  Every later call for the same three returns that stored
    analysis and leaves the database as it is, whatever its other arguments,
    its clock and the state, as long as the analyses that were there are
    still there, in front: and no call removes or changes one, a call only
    adds at the end. *)
Theorem create_analysis_result_once (E : pyenv)
  (ObjectId : str -> option Store.oid) (inserted_id : Store.db -> Store.oid)
  (created_now updated_now : Store.time) (st st' : Store.db)
  (document_id user_id analysis_type query summary_text : str)
  (confidence_score data_quality_score : float) (processing_time_sec : Z)
  (a : Store.analysis_doc) (doc usr : Store.oid) :
  ObjectId document_id = Some doc ->
  ObjectId user_id = Some usr ->
  Store.create_analysis_result E ObjectId inserted_id created_now updated_now
    st document_id user_id analysis_type query summary_text confidence_score
    data_quality_score processing_time_sec
  = (st', Store.Done a) ->
  let stored :=
    match List.find (Store.same_request doc usr query)
            (Store.analysis_results st) with
    | Some _ => a
    | None => Store.as_stored a
    end in
  In stored (Store.analysis_results st')
  /\ (forall inserted_id' created_now' updated_now' st'' more analysis_type'
             summary_text' confidence_score' data_quality_score'
             processing_time_sec',
        Store.analysis_results st'' = Store.analysis_results st' ++ more ->
        Store.create_analysis_result E ObjectId inserted_id' created_now'
          updated_now' st'' document_id user_id analysis_type' query
          summary_text' confidence_score' data_quality_score'
          processing_time_sec'
        = (st'', Store.Done stored))
  /\ (forall inserted_id' created_now' updated_now' st0 document_id' user_id'
             analysis_type' query' summary_text' confidence_score'
             data_quality_score' processing_time_sec',
        exists more,
          Store.analysis_results
            (fst (Store.create_analysis_result E ObjectId inserted_id'
                    created_now' updated_now' st0 document_id' user_id'
                    analysis_type' query' summary_text' confidence_score'
                    data_quality_score' processing_time_sec'))
          = Store.analysis_results st0 ++ more).
Proof.
  intros D U H.
  destruct (create_again E ObjectId inserted_id created_now updated_now _ _ _
              _ _ _ _ _ _ _ _ _ _ D U H) as [I Again].
  split; [exact I|]. split; [exact Again|].
  intros. apply create_appends.
Qed.

Lemma create_analysis_result_once_witness :
  exists a,
    sample_create sample_db (lit "q") priority_report
    = (fst (sample_create sample_db (lit "q") priority_report), Store.Done a)
    /\ sample_create (fst (sample_create sample_db (lit "q") priority_report))
         (lit "q") (lit "another report")
       = (fst (sample_create sample_db (lit "q") priority_report),
          Store.Done (Store.as_stored a))
    /\ Store.a_created_at a = 1%N
    /\ Store.a_created_at (Store.as_stored a) = 0%N
    /\ snd (sample_create
              (fst (sample_create
                      (fst (sample_create sample_db (lit "q") priority_report))
                      (lit "another question") priority_report))
              (lit "q") priority_report)
       = Store.Done (Store.as_stored a).
Proof.
  assert (H : exists a,
             sample_create sample_db (lit "q") priority_report
             = (fst (sample_create sample_db (lit "q") priority_report),
                Store.Done a)
             /\ Store.a_created_at a = 1%N)
    by (eexists; split; vm_compute; reflexivity).
  destruct H as (a & H & T). exists a.
  destruct (create_analysis_result_once ascii_env sample_ObjectId
              sample_inserted_id 1%N 2%N sample_db _ (lit "d") (lit "u")
              (lit "Financial Document Analysis") (lit "q") priority_report
              Store.caller_confidence 0.9%float 3%Z a 100%N 117%N
              eq_refl eq_refl H) as (_ & Again & _).
  cbn [List.find Store.analysis_results sample_db] in Again.
  split; [exact H|].
  split.
  { apply (Again sample_inserted_id 1%N 2%N _ []).
    rewrite app_nil_r. reflexivity. }
  split; [exact T|].
  split; [unfold Store.as_stored; cbn [Store.a_created_at]; rewrite T;
          reflexivity|].
  unfold sample_create at 1.
  rewrite (Again sample_inserted_id 1%N 2%N
             (fst (sample_create
                     (fst (sample_create sample_db (lit "q") priority_report))
                     (lit "another question") priority_report))
             (skipn 1
                (Store.analysis_results
                   (fst (sample_create
                           (fst (sample_create sample_db (lit "q")
                                   priority_report))
                           (lit "another question") priority_report)))));
    [reflexivity|].
  vm_compute. reflexivity.
Defined.

(** X13.  A call of [create_analysis_result] that returns raises the user's
    count of analyses by one when it stored a new analysis and leaves it when
    it found a stored one; the count of completed analyses of a user rises by
    one only when the analysis is new and the first document with the given
    id is a completed document of that user. *)
Theorem create_analysis_result_counts (E : pyenv)
  (ObjectId : str -> option Store.oid) (inserted_id : Store.db -> Store.oid)
  (created_now updated_now : Store.time) (st st' : Store.db)
  (document_id user_id analysis_type query summary_text : str)
  (confidence_score data_quality_score : float) (processing_time_sec : Z)
  (a : Store.analysis_doc) (doc usr : Store.oid) :
  ObjectId document_id = Some doc ->
  ObjectId user_id = Some usr ->
  Store.create_analysis_result E ObjectId inserted_id created_now updated_now
    st document_id user_id analysis_type query summary_text confidence_score
    data_quality_score processing_time_sec
  = (st', Store.Done a) ->
  Store.get_user_analysis_count ObjectId st' user_id
  = Store.get_user_analysis_count ObjectId st user_id
    + match List.find (Store.same_request doc usr query)
              (Store.analysis_results st) with
      | Some _ => 0
      | None => 1
      end
  /\ (forall owner_id owner,
        ObjectId owner_id = Some owner ->
        Store.get_user_completed_analysis_count ObjectId st' owner_id
        = Store.get_user_completed_analysis_count ObjectId st owner_id
          + match List.find (fun d => N.eqb (Store.d_id d) doc)
                    (Store.documents st) with
            | Some d =>
                if completed_for owner d
                then match List.find (Store.same_request doc usr query)
                             (Store.analysis_results st) with
                     | Some _ => 0
                     | None => 1
                     end
                else 0
            | None => 0
            end).
Proof.
  intros D U H.
  exact (create_counts E ObjectId inserted_id created_now updated_now _ _ _ _
           _ _ _ _ _ _ _ _ _ D U H).
Qed.

Lemma create_analysis_result_counts_witness :
  Store.get_user_analysis_count sample_ObjectId
    (fst (sample_create sample_db (lit "q") priority_report)) (lit "u") = 1
  /\ Store.get_user_completed_analysis_count sample_ObjectId
       (fst (sample_create sample_db (lit "q") priority_report)) (lit "u") = 1.
Proof.
  assert (H : exists a,
             sample_create sample_db (lit "q") priority_report
             = (fst (sample_create sample_db (lit "q") priority_report),
                Store.Done a))
    by (eexists; vm_compute; reflexivity).
  destruct H as [a H].
  destruct (create_analysis_result_counts ascii_env sample_ObjectId
              sample_inserted_id 1%N 2%N sample_db _ (lit "d") (lit "u")
              (lit "Financial Document Analysis") (lit "q") priority_report
              Store.caller_confidence 0.9%float 3%Z a 100%N 117%N
              eq_refl eq_refl H) as [C1 C2].
  split; [rewrite C1; reflexivity|].
  rewrite (C2 (lit "u") 117%N eq_refl). reflexivity.
Defined.

(** X14.  [get_structured_analysis] returns an analysis only to its owner or
    to an administrator: what it returns is the stored analysis with the
    given id, and either the id of the current user is that of the analysis'
    user or the role of the current user is "Admin". *)
Theorem structured_analysis_for_owner_or_admin
  (ObjectId : str -> option Store.oid) (oid_str : Store.oid -> str)
  (st : Store.db) (analysis_id : str) (current_user : Store.user)
  (a : Store.analysis_doc) :
  Store.get_structured_analysis ObjectId oid_str st analysis_id current_user
  = Store.Done a ->
  In a (Store.analysis_results st)
  /\ ObjectId analysis_id = Some (Store.a_id a)
  /\ (oid_str (Store.a_user_id a) = Store.id current_user
      \/ Store.role current_user = lit "Admin").
Proof. apply structured_analysis_access. Qed.

Lemma structured_analysis_for_owner_or_admin_witness :
  exists a,
    Store.get_structured_analysis sample_ObjectId sample_oid_str
      (fst (sample_create sample_db (lit "q") priority_report))
      [1000%N] {| Store.id := lit "u"; Store.role := lit "Viewer" |}
    = Store.Done a
    /\ (sample_oid_str (Store.a_user_id a) = lit "u"
        \/ lit "Viewer" = lit "Admin")
    /\ Store.get_structured_analysis sample_ObjectId sample_oid_str
         (fst (sample_create sample_db (lit "q") priority_report))
         [1000%N] {| Store.id := lit "v"; Store.role := lit "Viewer" |}
       = Store.Failed (Store.HTTPException 403).
Proof.
  assert (H : exists a,
             Store.get_structured_analysis sample_ObjectId sample_oid_str
               (fst (sample_create sample_db (lit "q") priority_report))
               [1000%N] {| Store.id := lit "u"; Store.role := lit "Viewer" |}
             = Store.Done a)
    by (eexists; vm_compute; reflexivity).
  destruct H as (a & H). exists a.
  split; [exact H|]. split; [|vm_compute; reflexivity].
  exact (proj2 (proj2 (structured_analysis_for_owner_or_admin sample_ObjectId
                         sample_oid_str _ _ _ a H))).
Defined.

(** *** The shape of what a pattern matches *)

(** The least number of characters that a match of [r] has. *)
Fixpoint min_len (r : regex) : nat :=
  match r with
  | Eps => 0
  | Chr _ => 1
  | Seq a b => min_len a + min_len b
  | Alt a b => Nat.min (min_len a) (min_len b)
  | Rep a lo _ _ => lo * min_len a
  | Group a => min_len a
  end.

(** Every match of [r] sets group 1. *)
Fixpoint captures (r : regex) : bool :=
  match r with
  | Eps | Chr _ => false
  | Seq a b => (captures a || captures b)%bool
  | Alt a b => (captures a && captures b)%bool
  | Rep a lo _ _ => ((0 <? lo) && captures a)%bool
  | Group _ => true
  end.

(** A character that a money figure or a grouped number may hold: a decimal
    digit, "$", "," or ".", or one of B, M, K in either case. *)
Definition metric_char (E : pyenv) (x : char) : bool :=
  (isdecimal E x || char_in x [36; 44; 46]%N
   || char_in (tolower E x) [98; 109; 107]%N)%bool.

Section Shapes.
Variable E : pyenv.
(** What the characters of group 1 may be, and its least length. *)
Variable in_group : char -> bool.
Variable group_len : nat.

(** The classes inside the groups of [r] accept only characters of
    [in_group], and a group has at least [group_len] characters. *)
Fixpoint shaped (inside : bool) (r : regex) : Prop :=
  match r with
  | Eps => True
  | Chr c =>
      inside = true -> forall x, cmatch E c x = true -> in_group x = true
  | Seq a b | Alt a b => shaped inside a /\ shaped inside b
  | Rep a _ _ _ => shaped inside a
  | Group a => shaped true a /\ group_len <= min_len a
  end.

Fixpoint no_group (r : regex) : bool :=
  match r with
  | Eps | Chr _ => true
  | Seq a b | Alt a b => (no_group a && no_group b)%bool
  | Rep a _ _ _ => no_group a
  | Group _ => false
  end.

Lemma no_group_shaped (r : regex) : no_group r = true -> shaped false r.
Proof.
  induction r; simpl; try rewrite andb_true_iff; try tauto; try discriminate.
Qed.

(** Group 1 as a match leaves it. *)
Definition good_group (g : str) : Prop :=
  group_len <= length g /\ Forall (fun x => in_group x = true) g.

Definition good_or_unset (cap : option str) : Prop :=
  cap = None \/ exists g, cap = Some g /\ good_group g.

(** What a step of the matcher has consumed and what it did to group 1. *)
Definition step_ok (inside : bool) (r_min : nat) (r_captures : bool)
  (cap : option str) (s : str) (cap' : option str) (s' : str) : Prop :=
  exists pre,
    s = pre ++ s'
    /\ r_min <= length pre
    /\ (inside = true -> Forall (fun x => in_group x = true) pre)
    /\ ((cap' = cap /\ r_captures = false)
        \/ exists g, cap' = Some g /\ good_group g).

Lemma step_ok_refl inside cap s : step_ok inside 0 false cap s cap s.
Proof. exists []. repeat split; simpl; auto. Qed.

Lemma step_ok_good inside n c cap s cap' s' :
  good_or_unset cap -> step_ok inside n c cap s cap' s' -> good_or_unset cap'.
Proof.
  intros G (pre & _ & _ & _ & [[-> _]|H]); [exact G|right; exact H].
Qed.

Lemma step_ok_seq inside n1 c1 n2 c2 cap s cap1 s1 cap2 s2 :
  step_ok inside n1 c1 cap s cap1 s1 ->
  step_ok inside n2 c2 cap1 s1 cap2 s2 ->
  step_ok inside (n1 + n2) (c1 || c2) cap s cap2 s2.
Proof.
  intros (p1 & -> & L1 & I1 & G1) (p2 & -> & L2 & I2 & G2).
  exists (p1 ++ p2). rewrite <- app_assoc, length_app.
  split; [reflexivity|]. split; [lia|].
  split; [intros H; apply Forall_app; auto|].
  destruct G2 as [[-> C2]|G2]; [|right; exact G2].
  destruct G1 as [[-> C1]|G1]; [|right; exact G1].
  left. rewrite C1, C2. auto.
Qed.

Lemma step_ok_weaken inside n c n' c' cap s cap' s' :
  n' <= n -> (c' = true -> c = true) ->
  step_ok inside n c cap s cap' s' -> step_ok inside n' c' cap s cap' s'.
Proof.
  intros Hn Hc (p & -> & L & I & G). exists p.
  repeat split; auto; [lia|].
  destruct G as [[-> C]|G]; [left|right; exact G].
  split; [reflexivity|]. destruct c'; [|reflexivity].
  rewrite Hc in C by reflexivity. discriminate.
Qed.

Section Matchers.
Variable A : Type.

Definition shaped_matcher (inside : bool) (r_min : nat) (r_captures : bool)
  (f : matcher A) : Prop :=
  forall cap s k res,
    good_or_unset cap ->
    f cap s k = Some res ->
    exists cap' s',
      k cap' s' = Some res
      /\ step_ok inside r_min r_captures cap s cap' s'.

Lemma iter_min_shaped inside n c (f : matcher A) (m : nat) :
  shaped_matcher inside n c f ->
  shaped_matcher inside (m * n) ((0 <? m) && c) (iter_min f m).
Proof.
  intros Hf. induction m as [|m IH]; intros cap s k res G H; simpl in H.
  - exists cap, s. split; [exact H|]. apply step_ok_refl.
  - apply (Hf _ _ _ _ G) in H as (cap1 & s1 & H & S1).
    apply (IH _ _ _ _ (step_ok_good _ _ _ _ _ _ _ G S1)) in H
      as (cap2 & s2 & H & S2).
    exists cap2, s2. split; [exact H|].
    apply (step_ok_weaken inside (n + m * n) (c || ((0 <? m) && c)));
      [simpl; lia| |exact (step_ok_seq _ _ _ _ _ _ _ _ _ _ _ S1 S2)].
    simpl. intros ->. reflexivity.
Qed.

Lemma iter_opt_shaped inside n c (f : matcher A) (greedy : bool) (fuel : nat) :
  shaped_matcher inside n c f ->
  shaped_matcher inside 0 false (iter_opt f greedy fuel).
Proof.
  intros Hf. induction fuel as [|fuel IH]; intros cap s k res G H; simpl in H.
  - exists cap, s. split; [exact H|]. apply step_ok_refl.
  - assert (Hagain :
        f cap s (fun cap' s' =>
                   if length s' <? length s
                   then iter_opt f greedy fuel cap' s' k
                   else None) = Some res ->
        exists cap' s',
          k cap' s' = Some res /\ step_ok inside 0 false cap s cap' s').
    { intros H1. apply (Hf _ _ _ _ G) in H1 as (cap1 & s1 & H1 & S1).
      destruct (length s1 <? length s); [|discriminate].
      apply (IH _ _ _ _ (step_ok_good _ _ _ _ _ _ _ G S1)) in H1
        as (cap2 & s2 & H1 & S2).
      exists cap2, s2. split; [exact H1|].
      apply (step_ok_weaken inside (n + 0) (c || false));
        [lia|discriminate|exact (step_ok_seq _ _ _ _ _ _ _ _ _ _ _ S1 S2)]. }
    assert (Hstop :
        k cap s = Some res ->
        exists cap' s',
          k cap' s' = Some res /\ step_ok inside 0 false cap s cap' s').
    { intros H1. exists cap, s. split; [exact H1|]. apply step_ok_refl. }
    destruct greedy; apply orelse_some in H as [H|H]; auto.
Qed.

Lemma rmatch_at_shaped (r : regex) :
  forall inside,
    shaped inside r ->
    shaped_matcher inside (min_len r) (captures r) (rmatch_at E (A:=A) r).
Proof.
  induction r as [|c|a IHa b IHb|a IHa b IHb|a IHa lo hi greedy|a IHa];
    intros inside Sh cap s k res G H; simpl in H.
  - exists cap, s. split; [exact H|]. apply step_ok_refl.
  - destruct s as [|x s]; [discriminate|].
    destruct (cmatch E c x) eqn:C; [|discriminate].
    exists cap, s. split; [exact H|]. exists [x].
    split; [reflexivity|]. split; [simpl; lia|].
    split; [intros I; constructor; [exact (Sh I x C)|constructor]|].
    left. auto.
  - destruct Sh as [Sa Sb].
    apply (IHa inside Sa _ _ _ _ G) in H as (cap1 & s1 & H & S1).
    apply (IHb inside Sb _ _ _ _ (step_ok_good _ _ _ _ _ _ _ G S1)) in H
      as (cap2 & s2 & H & S2).
    exists cap2, s2. split; [exact H|].
    exact (step_ok_seq _ _ _ _ _ _ _ _ _ _ _ S1 S2).
  - destruct Sh as [Sa Sb]. apply orelse_some in H as [H|H].
    + apply (IHa inside Sa _ _ _ _ G) in H as (cap1 & s1 & H & S1).
      exists cap1, s1. split; [exact H|].
      apply (step_ok_weaken inside (min_len a) (captures a)); [simpl; lia| |exact S1].
      simpl. rewrite andb_true_iff. tauto.
    + apply (IHb inside Sb _ _ _ _ G) in H as (cap1 & s1 & H & S1).
      exists cap1, s1. split; [exact H|].
      apply (step_ok_weaken inside (min_len b) (captures b)); [simpl; lia| |exact S1].
      simpl. rewrite andb_true_iff. tauto.
  - simpl in Sh.
    apply (iter_min_shaped _ _ _ _ lo (IHa inside Sh) _ _ _ _ G) in H
      as (cap1 & s1 & H & S1).
    apply (iter_opt_shaped _ _ _ _ greedy _ (IHa inside Sh) _ _ _ _
             (step_ok_good _ _ _ _ _ _ _ G S1)) in H as (cap2 & s2 & H & S2).
    exists cap2, s2. split; [exact H|].
    apply (step_ok_weaken inside (lo * min_len a + 0)
             ((0 <? lo) && captures a || false));
      [simpl; lia| |exact (step_ok_seq _ _ _ _ _ _ _ _ _ _ _ S1 S2)].
    simpl. rewrite orb_false_r. tauto.
  - destruct Sh as [Sa La].
    apply (IHa true Sa _ _ _ _ G) in H as (cap1 & s1 & H & S1).
    eexists _, s1. split; [exact H|].
    destruct S1 as (pre & -> & L & I & _). exists pre.
    split; [reflexivity|]. split; [exact L|].
    split; [intros _; exact (I eq_refl)|].
    right. eexists. split; [reflexivity|].
    rewrite length_app, Nat.add_sub, firstn_app, Nat.sub_diag, firstn_all.
    simpl. rewrite app_nil_r. split; [simpl in *; lia|exact (I eq_refl)].
Qed.
End Matchers.

(** A match found by the scan: group 1 is as the pattern shapes it, and the
    match is as long as the pattern asks. *)
Definition shaped_match (r : regex) (m : rmatch) : Prop :=
  min_len r <= length (m_whole m)
  /\ (forall g, m_group m = Some g -> good_group g)
  /\ (captures r = true -> exists g, m_group m = Some g).

Lemma match_here_shaped (r : regex) (s : str) (cap : option str) (rest : str) :
  shaped false r ->
  match_here E r s = Some (cap, rest) ->
  min_len r <= length s - length rest
  /\ length s - length rest <= length s
  /\ (forall g, cap = Some g -> good_group g)
  /\ (captures r = true -> exists g, cap = Some g).
Proof.
  intros Sh H. unfold match_here in H.
  apply (rmatch_at_shaped _ r false Sh) in H as (cap' & s' & H & S);
    [|left; reflexivity].
  inversion H; subst. destruct S as (pre & -> & L & _ & G).
  rewrite length_app, Nat.add_sub. split; [exact L|]. split; [lia|].
  destruct G as [[-> C]|(g & -> & Gg)].
  - split; [discriminate|]. rewrite C. discriminate.
  - split; [intros g' Hg; inversion Hg; subst; exact Gg|eauto].
Qed.

Lemma whole_length (s rest : str) (n : nat) :
  n <= length s - length rest ->
  n <= length (firstn (length s - length rest) s).
Proof. intros H. rewrite length_firstn. lia. Qed.

Lemma search_shaped (r : regex) (s : str) :
  shaped false r ->
  forall skipped m, search E r skipped s = Some m -> shaped_match r m.
Proof.
  intros Sh. induction s as [|c s IH]; intros skipped m H; cbn [search] in H;
    destruct (match_here E r _) as [[cap rest]|] eqn:M; try discriminate.
  - destruct (match_here_shaped _ _ _ _ Sh M) as (L & L' & G & C).
    injection H as <-. split; [|split; assumption].
    exact (whole_length [] rest _ L).
  - destruct (match_here_shaped _ _ _ _ Sh M) as (L & L' & G & C).
    injection H as <-. split; [|split; assumption].
    exact (whole_length (c :: s) rest _ L).
  - exact (IH _ _ H).
Qed.

Lemma finditer_shaped (r : regex) (s : str) (m : rmatch) :
  shaped false r -> In m (finditer E r s) -> shaped_match r m.
Proof.
  intros Sh. unfold finditer. generalize (S (length s)) as fuel, 0 as offset.
  intros fuel. revert s. induction fuel as [|fuel IH]; intros s offset H;
    simpl in H; [contradiction|].
  destruct (search E r offset s) as [m0|] eqn:S0; [|contradiction].
  destruct H as [<-|H]; [exact (search_shaped _ _ Sh _ _ S0)|].
  destruct (m_whole m0).
  - destruct (skipn _ s); [contradiction|exact (IH _ _ H)].
  - exact (IH _ _ H).
Qed.

Lemma findall_shaped (r : regex) (s v : str) :
  shaped false r -> captures r = true ->
  In v (findall E r s) -> good_group v.
Proof.
  intros Sh C. unfold findall. rewrite in_map_iff. intros (m & <- & H).
  destruct (finditer_shaped _ _ _ Sh H) as (_ & G & Cm).
  destruct (Cm C) as (g & Hg). unfold findall_item. rewrite Hg.
  assert (HG : has_group r = true).
  { clear -C. induction r; simpl in *; try discriminate; try reflexivity.
    - apply orb_true_iff in C as [C|C]; [rewrite IHr1|rewrite IHr2];
        auto using orb_true_r.
    - apply andb_true_iff in C as [C1 C2]. rewrite IHr1; auto.
    - apply andb_true_iff in C as [_ C]. auto. }
  rewrite HG. exact (G g Hg).
Qed.

Lemma first_match_shaped (patterns : list regex) (text v : str) :
  Forall (fun p => shaped false p /\ captures p = true) patterns ->
  first_match E patterns text = Some v -> good_group v.
Proof.
  induction 1 as [|p ps [Sh C] _ IH]; simpl; [discriminate|].
  destruct (findall E p text) as [|m l] eqn:F; [exact IH|].
  intros H. inversion H; subst. apply (findall_shaped p text); auto.
  rewrite F. left. reflexivity.
Qed.

Lemma extract_metrics_shaped (table : list (string * list regex))
  (text : str) (m : dict) :
  Forall (fun entry =>
            Forall (fun p => shaped false p /\ captures p = true) (snd entry))
    table ->
  values good_group m ->
  values good_group (extract_metrics E table text m).
Proof.
  intros HT. unfold extract_metrics. revert m.
  apply fold_left_invariant_In. intros a [name ps] Hin Ha. simpl.
  destruct (first_match E ps text) as [v|] eqn:F; [|exact Ha].
  apply values_set; [|exact Ha].
  rewrite Forall_forall in HT. exact (first_match_shaped _ _ _ (HT _ Hin) F).
Qed.
End Shapes.

(** *** The values of the metrics *)

Ltac class_in_group :=
  let x := fresh "x" in
  let H := fresh "H" in
  intros _ x H; unfold metric_char, char_in;
  cbn [cmatch existsb] in H |- *;
  change (case_fixes 98%N) with (@nil char) in H;
  change (case_fixes 109%N) with (@nil char) in H;
  change (case_fixes 107%N) with (@nil char) in H;
  unfold char_in in H; cbn [existsb] in H;
  repeat match type of H with
         | context [N.eqb ?a ?b] => destruct (N.eqb a b)
         | context [isdecimal ?e ?a] => destruct (isdecimal e a)
         end;
  cbn in H |- *; try reflexivity; try discriminate;
  repeat match goal with
         | |- context [N.eqb ?a ?b] => destruct (N.eqb a b)
         | |- context [isdecimal ?e ?a] => destruct (isdecimal e a)
         end; reflexivity.

Section MetricShapes.
Variable E : pyenv.

Lemma money_shaped :
  shaped E (metric_char E) 1 true money /\ 1 <= min_len money.
Proof.
  split; [|vm_compute; lia].
  let m := eval vm_compute in money in change money with m.
  cbn [shaped]. repeat split; class_in_group.
Qed.

Lemma grouped_number_shaped :
  shaped E (metric_char E) 1 true grouped_number
  /\ 1 <= min_len grouped_number.
Proof.
  split; [|vm_compute; lia].
  let m := eval vm_compute in grouped_number in change grouped_number with m.
  cbn [shaped]. repeat split; class_in_group.
Qed.

Lemma labelled_money_shaped (labels : list string) :
  no_group (words labels) = true ->
  shaped E (metric_char E) 1 false (labelled_money labels)
  /\ captures (labelled_money labels) = true.
Proof.
  intros N. unfold labelled_money. cbn [seq_of shaped captures].
  split; [|rewrite !orb_true_r; reflexivity].
  split; [apply no_group_shaped, N|].
  split; [apply no_group_shaped; reflexivity|exact money_shaped].
Qed.

Lemma labelled_amount_shaped (labels : list string) :
  no_group (words labels) = true ->
  shaped E (metric_char E) 1 false (labelled_amount labels)
  /\ captures (labelled_amount labels) = true.
Proof.
  intros N. unfold labelled_amount. cbn [seq_of shaped captures].
  split; [|rewrite ?orb_true_r; reflexivity].
  split; [apply no_group_shaped, N|].
  split; [apply no_group_shaped; reflexivity|].
  split; [exact grouped_number_shaped|].
  split; apply no_group_shaped; reflexivity.
Qed.

Lemma repo_patterns_shaped :
  Forall (fun entry =>
            Forall (fun p => shaped E (metric_char E) 1 false p
                             /\ captures p = true) (snd entry))
    Repo.financial_patterns.
Proof.
  unfold Repo.financial_patterns.
  repeat first [apply Forall_nil | apply Forall_cons; cbn [snd]];
    first [apply labelled_money_shaped|apply labelled_amount_shaped];
    reflexivity.
Qed.

Lemma repo_metric_values_shaped (s : str) :
  values (good_group (metric_char E) 1) (metrics (Repo.extract_points E s)).
Proof.
  rewrite repo_metrics.
  apply extract_metrics_shaped; [exact repo_patterns_shaped|apply values_nil].
Qed.
End MetricShapes.

(** X15. Whatever [AnalysisRepository.extract_financial_data_points] is
    called with, every value of the metrics it returns is a figure: it is
    not empty and holds only decimal digits, "$", "," and ".", and the
    letters B, M and K in either case; no label, no blank and no scale word
    is part of a stored value. *)
Theorem repo_metric_values_are_figures (E : pyenv) (summary_text : pyobj)
  (k : string) (v : str) :
  In (k, v)
    (metrics (points (Repo.extract_financial_data_points E summary_text))) ->
  1 <= length v /\ Forall (fun x => metric_char E x = true) v.
Proof.
  unfold Repo.extract_financial_data_points, Repo.extract_try.
  destruct summary_text as [s|]; cbn [points]; intros H.
  - exact (repo_metric_values_shaped E s k v H).
  - destruct H.
Qed.

Lemma repo_metric_values_are_figures_witness :
  In ("revenue"%string, lit "1,250.50")
    (metrics (points (Repo.extract_financial_data_points ascii_env
                        (PyStr (lit "Sales reached 1,250.50 million")))))
  /\ (1 <= length (lit "1,250.50")
      /\ Forall (fun x => metric_char ascii_env x = true) (lit "1,250.50")).
Proof.
  split; [vm_compute; left; reflexivity|].
  apply (repo_metric_values_are_figures ascii_env
           (PyStr (lit "Sales reached 1,250.50 million")) "revenue").
  vm_compute; left; reflexivity.
Defined.
